(** * waweb: the WhatsApp session manager and its webhook pipeline

    A shallow embedding of [WhatsAppManager] (the revision with bounded
    initialisation retries, and the older revision kept under
    [src/services/whatsapp-manager.js], in [Module Legacy] and
    [Module LegacyLifecycle]) together with the parts of [models/database.js]
    the manager calls and the routes of [routes/devices.js] that delete,
    restart and test a device.

    Conventions of the embedding:
    - a JavaScript string is a [string]; a character stands for the code unit
      with the same number (the Latin-1 range);
    - JavaScript numbers, [JSON.parse] and [JSON.stringify] are built-ins of
      the engine, not code of the repository: they are the fields of the
      classes [JSNumber] and [JSON], and every result holds for all instances;
    - an [async] method is run to completion; what the provider, the HTTP
      endpoint and [uuidv4] answer is passed in as an outcome;
    - everything the manager writes (rows of the messages, stats and logs
      tables, logger lines, HTTP requests, provider calls) is appended to a
      chronological trace; the devices table and the two maps of the manager
      are state, because the manager reads them back. *)

From Stdlib Require Import ZArith Ascii String List Bool Lia.
From stdpp Require Import base option list gmap strings pretty.

Open Scope string_scope.
Set Warnings "-register-all".

(** ** JavaScript strings *)

Module JSString.

(** White space of [String.prototype.trim] among the code units below 256:
    TAB, LF, VT, FF, CR, SP and NBSP. *)
Definition is_whitespace (c : ascii) : bool :=
  let n := nat_of_ascii c in
  ((9 <=? n)%nat && (n <=? 13)%nat) || (n =? 32)%nat || (n =? 160)%nat.

Fixpoint trim_start (s : string) : string :=
  match s with
  | String c s' => if is_whitespace c then trim_start s' else s
  | EmptyString => EmptyString
  end.

Fixpoint trim_end (s : string) : string :=
  match s with
  | EmptyString => EmptyString
  | String c s' =>
      match trim_end s' with
      | EmptyString => if is_whitespace c then EmptyString else String c EmptyString
      | t => String c t
      end
  end.

(** [s.trim()] *)
Definition trim (s : string) : string := trim_end (trim_start s).

(** Only white space, or nothing at all. *)
Fixpoint blank (s : string) : bool :=
  match s with
  | EmptyString => true
  | String c s' => is_whitespace c && blank s'
  end.

(** A string is truthy when it is not empty. *)
Definition nonempty (s : string) : bool :=
  match s with EmptyString => false | String _ _ => true end.

(** [s.includes(sub)] *)
Fixpoint includes (sub s : string) : bool :=
  String.prefix sub s ||
  match s with
  | EmptyString => false
  | String _ s' => includes sub s'
  end.

(** [s.split(sep)] for a one-character separator: never the empty list. *)
Fixpoint split (sep : ascii) (s : string) : list string :=
  match s with
  | EmptyString => [EmptyString]
  | String c s' =>
      if Ascii.eqb c sep then EmptyString :: split sep s'
      else match split sep s' with
           | h :: t => String c h :: t
           | [] => [String c EmptyString]
           end
  end.

(** [s.split(sep)[0]] *)
Definition split_head (sep : ascii) (s : string) : string :=
  match split sep s with
  | h :: _ => h
  | [] => EmptyString
  end.

(** [s.substring(0, n)] *)
Definition substring0 (n : nat) (s : string) : string := String.substring 0 n s.

Fixpoint drop (n : nat) (s : string) : string :=
  match n, s with
  | S k, String _ s' => drop k s'
  | _, _ => s
  end.

(** [GetSubstitution] of ECMAScript for a pattern without capture groups: in
    the replacement text [$$] stands for a dollar sign, [$&] for the matched
    text, [$`] for the text before the match and [$'] for the text after it;
    every other character, a lone dollar sign included, stands for itself. *)
Fixpoint GetSubstitution (matched before after replacement : string) : string :=
  match replacement with
  | EmptyString => EmptyString
  | String c r =>
      if Ascii.eqb c "$" then
        match r with
        | String d r' =>
            if Ascii.eqb d "$" then String "$" (GetSubstitution matched before after r')
            else if Ascii.eqb d "&" then matched ++ GetSubstitution matched before after r'
            else if Ascii.eqb d "`" then before ++ GetSubstitution matched before after r'
            else if Ascii.eqb d "'" then after ++ GetSubstitution matched before after r'
            else String c (GetSubstitution matched before after r)
        | EmptyString => String c EmptyString
        end
      else String c (GetSubstitution matched before after r)
  end.

(** [s.replace(new RegExp(pat, 'g'), replacement)] for a pattern [pat] that
    matches itself only (no metacharacter takes effect) and is not empty:
    the matches are found from left to right and do not overlap.  [before]
    is the part of the subject already passed, [skip] counts the characters
    of the current match still to pass. *)
Fixpoint replace_go (pat replacement before : string) (skip : nat) (s : string) : string :=
  match s with
  | EmptyString => EmptyString
  | String c s' =>
      match skip with
      | S k => replace_go pat replacement (before ++ String c EmptyString) k s'
      | O =>
          if String.prefix pat s then
            GetSubstitution pat before (drop (String.length pat) s) replacement
            ++ replace_go pat replacement (before ++ String c EmptyString)
                 (String.length pat - 1) s'
          else String c (replace_go pat replacement (before ++ String c EmptyString) 0 s')
      end
  end.

Definition replace_all (pat replacement s : string) : string :=
  replace_go pat replacement EmptyString 0 s.

(** What a replacement that inserts [replacement] as it stands would give. *)
Fixpoint replace_literal_go (pat replacement : string) (skip : nat) (s : string) : string :=
  match s with
  | EmptyString => EmptyString
  | String c s' =>
      match skip with
      | S k => replace_literal_go pat replacement k s'
      | O =>
          if String.prefix pat s then
            replacement ++ replace_literal_go pat replacement (String.length pat - 1) s'
          else String c (replace_literal_go pat replacement 0 s')
      end
  end.

Definition replace_literal (pat replacement s : string) : string :=
  replace_literal_go pat replacement 0 s.

(** The canonical numeric strings, the names of array elements: ["0"], or
    digits that do not start with ["0"]. *)
Definition digit_of (c : ascii) : option nat :=
  let n := nat_of_ascii c in
  if ((48 <=? n)%nat && (n <=? 57)%nat) then Some (n - 48)%nat else None.

Fixpoint digits_value (acc : nat) (s : string) : option nat :=
  match s with
  | EmptyString => Some acc
  | String c s' =>
      match digit_of c with
      | Some d => digits_value (10 * acc + d) s'
      | None => None
      end
  end.

Definition array_index (s : string) : option nat :=
  match s with
  | EmptyString => None
  | String c s' =>
      if Ascii.eqb c "0" then (if nonempty s' then None else Some 0%nat)
      else digits_value 0 s
  end.

End JSString.

(** ** JavaScript values *)

(** The number type of the engine.  [number_truthy] is [ToBoolean] (false
    on zero and NaN), [Number_of_nat] the number of a length,
    [String_of_number] is [String(n)]. *)
Class JSNumber := {
  number : Type;
  number_truthy : number -> bool;
  Number_of_nat : nat -> number;
  String_of_number : number -> string;
}.

Fixpoint assoc {A : Type} (key : string) (props : list (string * A)) : option A :=
  match props with
  | [] => None
  | (k, v) :: rest => if String.eqb k key then Some v else assoc key rest
  end.

Section Values.
Context {num : JSNumber}.

(** What [JSON.parse] and [axios] hand to the manager.  An object lists its
    own properties in insertion order, its keys are distinct. *)
Inductive value :=
| VUndefined
| VNull
| VBool (b : bool)
| VNum (n : number)
| VStr (s : string)
| VArr (items : list value)
| VObj (props : list (string * value)).

Definition typeof (v : value) : string :=
  match v with
  | VUndefined => "undefined"
  | VNull => "object"
  | VBool _ => "boolean"
  | VNum _ => "number"
  | VStr _ => "string"
  | VArr _ => "object"
  | VObj _ => "object"
  end.

(** [ToBoolean] *)
Definition truthy (v : value) : bool :=
  match v with
  | VUndefined => false
  | VNull => false
  | VBool b => b
  | VNum n => number_truthy n
  | VStr s => JSString.nonempty s
  | VArr _ => true
  | VObj _ => true
  end.

(** [String(v)] for the primitive values [buildDynamicPayload] passes. *)
Definition String_of (v : value) : string :=
  match v with
  | VBool true => "true"
  | VBool false => "false"
  | VNum n => String_of_number n
  | VStr s => s
  | VNull => "null"
  | _ => "undefined"
  end.

(** [p in v] for an object or an array [v].  Own properties only: the
    members [in] also finds on [Object.prototype] and [Array.prototype] are
    functions, or prototype objects whose members are functions, so a
    traversal that enters one of them ends without a string, as it does on
    a miss. *)
Definition has_property (p : string) (v : value) : bool :=
  match v with
  | VObj props => bool_decide (is_Some (assoc p props))
  | VArr items =>
      match JSString.array_index p with
      | Some i => (i <? length items)%nat
      | None => String.eqb p "length"
      end
  | _ => false
  end.

(** [v[p]] for a [v] that is neither [null] nor [undefined]. *)
Definition member (v : value) (p : string) : value :=
  match v with
  | VObj props => default VUndefined (assoc p props)
  | VArr items =>
      match JSString.array_index p with
      | Some i => default VUndefined (items !! i)
      | None =>
          if String.eqb p "length" then VNum (Number_of_nat (length items))
          else VUndefined
      end
  | VStr s =>
      match JSString.array_index p with
      | Some i =>
          match String.get i s with
          | Some c => VStr (String c EmptyString)
          | None => VUndefined
          end
      | None =>
          if String.eqb p "length" then VNum (Number_of_nat (String.length s))
          else VUndefined
      end
  | _ => VUndefined
  end.

(** An exception value: [message] of every [Error]; [code] and [response]
    as axios sets them on a failed request. *)
Record JSError := {
  error_message : string;
  error_code : option string;
  error_response : option (Z * value);
}.

(** [new Error(text)] *)
Definition Error (text : string) : JSError :=
  {| error_message := text; error_code := None; error_response := None |}.

(** The [TypeError] of V8 for a property read on [null] or [undefined]. *)
Definition TypeError_read (v : value) (p : string) : JSError :=
  Error ("Cannot read properties of " ++ String_of v ++ " (reading '" ++ p ++ "')").

Inductive result (A : Type) :=
| Return (a : A)
| Throw (e : JSError).
#[global] Arguments Return {A} a.
#[global] Arguments Throw {A} e.

(** [v.p]: throws on [null] and [undefined]. *)
Definition get (v : value) (p : string) : result value :=
  match v with
  | VUndefined | VNull => Throw (TypeError_read v p)
  | _ => Return (member v p)
  end.

(** [a || b] where reading [a] may throw *)
Definition or_else (a b : result value) : result value :=
  match a with
  | Return v => if truthy v then Return v else b
  | Throw e => Throw e
  end.

End Values.

(** [JSON.parse] throws a [SyntaxError] on a text that is not JSON;
    [JSON.stringify] only feeds log lines. *)
Class JSON `{JSNumber} := {
  JSON_parse : string -> result value;
  JSON_stringify : value -> string;
}.

(** ** The session store, the provider and the manager state *)

Section Model.
Context {num : JSNumber} {json : JSON}.

(** A row of the devices table.  [created_at] and [updated_at] are left
    out: nothing reads them. *)
Record Device := {
  device_id_of : string;
  device_name : string;
  phone_number : option string;
  status : string;
  webhook_url : option string;
  webhook_enabled : Z;
  webhook_response_enabled : Z;
  webhook_body_template : option string;
  webhook_response_path : option string;
  qr_code : option string;
}.

(** The columns the manager passes to [deviceModel.update]; [None] leaves
    a column as it is. *)
Record DevicePatch := {
  patch_status : option string;
  patch_phone_number : option (option string);
  patch_qr_code : option (option string);
}.

(** The message object of the provider's [message] event. *)
Record Message := {
  msg_id_serialized : string;
  msg_from : string;
  msg_to : string;
  msg_body : string;
  msg_type : string;
  msg_timestamp : number;
  msg_notifyName : option string;
  msg_isStatus : bool;
  msg_hasMedia : bool;
  msg_isForwarded : option bool;
  msg_broadcast : option bool;
}.

(** What [client.sendMessage] resolves to. *)
Record SentMessage := {
  sent_id_serialized : string;
  sent_from : string;
  sent_to : string;
  sent_timestamp : number;
}.

(** A row of the messages table. *)
Record MessageData := {
  row_id : string;
  device_id : string;
  message_id : string;
  from_number : string;
  to_number : string;
  message_body : value;
  message_type : string;
  timestamp : number;
  direction : string;
}.

(** The provider instance of a device. *)
Record Client := { clientId : string }.

(** What the manager does to the outside, in the order it does it. *)
Inductive Event :=
| Logger (level text : string)
| LogCreate (deviceId level text : string)
| MessageCreate (row : MessageData)
| StatsIncrement (deviceId field : string)
| AxiosPost (url : string) (payload : value)
| ClientInitialize (deviceId : string)
| ClientDestroy (deviceId : string)
| ClientSendMessage (deviceId chatId : string) (content : value).

Record World := {
  clients : list (string * Client);
  initializationAttempts : gmap string nat;
  devices : gmap string Device;
  trace : list Event;
}.

Definition maxRetries : nat := 3.

(** The manager after its constructor, over a devices table. *)
Definition new_manager (table : gmap string Device) : World :=
  {| clients := []; initializationAttempts := ∅; devices := table; trace := [] |}.

(** *** A JavaScript [Map], in insertion order *)

Definition Map_has {A : Type} (key : string) (m : list (string * A)) : bool :=
  bool_decide (is_Some (assoc key m)).

Definition Map_get {A : Type} (key : string) (m : list (string * A)) : option A :=
  assoc key m.

Fixpoint Map_set {A : Type} (key : string) (v : A) (m : list (string * A)) : list (string * A) :=
  match m with
  | [] => [(key, v)]
  | (k, x) :: rest =>
      if String.eqb k key then (k, v) :: rest else (k, x) :: Map_set key v rest
  end.

Fixpoint Map_delete {A : Type} (key : string) (m : list (string * A)) : list (string * A) :=
  match m with
  | [] => []
  | (k, x) :: rest =>
      if String.eqb k key then Map_delete key rest else (k, x) :: Map_delete key rest
  end.


(** *** State and exceptions *)

Definition M (A : Type) : Type := World -> result A * World.

Definition ret {A : Type} (a : A) : M A := fun w => (Return a, w).

Definition throw {A : Type} (e : JSError) : M A := fun w => (Throw e, w).

Definition bind {A B : Type} (m : M A) (k : A -> M B) : M B :=
  fun w =>
    match m w with
    | (Return a, w') => k a w'
    | (Throw e, w') => (Throw e, w')
    end.

(** [try { body } catch (error) { handler }] *)
Definition try_catch {A : Type} (body : M A) (handler : JSError -> M A) : M A :=
  fun w =>
    match body w with
    | (Return a, w') => (Return a, w')
    | (Throw e, w') => handler e w'
    end.

(** A promise that has settled, awaited. *)
Definition settle {A : Type} (outcome : result A) : M A :=
  fun w => (outcome, w).

Definition gets {A : Type} (f : World -> A) : M A := fun w => (Return (f w), w).

Definition emit (e : Event) : M unit :=
  fun w =>
    (Return tt,
     {| clients := clients w; initializationAttempts := initializationAttempts w;
        devices := devices w; trace := trace w ++ [e] |}).

Definition set_clients (f : list (string * Client) -> list (string * Client)) : M unit :=
  fun w =>
    (Return tt,
     {| clients := f (clients w); initializationAttempts := initializationAttempts w;
        devices := devices w; trace := trace w |}).

Definition set_attempts (f : gmap string nat -> gmap string nat) : M unit :=
  fun w =>
    (Return tt,
     {| clients := clients w; initializationAttempts := f (initializationAttempts w);
        devices := devices w; trace := trace w |}).

Definition set_devices (f : gmap string Device -> gmap string Device) : M unit :=
  fun w =>
    (Return tt,
     {| clients := clients w; initializationAttempts := initializationAttempts w;
        devices := f (devices w); trace := trace w |}).

End Model.

Notation "x <- m ;; k" := (bind m (fun x => k))
  (at level 100, m at next level, k at level 200, right associativity, only parsing).
Notation "m ;;; k" := (bind m (fun _ => k))
  (at level 100, k at level 200, right associativity, only parsing).

(** ** models/database.js, and the calls that leave the process *)

Section Collaborators.
Context {num : JSNumber} {json : JSON}.

Definition apply_patch (p : DevicePatch) (d : Device) : Device :=
  {| device_id_of := device_id_of d;
     device_name := device_name d;
     phone_number := default (phone_number d) (patch_phone_number p);
     status := default (status d) (patch_status p);
     webhook_url := webhook_url d;
     webhook_enabled := webhook_enabled d;
     webhook_response_enabled := webhook_response_enabled d;
     webhook_body_template := webhook_body_template d;
     webhook_response_path := webhook_response_path d;
     qr_code := default (qr_code d) (patch_qr_code p) |}.

(** [UPDATE devices SET ... WHERE id = ?]: no row, no change. *)
Definition deviceModel_update (id : string) (data : DevicePatch) : M unit :=
  set_devices (alter (apply_patch data) id).

(** [SELECT * FROM devices WHERE id = ?]: [undefined] without a row. *)
Definition deviceModel_findById (id : string) : M (option Device) :=
  gets (fun w => devices w !! id).

Definition messageModel_create (data : MessageData) : M unit :=
  emit (MessageCreate data).

Definition statsModel_increment (deviceId field : string) : M unit :=
  emit (StatsIncrement deviceId field).

Definition logModel_create (deviceId level text : string) : M unit :=
  emit (LogCreate deviceId level text).

Definition logger_info (text : string) : M unit := emit (Logger "info" text).
Definition logger_warn (text : string) : M unit := emit (Logger "warn" text).
Definition logger_error (text : string) : M unit := emit (Logger "error" text).

(** The increments of one counter of one device in a trace: the stats row
    of the device, when it has one, ends that much higher. *)
Definition is_increment (deviceId field : string) (e : Event) : bool :=
  match e with
  | StatsIncrement d f => String.eqb d deviceId && String.eqb f field
  | _ => false
  end.

Definition increments (deviceId field : string) (t : list Event) : nat :=
  length (List.filter (is_increment deviceId field) t).

(** What the endpoint answers to a request. *)
Inductive HttpOutcome :=
| Responded (status : Z) (data : value)
| Failed (e : JSError).

(** [axios.post(url, payload, { validateStatus: status => status < 600 })]:
    a response whose status is refused is thrown with the response inside. *)
Definition axios_post (url : string) (payload : value) (answer : HttpOutcome) : M (Z * value) :=
  emit (AxiosPost url payload) ;;;
  match answer with
  | Responded status data =>
      if (status <? 600)%Z then ret (status, data)
      else throw {| error_message := "Request failed with status code " ++ pretty status;
                    error_code := Some "ERR_BAD_RESPONSE";
                    error_response := Some (status, data) |}
  | Failed e => throw e
  end.

Definition client_initialize (client : Client) (answer : result unit) : M unit :=
  emit (ClientInitialize (clientId client)) ;;; settle answer.

Definition client_destroy (client : Client) (answer : result unit) : M unit :=
  emit (ClientDestroy (clientId client)) ;;; settle answer.

Definition client_sendMessage (client : Client) (chatId : string) (content : value)
    (answer : result SentMessage) : M SentMessage :=
  emit (ClientSendMessage (clientId client) chatId content) ;;; settle answer.

(** An INTEGER column used as a condition. *)
Definition flag (z : Z) : bool := negb (z =? 0)%Z.

(** [s || d] on strings, and on a column or field that may be absent. *)
Definition str_or (s d : string) : string :=
  if JSString.nonempty s then s else d.

Definition opt_or (o : option string) (d : string) : string :=
  match o with
  | Some s => str_or s d
  | None => d
  end.

Definition opt_truthy (o : option string) : bool :=
  match o with
  | Some s => JSString.nonempty s
  | None => false
  end.

Definition tag (deviceId : string) : string := "[" ++ deviceId ++ "] ".

Definition dquote : string := String (ascii_of_nat 34) EmptyString.

End Collaborators.

(** ** WhatsAppManager *)

Section Manager.
Context {num : JSNumber} {json : JSON}.

(** [Promise.race] of [client.initialize()] against the 60 second timer:
    [None] is an initialisation that has not settled when the timer fires. *)
Definition initializeWithTimeout (client : Client) (answer : option (result unit)) : M unit :=
  client_initialize client
    (match answer with
     | Some r => r
     | None => Throw (Error "Initialization timeout")
     end).

Definition createDevice (deviceId name : string)
    (initialize : option (result unit)) (destroy : result unit) : M Client :=
  has <- gets (fun w => Map_has deviceId (clients w)) ;;
  if has then throw (Error "Device already exists")
  else
    attempts <- gets (fun w => default 0%nat (initializationAttempts w !! deviceId)) ;;
    if (maxRetries <=? attempts)%nat then throw (Error "Maximum initialization attempts reached")
    else
      let client := {| clientId := deviceId |} in
      set_clients (Map_set deviceId client) ;;;
      try_catch
        (deviceModel_update deviceId
           {| patch_status := Some "initializing"; patch_phone_number := None;
              patch_qr_code := None |} ;;;
         logger_info (tag deviceId ++ "Starting initialization (attempt "
                      ++ pretty (attempts + 1)%nat ++ "/" ++ pretty maxRetries ++ ")") ;;;
         initializeWithTimeout client initialize ;;;
         set_attempts (delete deviceId) ;;;
         logger_info (tag deviceId ++ "Initialization successful"))
        (fun error =>
           logger_error (tag deviceId ++ "Initialization error: " ++ error_message error) ;;;
           set_clients (Map_delete deviceId) ;;;
           set_attempts (insert deviceId (attempts + 1)%nat) ;;;
           try_catch
             (client_destroy client destroy)
             (fun destroyError =>
                logger_error (tag deviceId ++ "Error destroying client: "
                              ++ error_message destroyError)) ;;;
           throw error) ;;;
      ret client.

(** [extractResponseMessage]: the loop over the segments of the path;
    [None] is the early [return null]. *)
Fixpoint walk (paths : list string) (current : value) : option value :=
  match paths with
  | [] => Some current
  | path :: rest =>
      if truthy current && String.eqb (typeof current) "object" && has_property path current
      then walk rest (member current path)
      else None
  end.

Definition auto_detect (responseData : value) : result value :=
  or_else (get responseData "reply")
    (or_else (get responseData "message")
       (or_else (get responseData "response")
          (or_else (get responseData "text") (Return VNull)))).

Definition extractResponseMessage (responseData : value) (responsePath : option string)
    : result value :=
  if negb (opt_truthy responsePath)
     || negb (JSString.nonempty (JSString.trim (default "" responsePath)))
  then auto_detect responseData
  else
    let paths := JSString.split "." (default "" responsePath) in
    match walk paths responseData with
    | Some current =>
        Return (if String.eqb (typeof current) "string" then current else VNull)
    | None => Return VNull
    end.

Definition sendMessage (deviceId to : string) (content : value)
    (uuid : string) (send : result SentMessage) : M SentMessage :=
  client <- gets (fun w => Map_get deviceId (clients w)) ;;
  match client with
  | None => throw (Error "Device not found")
  | Some client =>
      device <- deviceModel_findById deviceId ;;
      match device with
      | None => throw (TypeError_read VUndefined "status")
      | Some device =>
          if negb (String.eqb (status device) "connected")
          then throw (Error "Device not connected")
          else
            try_catch
              (let chatId := if JSString.includes "@" to then to else to ++ "@c.us" in
               sentMsg <- client_sendMessage client chatId content send ;;
               let messageData :=
                 {| row_id := uuid;
                    device_id := deviceId;
                    message_id := sent_id_serialized sentMsg;
                    from_number := sent_from sentMsg;
                    to_number := sent_to sentMsg;
                    message_body := content;
                    message_type := "chat";
                    timestamp := sent_timestamp sentMsg;
                    direction := "outgoing" |} in
               messageModel_create messageData ;;;
               statsModel_increment deviceId "messages_sent" ;;;
               logger_info (tag deviceId ++ "→ Message sent to " ++ to) ;;;
               ret sentMsg)
              (fun error =>
                 logger_error (tag deviceId ++ "Send error: " ++ error_message error) ;;;
                 throw error)
      end
  end.

(** One step of the [forEach] of [buildDynamicPayload].  The keys the
    manager passes are made of letters and underscores, so the regular
    expression matches its own text. *)
Definition substitute (jsonString : string) (entry : string * value) : string :=
  let regex := "{{" ++ fst entry ++ "}}" in
  match snd entry with
  | VStr s => JSString.replace_all regex s jsonString
  | VNum _ | VBool _ => JSString.replace_all regex (String_of (snd entry)) jsonString
  | _ => JSString.replace_all regex "null" jsonString
  end.

(** The text handed to [JSON.parse]. *)
Definition rendered (template : string) (variables : list (string * value)) : string :=
  fold_left substitute variables template.

Definition buildDynamicPayload (template : string) (variables : list (string * value))
    : result value :=
  JSON_parse (rendered template variables).

Definition from_name_of (msg : Message) : string :=
  opt_or (msg_notifyName msg) (JSString.split_head "@" (msg_from msg)).

Definition getDefaultPayload (deviceId : string) (device : Device) (msg : Message) : value :=
  VObj [ ("device_id", VStr deviceId);
         ("device_name", VStr (device_name device));
         ("from", VStr (msg_from msg));
         ("to", VStr (msg_to msg));
         ("message", VStr (str_or (msg_body msg) ""));
         ("message_type", VStr (msg_type msg));
         ("timestamp", VNum (msg_timestamp msg));
         ("message_id", VStr (msg_id_serialized msg));
         ("from_name", VStr (from_name_of msg)) ].

(** The variables [forwardToWebhook] passes to [buildDynamicPayload]. *)
Definition template_variables (deviceId : string) (device : Device) (msg : Message)
    : list (string * value) :=
  [ ("device_id", VStr deviceId);
    ("device_name", VStr (device_name device));
    ("device_phone", VStr (opt_or (phone_number device) ""));
    ("message_id", VStr (msg_id_serialized msg));
    ("from", VStr (msg_from msg));
    ("to", VStr (msg_to msg));
    ("from_name", VStr (from_name_of msg));
    ("message", VStr (str_or (msg_body msg) ""));
    ("message_type", VStr (msg_type msg));
    ("timestamp", VNum (msg_timestamp msg));
    ("is_group", VBool (JSString.includes "@g.us" (msg_from msg)));
    ("chat_name", VStr (from_name_of msg));
    ("has_media", VBool (msg_hasMedia msg || false));
    ("is_forwarded", VBool (default false (msg_isForwarded msg)));
    ("is_status", VBool (msg_isStatus msg || false));
    ("broadcast", VBool (default false (msg_broadcast msg))) ].

Definition handleWebhookResponse (deviceId : string) (device : Device) (msg : Message)
    (responseData : value) (uuid : string) (send : result SentMessage) : M unit :=
  try_catch
    (replyMessage <- settle (extractResponseMessage responseData (webhook_response_path device)) ;;
     if truthy replyMessage then
       match replyMessage with
       | VStr reply =>
           if JSString.nonempty (JSString.trim reply) then
             sendMessage deviceId (msg_from msg) replyMessage uuid send ;;;
             logger_info (tag deviceId ++ "✓ Auto-reply sent: " ++ dquote
                          ++ JSString.substring0 30 reply ++ "..." ++ dquote) ;;;
             logModel_create deviceId "info" ("Auto-reply sent to " ++ msg_from msg)
           else
             logger_warn (tag deviceId ++ "⚠ No reply message in webhook response") ;;;
             logModel_create deviceId "warn" "No reply message found in response"
       | _ => throw (Error "replyMessage.trim is not a function")
       end
     else
       logger_warn (tag deviceId ++ "⚠ No reply message in webhook response") ;;;
       logModel_create deviceId "warn" "No reply message found in response")
    (fun error =>
       logger_error (tag deviceId ++ "Auto-reply error: " ++ error_message error) ;;;
       logModel_create deviceId "error" ("Auto-reply failed: " ++ error_message error)).

Definition forwardToWebhook (deviceId : string) (device : Device) (msg : Message)
    (messageData : MessageData) (post : HttpOutcome)
    (uuid : string) (send : result SentMessage) : M unit :=
  let url := default "" (webhook_url device) in
  try_catch
    (webhookPayload <-
       (if opt_truthy (webhook_body_template device) then
          try_catch
            (logger_info (tag deviceId ++ "Building custom webhook payload") ;;;
             payload <- settle (buildDynamicPayload
                                  (default "" (webhook_body_template device))
                                  (template_variables deviceId device msg)) ;;
             logModel_create deviceId "info" "Custom payload built" ;;;
             ret payload)
            (fun error =>
               logger_error (tag deviceId ++ "Payload build error: " ++ error_message error) ;;;
               logModel_create deviceId "error" ("Payload error: " ++ error_message error) ;;;
               logModel_create deviceId "warn" "Using default payload" ;;;
               ret (getDefaultPayload deviceId device msg))
        else ret (getDefaultPayload deviceId device msg)) ;;
     logger_info (tag deviceId ++ "→ Webhook: " ++ url) ;;;
     logModel_create deviceId "info" "Calling webhook..." ;;;
     response <- axios_post url webhookPayload post ;;
     statsModel_increment deviceId "webhook_calls" ;;;
     if (200 <=? fst response)%Z && (fst response <? 300)%Z then
       logger_info (tag deviceId ++ "✓ Webhook success: " ++ pretty (fst response)) ;;;
       logModel_create deviceId "info" ("Webhook success: " ++ pretty (fst response)) ;;;
       if flag (webhook_response_enabled device) && truthy (snd response)
       then handleWebhookResponse deviceId device msg (snd response) uuid send
       else ret tt
     else
       logger_warn (tag deviceId ++ "⚠ Webhook status " ++ pretty (fst response)) ;;;
       logModel_create deviceId "warn" ("Webhook returned " ++ pretty (fst response)))
    (fun error =>
       let errorMsg :=
         match error_response error with
         | Some (status, data) => "HTTP " ++ pretty status ++ ": " ++ JSON_stringify data
         | None =>
             if bool_decide (error_code error = Some "ECONNREFUSED")
             then "Connection refused - webhook server unreachable"
             else error_message error
         end in
       logger_error (tag deviceId ++ "✗ Webhook failed: " ++ errorMsg) ;;;
       logModel_create deviceId "error" ("Webhook failed: " ++ errorMsg)).

Definition handleIncomingMessage (deviceId : string) (msg : Message)
    (uuid : string) (post : HttpOutcome)
    (reply_uuid : string) (send : result SentMessage) : M unit :=
  try_catch
    (if msg_isStatus msg then ret tt
     else
       let messageData :=
         {| row_id := uuid;
            device_id := deviceId;
            message_id := msg_id_serialized msg;
            from_number := msg_from msg;
            to_number := msg_to msg;
            message_body := VStr (msg_body msg);
            message_type := msg_type msg;
            timestamp := msg_timestamp msg;
            direction := "incoming" |} in
       messageModel_create messageData ;;;
       statsModel_increment deviceId "messages_received" ;;;
       let preview :=
         if JSString.nonempty (msg_body msg) then JSString.substring0 50 (msg_body msg)
         else "[Media]" in
       logger_info (tag deviceId ++ "← " ++ msg_from msg ++ ": " ++ preview
                    ++ (if (50 <? String.length (msg_body msg))%nat then "..." else "")) ;;;
       logModel_create deviceId "info"
         ("Received from " ++ msg_from msg ++ ": " ++ msg_type msg) ;;;
       device <- deviceModel_findById deviceId ;;
       match device with
       | Some device =>
           if flag (webhook_enabled device) && opt_truthy (webhook_url device) then
             logger_info (tag deviceId ++ "Forwarding to webhook: "
                          ++ default "" (webhook_url device)) ;;;
             forwardToWebhook deviceId device msg messageData post reply_uuid send
           else ret tt
       | None => ret tt
       end)
    (fun error =>
       logger_error (tag deviceId ++ "Error handling message: " ++ error_message error) ;;;
       logModel_create deviceId "error" ("Message handling error: " ++ error_message error)).

Definition disconnectDevice (deviceId : string) (destroy : result unit) : M unit :=
  client <- gets (fun w => Map_get deviceId (clients w)) ;;
  match client with
  | Some client =>
      try_catch
        (client_destroy client destroy ;;;
         set_clients (Map_delete deviceId) ;;;
         deviceModel_update deviceId
           {| patch_status := Some "disconnected"; patch_phone_number := None;
              patch_qr_code := Some None |} ;;;
         logger_info (tag deviceId ++ "Device disconnected and cleaned up") ;;;
         logModel_create deviceId "info" "Device disconnected")
        (fun error =>
           logger_error (tag deviceId ++ "Disconnect error: " ++ error_message error))
  | None => ret tt
  end.

(** *** The segments between the [await]s

    A call runs without interruption up to an [await] and resumes when the
    awaited promise settles; other calls and events may run in between. *)

(** [createDevice] up to [await this.initializeWithTimeout(...)]. *)
Definition createDevice_call (deviceId name : string) : M (Client * nat) :=
  has <- gets (fun w => Map_has deviceId (clients w)) ;;
  if has then throw (Error "Device already exists")
  else
    attempts <- gets (fun w => default 0%nat (initializationAttempts w !! deviceId)) ;;
    if (maxRetries <=? attempts)%nat then throw (Error "Maximum initialization attempts reached")
    else
      let client := {| clientId := deviceId |} in
      set_clients (Map_set deviceId client) ;;;
      deviceModel_update deviceId
        {| patch_status := Some "initializing"; patch_phone_number := None;
           patch_qr_code := None |} ;;;
      logger_info (tag deviceId ++ "Starting initialization (attempt "
                   ++ pretty (attempts + 1)%nat ++ "/" ++ pretty maxRetries ++ ")") ;;;
      emit (ClientInitialize (clientId client)) ;;;
      ret (client, attempts).

(** [createDevice] from that [await] on, with the [attempts] it read. *)
Definition createDevice_resume (deviceId : string) (client : Client) (attempts : nat)
    (initialize : option (result unit)) (destroy : result unit) : M Client :=
  try_catch
    (settle (match initialize with
             | Some r => r
             | None => Throw (Error "Initialization timeout")
             end) ;;;
     set_attempts (delete deviceId) ;;;
     logger_info (tag deviceId ++ "Initialization successful"))
    (fun error =>
       logger_error (tag deviceId ++ "Initialization error: " ++ error_message error) ;;;
       set_clients (Map_delete deviceId) ;;;
       set_attempts (insert deviceId (attempts + 1)%nat) ;;;
       try_catch
         (client_destroy client destroy)
         (fun destroyError =>
            logger_error (tag deviceId ++ "Error destroying client: "
                          ++ error_message destroyError)) ;;;
       throw error) ;;;
  ret client.

(** [disconnectDevice] up to [await client.destroy()]. *)
Definition disconnectDevice_call (deviceId : string) : M (option Client) :=
  client <- gets (fun w => Map_get deviceId (clients w)) ;;
  match client with
  | Some client => emit (ClientDestroy (clientId client)) ;;; ret (Some client)
  | None => ret None
  end.

(** [disconnectDevice] from that [await] on. *)
Definition disconnectDevice_resume (deviceId : string) (pending : option Client)
    (destroy : result unit) : M unit :=
  match pending with
  | Some client =>
      try_catch
        (settle destroy ;;;
         set_clients (Map_delete deviceId) ;;;
         deviceModel_update deviceId
           {| patch_status := Some "disconnected"; patch_phone_number := None;
              patch_qr_code := Some None |} ;;;
         logger_info (tag deviceId ++ "Device disconnected and cleaned up") ;;;
         logModel_create deviceId "info" "Device disconnected")
        (fun error =>
           logger_error (tag deviceId ++ "Disconnect error: " ++ error_message error))
  | None => ret tt
  end.

Fixpoint for_each {A : Type} (f : A -> M unit) (l : list A) : M unit :=
  match l with
  | [] => ret tt
  | x :: rest => f x ;;; for_each f rest
  end.



(** The count [createDevice] compares with [maxRetries]. *)
Definition initAttemptCount (w : World) (deviceId : string) : nat :=
  default 0%nat (initializationAttempts w !! deviceId).

(** One uninterrupted piece of work of the manager: a segment of
    [createDevice] or [disconnectDevice] (a resumed segment with whatever
    it read before its [await]), or anything that leaves both maps as they
    are (message handling, sends, provider events). *)
Inductive step : World -> World -> Prop :=
| step_createDevice_call deviceId name w r w' :
    createDevice_call deviceId name w = (r, w') -> step w w'
| step_createDevice_resume deviceId client attempts initialize destroy w r w' :
    createDevice_resume deviceId client attempts initialize destroy w = (r, w') -> step w w'
| step_disconnectDevice_call deviceId w r w' :
    disconnectDevice_call deviceId w = (r, w') -> step w w'
| step_disconnectDevice_resume deviceId pending destroy w r w' :
    disconnectDevice_resume deviceId pending destroy w = (r, w') -> step w w'
| step_other w w' :
    clients w' = clients w ->
    initializationAttempts w' = initializationAttempts w -> step w w'.

(** The states the manager can be in. *)
Definition reachable (w : World) : Prop :=
  exists table, rtc step (new_manager table) w.

End Manager.

(** ** The older revision, [src/services/whatsapp-manager.js] *)

Module Legacy.
Section Manager.
Context {num : JSNumber} {json : JSON}.

Definition of_column (o : option string) : value :=
  match o with
  | Some s => VStr s
  | None => VNull
  end.

Definition of_field (o : option bool) : value :=
  match o with
  | Some b => VBool b
  | None => VUndefined
  end.

Definition extractResponseMessage (responseData : value) (responsePath : option string)
    : result value :=
  if negb (opt_truthy responsePath) then
    or_else (get responseData "reply")
      (or_else (get responseData "message")
         (or_else (get responseData "response") (Return VNull)))
  else
    let paths := JSString.split "." (default "" responsePath) in
    match walk paths responseData with
    | Some current =>
        Return (if String.eqb (typeof current) "string" then current else VNull)
    | None => Return VNull
    end.

Definition sendMessage (deviceId to : string) (content : value)
    (uuid : string) (send : result SentMessage) : M SentMessage :=
  client <- gets (fun w => Map_get deviceId (clients w)) ;;
  match client with
  | None => throw (Error "Device not found")
  | Some client =>
      device <- deviceModel_findById deviceId ;;
      match device with
      | None => throw (TypeError_read VUndefined "status")
      | Some device =>
          if negb (String.eqb (status device) "connected")
          then throw (Error "Device not connected")
          else
            try_catch
              (let chatId := if JSString.includes "@" to then to else to ++ "@c.us" in
               sentMsg <- client_sendMessage client chatId content send ;;
               let messageData :=
                 {| row_id := uuid;
                    device_id := deviceId;
                    message_id := sent_id_serialized sentMsg;
                    from_number := sent_from sentMsg;
                    to_number := sent_to sentMsg;
                    message_body := content;
                    message_type := "chat";
                    timestamp := sent_timestamp sentMsg;
                    direction := "outgoing" |} in
               messageModel_create messageData ;;;
               statsModel_increment deviceId "messages_sent" ;;;
               logger_info ("Message sent from device " ++ deviceId ++ " to " ++ to) ;;;
               ret sentMsg)
              (fun error =>
                 logger_error ("Error sending message: " ++ error_message error) ;;;
                 throw error)
      end
  end.

Definition substitute (jsonString : string) (entry : string * value) : string :=
  let regex := "{{" ++ fst entry ++ "}}" in
  match snd entry with
  | VStr s => JSString.replace_all regex s jsonString
  | VNum _ | VBool _ => JSString.replace_all regex (String_of (snd entry)) jsonString
  | VNull | VUndefined => JSString.replace_all regex "null" jsonString
  | _ => jsonString
  end.

Definition buildDynamicPayload (template : string) (variables : list (string * value))
    : result value :=
  JSON_parse (fold_left substitute variables template).

Definition getDefaultPayload (deviceId : string) (device : Device) (msg : Message) : value :=
  VObj [ ("device_id", VStr deviceId);
         ("device_name", VStr (device_name device));
         ("from", VStr (msg_from msg));
         ("to", VStr (msg_to msg));
         ("message", VStr (msg_body msg));
         ("message_type", VStr (msg_type msg));
         ("timestamp", VNum (msg_timestamp msg));
         ("message_id", VStr (msg_id_serialized msg)) ].

Definition template_variables (deviceId : string) (device : Device) (msg : Message)
    : list (string * value) :=
  [ ("device_id", VStr deviceId);
    ("device_name", VStr (device_name device));
    ("device_phone", of_column (phone_number device));
    ("message_id", VStr (msg_id_serialized msg));
    ("from", VStr (msg_from msg));
    ("to", VStr (msg_to msg));
    ("from_name", VStr (opt_or (msg_notifyName msg) "Unknown"));
    ("message", VStr (msg_body msg));
    ("message_type", VStr (msg_type msg));
    ("timestamp", VNum (msg_timestamp msg));
    ("is_group", VBool (JSString.includes "@g.us" (msg_from msg)));
    ("chat_name", VStr (opt_or (msg_notifyName msg) (msg_from msg)));
    ("has_media", VBool (msg_hasMedia msg));
    ("is_forwarded", of_field (msg_isForwarded msg));
    ("is_status", VBool (msg_isStatus msg));
    ("broadcast", of_field (msg_broadcast msg)) ].

Definition forwardToWebhook (deviceId : string) (device : Device) (msg : Message)
    (messageData : MessageData) (post : HttpOutcome)
    (uuid : string) (send : result SentMessage) : M unit :=
  let url := default "" (webhook_url device) in
  try_catch
    (logModel_create deviceId "info" "Building webhook payload..." ;;;
     webhookPayload <-
       (if opt_truthy (webhook_body_template device) then
          try_catch
            (logger_info (tag deviceId ++ "Using custom body template") ;;;
             payload <- settle (buildDynamicPayload
                                  (default "" (webhook_body_template device))
                                  (template_variables deviceId device msg)) ;;
             logModel_create deviceId "info" "Custom payload built successfully" ;;;
             ret payload)
            (fun error =>
               logger_error (tag deviceId ++ "Error building dynamic payload: "
                             ++ error_message error) ;;;
               logModel_create deviceId "error"
                 ("Payload build failed: " ++ error_message error) ;;;
               logModel_create deviceId "warn" "Using default payload as fallback" ;;;
               ret (getDefaultPayload deviceId device msg))
        else
          logger_info (tag deviceId ++ "Using default payload") ;;;
          ret (getDefaultPayload deviceId device msg)) ;;
     logger_info (tag deviceId ++ "Sending webhook to: " ++ url) ;;;
     logModel_create deviceId "info" ("Calling webhook: " ++ url) ;;;
     response <- axios_post url webhookPayload post ;;
     statsModel_increment deviceId "webhook_calls" ;;;
     let success := (200 <=? fst response)%Z && (fst response <? 300)%Z in
     (if success then
        logger_info (tag deviceId ++ "Webhook successful: " ++ pretty (fst response)) ;;;
        logModel_create deviceId "info" ("Webhook success: " ++ pretty (fst response))
      else
        logger_warn (tag deviceId ++ "Webhook returned non-success status: "
                     ++ pretty (fst response)) ;;;
        logModel_create deviceId "warn"
          ("Webhook status " ++ pretty (fst response) ++ ": "
           ++ JSON_stringify (snd response))) ;;;
     if flag (webhook_response_enabled device) && truthy (snd response) && success then
       logger_info (tag deviceId ++ "Processing webhook response for auto-reply") ;;;
       replyMessage <- settle (extractResponseMessage (snd response)
                                 (webhook_response_path device)) ;;
       if truthy replyMessage then
         sendMessage deviceId (msg_from msg) replyMessage uuid send ;;;
         logger_info (tag deviceId ++ "Auto-reply sent to " ++ msg_from msg) ;;;
         match replyMessage with
         | VStr reply =>
             logModel_create deviceId "info"
               ("Auto-reply sent: " ++ dquote ++ JSString.substring0 50 reply
                ++ "..." ++ dquote)
         | _ => throw (Error "replyMessage.substring is not a function")
         end
       else
         logger_warn (tag deviceId ++ "No reply message found in webhook response") ;;;
         logModel_create deviceId "warn" "No reply message in webhook response"
     else ret tt)
    (fun error =>
       let errorMsg :=
         match error_response error with
         | Some (status, data) => pretty status ++ " - " ++ JSON_stringify data
         | None => error_message error
         end in
       logger_error (tag deviceId ++ "Webhook error: " ++ errorMsg) ;;;
       logModel_create deviceId "error" ("Webhook failed: " ++ errorMsg)).

Definition handleIncomingMessage (deviceId : string) (msg : Message)
    (uuid : string) (post : HttpOutcome)
    (reply_uuid : string) (send : result SentMessage) : M unit :=
  try_catch
    (let messageData :=
       {| row_id := uuid;
          device_id := deviceId;
          message_id := msg_id_serialized msg;
          from_number := msg_from msg;
          to_number := msg_to msg;
          message_body := VStr (msg_body msg);
          message_type := msg_type msg;
          timestamp := msg_timestamp msg;
          direction := "incoming" |} in
     messageModel_create messageData ;;;
     statsModel_increment deviceId "messages_received" ;;;
     logger_info (tag deviceId ++ "Message received from " ++ msg_from msg ++ ": "
                  ++ JSString.substring0 50 (msg_body msg) ++ "...") ;;;
     logModel_create deviceId "info" ("Received message from " ++ msg_from msg) ;;;
     device <- deviceModel_findById deviceId ;;
     match device with
     | Some device =>
         if flag (webhook_enabled device) && opt_truthy (webhook_url device) then
           logger_info (tag deviceId ++ "Webhook enabled, forwarding to: "
                        ++ default "" (webhook_url device)) ;;;
           forwardToWebhook deviceId device msg messageData post reply_uuid send
         else logger_info (tag deviceId ++ "Webhook disabled or not configured")
     | None => logger_info (tag deviceId ++ "Webhook disabled or not configured")
     end)
    (fun error =>
       logger_error (tag deviceId ++ "Error handling message: " ++ error_message error) ;;;
       logModel_create deviceId "error"
         ("Error handling message: " ++ error_message error)).

End Manager.
End Legacy.

(** ** What the specification says, where it is compared with the code *)

Section Specification.
Context {num : JSNumber} {json : JSON}.

(** Template rendering as the specification words it: every occurrence of
    a variable is replaced, a string value inserted as it stands. *)
Definition spec_substitute (text : string) (entry : string * value) : string :=
  let occurrence := "{{" ++ fst entry ++ "}}" in
  match snd entry with
  | VStr s => JSString.replace_literal occurrence s text
  | VNum _ | VBool _ => JSString.replace_literal occurrence (String_of (snd entry)) text
  | _ => JSString.replace_literal occurrence "null" text
  end.

Definition spec_rendered (template : string) (variables : list (string * value)) : string :=
  fold_left spec_substitute variables template.





Definition is_string (v : value) : bool :=
  match v with VStr _ => true | _ => false end.


(** A response path that is not configured: absent, empty or blank. *)
Definition unconfigured (responsePath : option string) : bool :=
  match responsePath with
  | None => true
  | Some p => JSString.blank p
  end.

(** A device whose count has reached the limit has no registered session. *)
Definition exhausted_is_absent (w : World) : Prop :=
  forall deviceId,
    (maxRetries <= initAttemptCount w deviceId)%nat ->
    Map_has deviceId (clients w) = false.

Definition teardown_failed (destroy : result unit) : bool :=
  match destroy with
  | Return _ => false
  | Throw _ => true
  end.


(** The error a bounded initialisation ends with, if it does. *)
Definition initialization_error (initialize : option (result unit)) : option JSError :=
  match initialize with
  | Some (Return _) => None
  | Some (Throw e) => Some e
  | None => Some (Error "Initialization timeout")
  end.

(** The address [sendMessage] hands to the provider. *)
Definition chat_address (to : string) : string :=
  if JSString.includes "@" to then to else to ++ "@c.us".

(** A session that can send: registered, and persisted as connected. *)
Definition can_send (w : World) (deviceId : string) : bool :=
  match Map_get deviceId (clients w), devices w !! deviceId with
  | Some _, Some device => String.eqb (status device) "connected"
  | _, _ => false
  end.

(** What a send does at the provider: one call when the session can send,
    with the address of [chat_address], and none otherwise. *)
Definition sent_by (w : World) (deviceId to : string) (content : value)
    : list (string * string * value) :=
  match Map_get deviceId (clients w), devices w !! deviceId with
  | Some client, Some device =>
      if String.eqb (status device) "connected"
      then [(clientId client, chat_address to, content)]
      else []
  | _, _ => []
  end.

(** The error a send ends with, if it does. *)
Definition send_failure (w : World) (deviceId : string) (send : result SentMessage)
    : option JSError :=
  match Map_get deviceId (clients w) with
  | None => Some (Error "Device not found")
  | Some _ =>
      match devices w !! deviceId with
      | None => Some (TypeError_read VUndefined "status")
      | Some device =>
          if String.eqb (status device) "connected" then
            match send with
            | Return _ => None
            | Throw e => Some e
            end
          else Some (Error "Device not connected")
      end
  end.

(** The payload [forwardToWebhook] settles on. *)
Definition chosen_payload (deviceId : string) (device : Device) (msg : Message) : value :=
  if opt_truthy (webhook_body_template device) then
    match buildDynamicPayload (default "" (webhook_body_template device))
            (template_variables deviceId device msg) with
    | Return payload => payload
    | Throw _ => getDefaultPayload deviceId device msg
    end
  else getDefaultPayload deviceId device msg.

(** The payload the older [forwardToWebhook] settles on. *)
Definition legacy_chosen_payload (deviceId : string) (device : Device) (msg : Message)
    : value :=
  if opt_truthy (webhook_body_template device) then
    match Legacy.buildDynamicPayload (default "" (webhook_body_template device))
            (Legacy.template_variables deviceId device msg) with
    | Return payload => payload
    | Throw _ => Legacy.getDefaultPayload deviceId device msg
    end
  else Legacy.getDefaultPayload deviceId device msg.

(** A call that only appends [evs] to the trace. *)
Definition appends (w w' : World) (evs : list Event) : Prop :=
  clients w' = clients w
  /\ initializationAttempts w' = initializationAttempts w
  /\ devices w' = devices w
  /\ trace w' = (trace w ++ evs)%list.

Definition outgoing (row : MessageData) : Prop := direction row = "outgoing".

(** Events that are log lines or log rows only. *)
Definition is_log (e : Event) : Prop :=
  match e with
  | Logger _ _ | LogCreate _ _ _ => True
  | _ => False
  end.

(** The device an inbound message is forwarded for: the persisted row,
    when its webhook is enabled and has a URL. *)
Definition forwards (w : World) (deviceId : string) : option Device :=
  match devices w !! deviceId with
  | Some device =>
      if flag (webhook_enabled device) && opt_truthy (webhook_url device)
      then Some device else None
  | None => None
  end.

(** The row [handleIncomingMessage] inserts for a message. *)
Definition incoming_row (deviceId : string) (msg : Message) (uuid : string) : MessageData :=
  {| row_id := uuid;
     device_id := deviceId;
     message_id := msg_id_serialized msg;
     from_number := msg_from msg;
     to_number := msg_to msg;
     message_body := VStr (msg_body msg);
     message_type := msg_type msg;
     timestamp := msg_timestamp msg;
     direction := "incoming" |}.

(** The HTTP outcomes that count as a call of the webhook. *)
Definition completed (post : HttpOutcome) : bool :=
  match post with
  | Responded status _ => (status <? 600)%Z
  | Failed _ => false
  end.


(** The condition the specification puts on an automatic reply: response
    mapping enabled, a 2xx answer with a body, and an extracted string that
    is not blank. *)
Definition spec_reply (device : Device) (post : HttpOutcome) : option string :=
  match post with
  | Responded status data =>
      if flag (webhook_response_enabled device)
         && (200 <=? status)%Z && (status <? 300)%Z && truthy data
      then
        match extractResponseMessage data (webhook_response_path device) with
        | Return (VStr s) => if JSString.nonempty (JSString.trim s) then Some s else None
        | _ => None
        end
      else None
  | Failed _ => None
  end.

(** The calls of the provider's send in a trace, as (device, address, content). *)
Fixpoint sends (t : list Event) : list (string * string * value) :=
  match t with
  | [] => []
  | ClientSendMessage deviceId chatId content :: rest =>
      (deviceId, chatId, content) :: sends rest
  | _ :: rest => sends rest
  end.

(** The requests to webhooks in a trace, as (url, payload). *)
Fixpoint posts (t : list Event) : list (string * value) :=
  match t with
  | [] => []
  | AxiosPost url payload :: rest => (url, payload) :: posts rest
  | _ :: rest => posts rest
  end.

(** The rows inserted into the messages table in a trace. *)
Fixpoint inserted (t : list Event) : list MessageData :=
  match t with
  | [] => []
  | MessageCreate row :: rest => row :: inserted rest
  | _ :: rest => inserted rest
  end.

(** The teardowns started in a trace. *)
Fixpoint destroyed (t : list Event) : list string :=
  match t with
  | [] => []
  | ClientDestroy deviceId :: rest => deviceId :: destroyed rest
  | _ :: rest => destroyed rest
  end.

(** The names of the fields of an object. *)
Definition field_names (v : value) : list string :=
  match v with
  | VObj props => map fst props
  | _ => []
  end.

(** What a call appends to the trace. *)
Definition appended (before after : World) : list Event :=
  List.skipn (length (trace before)) (trace after).

End Specification.

(** ** The rest of the manager, and its callers *)

Section Lifecycle.
Context {num : JSNumber} {json : JSON}.

(** *** [setupEventHandlers]: one definition per handler *)

(** [client.on('qr', ...)]; [toDataURL] is what [qrcode.toDataURL(qr)]
    settles to. *)
Definition on_qr (deviceId : string) (toDataURL : result string) : M unit :=
  try_catch
    (qrCodeData <- settle toDataURL ;;
     deviceModel_update deviceId
       {| patch_status := Some "qr_ready"; patch_phone_number := None;
          patch_qr_code := Some (Some qrCodeData) |} ;;;
     logger_info (tag deviceId ++ "QR Code generated") ;;;
     logModel_create deviceId "info" "QR Code generated - Ready to scan")
    (fun error =>
       logger_error (tag deviceId ++ "Error generating QR code: " ++ error_message error) ;;;
       logModel_create deviceId "error" ("QR generation failed: " ++ error_message error)).

(** [client.on('ready', ...)]; [user] is [client.info.wid.user], absent
    when [client.info] is not set. *)
Definition on_ready (deviceId : string) (user : option string) : M unit :=
  try_catch
    (phoneNumber <- settle (match user with
                            | Some u => Return u
                            | None => Throw (TypeError_read VUndefined "wid")
                            end) ;;
     deviceModel_update deviceId
       {| patch_status := Some "connected"; patch_phone_number := Some (Some phoneNumber);
          patch_qr_code := Some None |} ;;;
     logger_info (tag deviceId ++ "Connected! Phone: " ++ phoneNumber) ;;;
     logModel_create deviceId "info" ("Connected successfully with number " ++ phoneNumber))
    (fun error =>
       logger_error (tag deviceId ++ "Error in ready handler: " ++ error_message error)).

Definition on_authenticated (deviceId : string) : M unit :=
  logger_info (tag deviceId ++ "Authentication successful") ;;;
  logModel_create deviceId "info" "Authentication successful".

(** [client.on('message_create', ...)] on a message with these [fromMe]
    and [body]. *)
Definition on_message_create (deviceId : string) (fromMe : bool) (body : string) : M unit :=
  if fromMe then
    logger_info (tag deviceId ++ "Outgoing message detected: "
                 ++ JSString.substring0 30 body ++ "...")
  else ret tt.

(** [client.on('disconnected', ...)], up to the [setTimeout]. *)
Definition on_disconnected (deviceId reason : string) : M unit :=
  deviceModel_update deviceId
    {| patch_status := Some "disconnected"; patch_phone_number := None;
       patch_qr_code := Some None |} ;;;
  logger_warn (tag deviceId ++ "Disconnected: " ++ reason) ;;;
  logModel_create deviceId "warn" ("Disconnected: " ++ reason).

Definition on_auth_failure (deviceId msg : string) : M unit :=
  deviceModel_update deviceId
    {| patch_status := Some "auth_failure"; patch_phone_number := None;
       patch_qr_code := Some None |} ;;;
  logger_error (tag deviceId ++ "Authentication failure: " ++ msg) ;;;
  logModel_create deviceId "error" ("Authentication failed: " ++ msg).

(** [percent] as the template literal prints it. *)
Definition on_loading_screen (deviceId percent text : string) : M unit :=
  logger_info (tag deviceId ++ "Loading: " ++ percent ++ "% - " ++ text).

Definition on_change_state (deviceId state : string) : M unit :=
  logger_info (tag deviceId ++ "State changed to: " ++ state).

(** *** Restart, start-up and status *)

(** [restartDevice]; nothing else runs during its two second pause. *)
Definition restartDevice (deviceId : string) (destroy : result unit)
    (initialize : option (result unit)) (cleanup : result unit) : M unit :=
  logger_info (tag deviceId ++ "Restarting device...") ;;;
  logModel_create deviceId "info" "Device restart initiated" ;;;
  disconnectDevice deviceId destroy ;;;
  device <- deviceModel_findById deviceId ;;
  match device with
  | Some device =>
      createDevice deviceId (device_name device) initialize cleanup ;;; ret tt
  | None => ret tt
  end.

(** The callback of the [setTimeout] of the [disconnected] handler. *)
Definition auto_reconnect (deviceId : string) (destroy : result unit)
    (initialize : option (result unit)) (cleanup : result unit) : M unit :=
  logger_info (tag deviceId ++ "Attempting auto-reconnect...") ;;;
  try_catch
    (restartDevice deviceId destroy initialize cleanup)
    (fun err =>
       logger_error (tag deviceId ++ "Auto-reconnect failed: " ++ error_message err)).

(** What the provider tells a session, with what the handler then meets:
    the result of [qrcode.toDataURL], [client.info.wid.user], and for a
    message the identifiers and answers [handleIncomingMessage] gets. *)
Inductive ProviderEvent :=
| Qr (toDataURL : result string)
| Ready (user : option string)
| Authenticated
| Incoming (msg : Message) (uuid : string) (post : HttpOutcome)
    (reply_uuid : string) (send : result SentMessage)
| Created (fromMe : bool) (body : string)
| Disconnected (reason : string)
| AuthFailure (msg : string)
| LoadingScreen (percent text : string)
| ChangeState (state : string).

(** [setupEventHandlers]: the handler registered for each event. *)
Definition setupEventHandlers (deviceId : string) (event : ProviderEvent) : M unit :=
  match event with
  | Qr toDataURL => on_qr deviceId toDataURL
  | Ready user => on_ready deviceId user
  | Authenticated => on_authenticated deviceId
  | Incoming msg uuid post reply_uuid send =>
      handleIncomingMessage deviceId msg uuid post reply_uuid send
  | Created fromMe body => on_message_create deviceId fromMe body
  | Disconnected reason => on_disconnected deviceId reason
  | AuthFailure msg => on_auth_failure deviceId msg
  | LoadingScreen percent text => on_loading_screen deviceId percent text
  | ChangeState state => on_change_state deviceId state
  end.

(** What an event makes of the row of its device. *)
Definition row_after (event : ProviderEvent) (row : Device) : Device :=
  match event with
  | Qr (Return qrCodeData) =>
      apply_patch {| patch_status := Some "qr_ready"; patch_phone_number := None;
                     patch_qr_code := Some (Some qrCodeData) |} row
  | Ready (Some user) =>
      apply_patch {| patch_status := Some "connected";
                     patch_phone_number := Some (Some user);
                     patch_qr_code := Some None |} row
  | Disconnected _ =>
      apply_patch {| patch_status := Some "disconnected"; patch_phone_number := None;
                     patch_qr_code := Some None |} row
  | AuthFailure _ =>
      apply_patch {| patch_status := Some "auth_failure"; patch_phone_number := None;
                     patch_qr_code := Some None |} row
  | _ => row
  end.

(** The body of the loop of [initializeDevices] for one row; [initialize]
    and [cleanup] answer for the provider of each device.  Nothing else
    runs during the pause after an initialisation. *)
Definition initialize_row (initialize : string -> option (result unit))
    (cleanup : string -> result unit) (device : Device) : M unit :=
  try_catch
    (logger_info ("Initializing device: " ++ device_name device
                  ++ " (" ++ device_id_of device ++ ")") ;;;
     createDevice (device_id_of device) (device_name device)
       (initialize (device_id_of device)) (cleanup (device_id_of device)) ;;;
     ret tt)
    (fun error =>
       logger_error ("Failed to initialize " ++ device_id_of device ++ ": "
                     ++ error_message error) ;;;
       logModel_create (device_id_of device) "error"
         ("Initialization failed: " ++ error_message error)).

(** [initializeDevices] on the rows [deviceModel.findAll()] returned. *)
Definition initializeDevices (rows : list Device)
    (initialize : string -> option (result unit)) (cleanup : string -> result unit) : M unit :=
  logger_info ("Found " ++ pretty (length rows) ++ " devices to initialize") ;;;
  for_each (initialize_row initialize cleanup) rows.

(** What [getStatus] returns: the columns of the row, if there is one, and
    [is_active]. *)
Record DeviceStatus := {
  status_row : option Device;
  is_active : bool;
}.

Definition getStatus (deviceId : string) : M DeviceStatus :=
  device <- deviceModel_findById deviceId ;;
  client <- gets (fun w => Map_get deviceId (clients w)) ;;
  ret {| status_row := device;
         is_active := match client with Some _ => true | None => false end |}.

(** *** models/database.js *)

(** [DELETE FROM devices WHERE id = ?] *)
Definition deviceModel_delete (id : string) : M unit :=
  set_devices (delete id).

(** [parts.join(sep)] *)
Definition Array_join (sep : string) (parts : list string) : string :=
  match parts with
  | [] => EmptyString
  | p :: rest => fold_left (fun acc q => acc ++ sep ++ q) rest p
  end.

(** The statement [deviceModel.update] prepares for the entries of [data]
    and the values it binds; [now] is [Math.floor(Date.now() / 1000)]. *)
Definition update_statement (data : list (string * value)) : string :=
  "UPDATE devices SET "
  ++ Array_join ", " (map (fun entry => fst entry ++ " = ?") data ++ ["updated_at = ?"])
  ++ " WHERE id = ?".

Definition update_values (id : string) (data : list (string * value)) (now : number)
    : list value :=
  map snd data ++ [VNum now] ++ [VStr id].

Fixpoint count_char (c : ascii) (s : string) : nat :=
  match s with
  | EmptyString => 0
  | String d s' => (if Ascii.eqb d c then 1 else 0) + count_char c s'
  end.

(** *** routes/devices.js *)

(** What a route answers: [res.status(code).json({ success, message })]. *)
Record Response := {
  http_status : Z;
  success : bool;
  response_message : string;
}.

(** [router.delete('/:id', ...)]; [waManager_disconnectDevice] is the
    method of the manager the application was started with. *)
Definition delete_route (waManager_disconnectDevice : string -> M unit) (id : string)
    : M Response :=
  try_catch
    (device <- deviceModel_findById id ;;
     match device with
     | None =>
         ret {| http_status := 404; success := false;
                response_message := "Device not found" |}
     | Some _ =>
         waManager_disconnectDevice id ;;;
         deviceModel_delete id ;;;
         ret {| http_status := 200; success := true;
                response_message := "Device deleted" |}
     end)
    (fun error =>
       ret {| http_status := 500; success := false;
              response_message := error_message error |}).

(** [router.post('/:id/restart', ...)] *)
Definition restart_route (waManager_restartDevice : string -> M unit) (id : string)
    : M Response :=
  try_catch
    (device <- deviceModel_findById id ;;
     match device with
     | None =>
         ret {| http_status := 404; success := false;
                response_message := "Device not found" |}
     | Some _ =>
         waManager_restartDevice id ;;;
         ret {| http_status := 200; success := true;
                response_message := "Device restart initiated" |}
     end)
    (fun error =>
       ret {| http_status := 500; success := false;
              response_message := error_message error |}).

(** The variables of [router.post('/:id/test-webhook', ...)]; [now_ms] is
    [Date.now()] and [now_s] is [Math.floor(Date.now() / 1000)]. *)
Definition test_variables (device : Device) (now_ms now_s : number) : list (string * value) :=
  [ ("device_id", VStr (device_id_of device));
    ("device_name", VStr (device_name device));
    ("device_phone", VStr (opt_or (phone_number device) "628123456789"));
    ("message_id", VStr ("test-msg-" ++ String_of_number now_ms));
    ("from", VStr "628987654321@c.us");
    ("to", VStr (opt_or (phone_number device) "628123456789@c.us"));
    ("from_name", VStr "Test User");
    ("message", VStr "This is a test message from WhatsApp Manager");
    ("message_type", VStr "chat");
    ("timestamp", VNum now_s);
    ("is_group", VBool false);
    ("chat_name", VStr "Test User");
    ("has_media", VBool false);
    ("is_forwarded", VBool false);
    ("is_status", VBool false);
    ("broadcast", VBool false) ].

(** One step of the [forEach] of the test route. *)
Definition test_substitute (jsonString : string) (entry : string * value) : string :=
  let regex := "{{" ++ fst entry ++ "}}" in
  match snd entry with
  | VStr s => JSString.replace_all regex s jsonString
  | _ => JSString.replace_all regex (String_of (snd entry)) jsonString
  end.

(** The request payload of the test route for a template. *)
Definition test_payload (body_template : string) (variables : list (string * value))
    : result value :=
  JSON_parse (fold_left test_substitute variables body_template).

(** *** What the properties below observe *)

(** The initialisations started in a trace. *)
Fixpoint initialized (t : list Event) : list string :=
  match t with
  | [] => []
  | ClientInitialize deviceId :: rest => deviceId :: initialized rest
  | _ :: rest => initialized rest
  end.

(** The log rows of a trace that report a failed delivery. *)
Fixpoint webhook_failures (t : list Event) : list string :=
  match t with
  | [] => []
  | LogCreate _ level text :: rest =>
      if String.eqb level "error" && String.prefix "Webhook failed: " text
      then text :: webhook_failures rest
      else webhook_failures rest
  | _ :: rest => webhook_failures rest
  end.

(** What the [catch] of [forwardToWebhook] reports for an error. *)
Definition failure_text (error : JSError) : string :=
  match error_response error with
  | Some (status, data) => "HTTP " ++ pretty status ++ ": " ++ JSON_stringify data
  | None =>
      if bool_decide (error_code error = Some "ECONNREFUSED")
      then "Connection refused - webhook server unreachable"
      else error_message error
  end.

(** The error a request ends with, if it does. *)
Definition request_error (post : HttpOutcome) : option JSError :=
  match post with
  | Responded status data =>
      if (status <? 600)%Z then None
      else Some {| error_message := "Request failed with status code " ++ pretty status;
                   error_code := Some "ERR_BAD_RESPONSE";
                   error_response := Some (status, data) |}
  | Failed e => Some e
  end.

(** The guards of [createDevice] let a call for the device through. *)
Definition accepted (w : World) (deviceId : string) : bool :=
  negb (Map_has deviceId (clients w)) && (initAttemptCount w deviceId <? maxRetries)%nat.

(** A session that is registered and whose teardown fails. *)
Definition stays_registered (w : World) (deviceId : string) (destroy : result unit) : bool :=
  Map_has deviceId (clients w) && teardown_failed destroy.

(** The error a restart of a device with a row ends with, if it does. *)
Definition restart_error (w : World) (deviceId : string) (destroy : result unit)
    (initialize : option (result unit)) : option JSError :=
  if stays_registered w deviceId destroy then Some (Error "Device already exists")
  else if (maxRetries <=? initAttemptCount w deviceId)%nat
       then Some (Error "Maximum initialization attempts reached")
       else initialization_error initialize.

(** Whatever concerns the other devices is the same in [w] and [w']. *)
Definition others_untouched (deviceId : string) (w w' : World) : Prop :=
  forall d, d <> deviceId ->
    Map_has d (clients w') = Map_has d (clients w)
    /\ initAttemptCount w' d = initAttemptCount w d
    /\ devices w' !! d = devices w !! d.

(** *** Sequential use *)

(** A value a template variable can have when the two renderings agree:
    a string, a number or a boolean. *)
Definition primitive (v : value) : bool :=
  match v with
  | VStr _ | VNum _ | VBool _ => true
  | _ => false
  end.



(** One call of the manager run from start to end. *)
Inductive call : World -> World -> Prop :=
| call_createDevice deviceId name initialize cleanup w :
    call w (snd (createDevice deviceId name initialize cleanup w))
| call_disconnectDevice deviceId destroy w :
    call w (snd (disconnectDevice deviceId destroy w))
| call_restartDevice deviceId destroy initialize cleanup w :
    call w (snd (restartDevice deviceId destroy initialize cleanup w))
| call_handleIncomingMessage deviceId msg uuid post reply_uuid send w :
    call w (snd (handleIncomingMessage deviceId msg uuid post reply_uuid send w))
| call_sendMessage deviceId to content uuid send w :
    call w (snd (sendMessage deviceId to content uuid send w)).

(** Every registered session has a count of zero, and no count is above
    [maxRetries]. *)
Definition counts_bounded (w : World) : Prop :=
  forall deviceId,
    (initAttemptCount w deviceId <= maxRetries)%nat
    /\ (Map_has deviceId (clients w) = true -> initAttemptCount w deviceId = 0%nat).

End Lifecycle.

(** The older revision of the life cycle: [createDevice] without a count,
    a timeout or a teardown; its [client.initialize()] is taken to settle. *)
Module LegacyLifecycle.
Section Manager.
Context {num : JSNumber} {json : JSON}.

Definition createDevice (deviceId name : string) (initialize : result unit) : M Client :=
  has <- gets (fun w => Map_has deviceId (clients w)) ;;
  if has then throw (Error "Device already exists")
  else
    let client := {| clientId := deviceId |} in
    set_clients (Map_set deviceId client) ;;;
    try_catch
      (deviceModel_update deviceId
         {| patch_status := Some "initializing"; patch_phone_number := None;
            patch_qr_code := None |} ;;;
       client_initialize client initialize ;;;
       logger_info ("Device " ++ deviceId ++ " initialization started"))
      (fun error =>
         logger_error ("Error initializing device " ++ deviceId ++ ": "
                       ++ error_message error) ;;;
         set_clients (Map_delete deviceId) ;;;
         throw error) ;;;
    ret client.

Definition disconnectDevice (deviceId : string) (destroy : result unit) : M unit :=
  client <- gets (fun w => Map_get deviceId (clients w)) ;;
  match client with
  | Some client =>
      try_catch
        (client_destroy client destroy ;;;
         set_clients (Map_delete deviceId) ;;;
         deviceModel_update deviceId
           {| patch_status := Some "disconnected"; patch_phone_number := None;
              patch_qr_code := None |} ;;;
         logger_info ("Device " ++ deviceId ++ " disconnected"))
        (fun error =>
           logger_error ("Error disconnecting device " ++ deviceId ++ ": "
                         ++ error_message error))
  | None => ret tt
  end.

Definition restartDevice (deviceId : string) (destroy initialize : result unit) : M unit :=
  disconnectDevice deviceId destroy ;;;
  device <- deviceModel_findById deviceId ;;
  match device with
  | Some device => createDevice deviceId (device_name device) initialize ;;; ret tt
  | None => ret tt
  end.

(** Calls of [createDevice] one after the other, each initialisation
    failing with the next of [errors]. *)
Fixpoint retries (deviceId name : string) (errors : list JSError) (w : World) : World :=
  match errors with
  | [] => w
  | e :: rest => retries deviceId name rest (snd (createDevice deviceId name (Throw e) w))
  end.

End Manager.
End LegacyLifecycle.

(** ** An engine for the examples

    Integers for the numbers, and a reader and a printer for the JSON texts
    without fractions, exponents and escapes. *)

Module Engine.

#[export] Instance integers : JSNumber :=
  {| number := Z;
     number_truthy := fun z => negb (z =? 0)%Z;
     Number_of_nat := Z.of_nat;
     String_of_number := pretty |}.

Definition dq : ascii := ascii_of_nat 34.

Fixpoint skip_ws (s : string) : string :=
  match s with
  | String c r =>
      let n := nat_of_ascii c in
      if (n =? 32)%nat || (n =? 9)%nat || (n =? 10)%nat || (n =? 13)%nat
      then skip_ws r else s
  | EmptyString => s
  end.

(** After the opening quote: the characters up to the closing quote. *)
Fixpoint read_string (s : string) : option (string * string) :=
  match s with
  | EmptyString => None
  | String c r =>
      if Ascii.eqb c dq then Some (EmptyString, r)
      else if Ascii.eqb c "\" || (nat_of_ascii c <? 32)%nat then None
      else match read_string r with
           | Some (t, rest) => Some (String c t, rest)
           | None => None
           end
  end.

Fixpoint read_digits (acc : Z) (s : string) : Z * string :=
  match s with
  | String c r =>
      match JSString.digit_of c with
      | Some d => read_digits (10 * acc + Z.of_nat d)%Z r
      | None => (acc, s)
      end
  | EmptyString => (acc, s)
  end.

Definition starts_number (s : string) : bool :=
  match s with
  | String c _ => bool_decide (is_Some (JSString.digit_of c))
  | EmptyString => false
  end.

Definition ends_number (s : string) : bool :=
  match s with
  | String c _ => negb (Ascii.eqb c "." || Ascii.eqb c "e" || Ascii.eqb c "E"
                        || bool_decide (is_Some (JSString.digit_of c)))
  | EmptyString => true
  end.

Definition read_natural (s : string) : option (Z * string) :=
  match s with
  | String c r =>
      if Ascii.eqb c "0" then (if ends_number r then Some (0%Z, r) else None)
      else if starts_number s then
        let '(n, rest) := read_digits 0 s in
        if ends_number rest then Some (n, rest) else None
      else None
  | EmptyString => None
  end.

Definition read_number (s : string) : option (Z * string) :=
  match s with
  | String c r =>
      if Ascii.eqb c "-" then
        match read_natural r with
        | Some (n, rest) => Some ((- n)%Z, rest)
        | None => None
        end
      else read_natural s
  | EmptyString => None
  end.

Definition read_word (word : string) (v : value) (s : string) : option (value * string) :=
  if String.prefix word s then Some (v, JSString.drop (String.length word) s) else None.

Fixpoint read_value (fuel : nat) (s : string) {struct fuel} : option (value * string) :=
  match fuel with
  | O => None
  | S fuel =>
      match skip_ws s with
      | EmptyString => None
      | String c r =>
          if Ascii.eqb c "{" then
            match skip_ws r with
            | String "}" r' => Some (VObj [], r')
            | _ =>
                match read_members fuel r with
                | Some (members, rest) =>
                    Some (VObj (fold_left (fun m kv => Map_set (fst kv) (snd kv) m) members []),
                          rest)
                | None => None
                end
            end
          else if Ascii.eqb c "[" then
            match skip_ws r with
            | String "]" r' => Some (VArr [], r')
            | _ =>
                match read_elements fuel r with
                | Some (items, rest) => Some (VArr items, rest)
                | None => None
                end
            end
          else if Ascii.eqb c dq then
            match read_string r with
            | Some (t, rest) => Some (VStr t, rest)
            | None => None
            end
          else if Ascii.eqb c "t" then read_word "true" (VBool true) (String c r)
          else if Ascii.eqb c "f" then read_word "false" (VBool false) (String c r)
          else if Ascii.eqb c "n" then read_word "null" VNull (String c r)
          else
            match read_number (String c r) with
            | Some (n, rest) => Some (VNum n, rest)
            | None => None
            end
      end
  end
with read_elements (fuel : nat) (s : string) {struct fuel} : option (list value * string) :=
  match fuel with
  | O => None
  | S fuel =>
      match read_value fuel s with
      | Some (v, rest) =>
          match skip_ws rest with
          | String "," r =>
              match read_elements fuel r with
              | Some (vs, rest') => Some (v :: vs, rest')
              | None => None
              end
          | String "]" r => Some ([v], r)
          | _ => None
          end
      | None => None
      end
  end
with read_members (fuel : nat) (s : string) {struct fuel}
    : option (list (string * value) * string) :=
  match fuel with
  | O => None
  | S fuel =>
      match skip_ws s with
      | String c r =>
          if Ascii.eqb c dq then
            match read_string r with
            | Some (key, rest) =>
                match skip_ws rest with
                | String ":" r1 =>
                    match read_value fuel r1 with
                    | Some (v, rest1) =>
                        match skip_ws rest1 with
                        | String "," r2 =>
                            match read_members fuel r2 with
                            | Some (kvs, rest2) => Some ((key, v) :: kvs, rest2)
                            | None => None
                            end
                        | String "}" r2 => Some ([(key, v)], r2)
                        | _ => None
                        end
                    | None => None
                    end
                | _ => None
                end
            | None => None
            end
          else None
      | EmptyString => None
      end
  end.

Definition parse (text : string) : result value :=
  match read_value (S (String.length text)) text with
  | Some (v, rest) =>
      match skip_ws rest with
      | EmptyString => Return v
      | _ => Throw (Error "Unexpected non-whitespace character after JSON")
      end
  | None => Throw (Error "Unexpected token in JSON")
  end.

Definition join (sep : string) (parts : list string) : string :=
  match parts with
  | [] => EmptyString
  | p :: rest => fold_left (fun acc q => acc ++ sep ++ q) rest p
  end.

Fixpoint stringify (v : value) : string :=
  match v with
  | VUndefined => "undefined"
  | VNull => "null"
  | VBool true => "true"
  | VBool false => "false"
  | VNum n => pretty n
  | VStr s => String dq s ++ String dq EmptyString
  | VArr items => "[" ++ join "," (map stringify items) ++ "]"
  | VObj props =>
      "{" ++ join "," (map (fun kv => String dq (fst kv) ++ String dq ":"
                                      ++ stringify (snd kv)) props) ++ "}"
  end.

#[export] Instance json : JSON := {| JSON_parse := parse; JSON_stringify := stringify |}.

(** A text with apostrophes for the double quotes of JSON. *)
Fixpoint quoted (s : string) : string :=
  match s with
  | String c r => String (if Ascii.eqb c "'" then dq else c) (quoted r)
  | EmptyString => EmptyString
  end.

End Engine.

(** ** Example data *)

Module Examples.
Import Engine.

Definition device1 : Device :=
  {| device_id_of := "device-1";
     device_name := "Front desk";
     phone_number := Some "6281234";
     status := "connected";
     webhook_url := Some "https://hooks.example/in";
     webhook_enabled := 1;
     webhook_response_enabled := 1;
     webhook_body_template := None;
     webhook_response_path := Some "data.reply";
     qr_code := None |}.

Definition hello : Message :=
  {| msg_id_serialized := "false_6281@c.us_3EB0";
     msg_from := "6281@c.us";
     msg_to := "6281234@c.us";
     msg_body := "hi";
     msg_type := "chat";
     msg_timestamp := 1700000000%Z;
     msg_notifyName := Some "Ani";
     msg_isStatus := false;
     msg_hasMedia := false;
     msg_isForwarded := None;
     msg_broadcast := None |}.

(** A manager with one registered session, for [device1]. *)
Definition world1 : World :=
  {| clients := [("device-1", {| clientId := "device-1" |})];
     initializationAttempts := ∅;
     devices := {[ "device-1" := device1 ]};
     trace := [] |}.

Definition sent1 : SentMessage :=
  {| sent_id_serialized := "true_6281@c.us_3EB1";
     sent_from := "6281234@c.us";
     sent_to := "6281@c.us";
     sent_timestamp := 1700000001%Z |}.

Definition refused : JSError :=
  {| error_message := "connect ECONNREFUSED 10.0.0.1:443";
     error_code := Some "ECONNREFUSED";
     error_response := None |}.

(** [device1] with a body template. *)
Definition device2 : Device :=
  {| device_id_of := "device-1";
     device_name := "Front desk";
     phone_number := Some "6281234";
     status := "connected";
     webhook_url := Some "https://hooks.example/in";
     webhook_enabled := 1;
     webhook_response_enabled := 1;
     webhook_body_template := Some (quoted "{'m':'{{message}}'}");
     webhook_response_path := Some "data.reply";
     qr_code := None |}.

Definition world2 : World :=
  {| clients := [("device-1", {| clientId := "device-1" |})];
     initializationAttempts := ∅;
     devices := {[ "device-1" := device2 ]};
     trace := [] |}.

(** A message with dollar signs in its text. *)
Definition money : Message :=
  {| msg_id_serialized := "false_6281@c.us_3EB2";
     msg_from := "6281@c.us";
     msg_to := "6281234@c.us";
     msg_body := "Need $$$ now";
     msg_type := "chat";
     msg_timestamp := 1700000002%Z;
     msg_notifyName := Some "Ani";
     msg_isStatus := false;
     msg_hasMedia := false;
     msg_isForwarded := None;
     msg_broadcast := None |}.

(** A status update, as the provider delivers it. *)
Definition status_update : Message :=
  {| msg_id_serialized := "false_status@broadcast_3EB3_6281@c.us";
     msg_from := "status@broadcast";
     msg_to := "6281234@c.us";
     msg_body := "on holiday";
     msg_type := "chat";
     msg_timestamp := 1700000003%Z;
     msg_notifyName := Some "Ani";
     msg_isStatus := true;
     msg_hasMedia := false;
     msg_isForwarded := None;
     msg_broadcast := Some true |}.

(** The answer of a webhook that replies. *)
Definition answer : HttpOutcome :=
  Responded 200 (VObj [("data", VObj [("reply", VStr "ok!")])]).

(** A body whose first probed field is an empty string. *)
Definition empty_reply : value := VObj [("reply", VStr ""); ("message", VStr "ok")].


(** [device1] while its session is still initialising, and a manager
    with that session registered. *)
Definition device5 : Device :=
  {| device_id_of := "device-1";
     device_name := "Front desk";
     phone_number := Some "6281234";
     status := "initializing";
     webhook_url := Some "https://hooks.example/in";
     webhook_enabled := 1;
     webhook_response_enabled := 1;
     webhook_body_template := None;
     webhook_response_path := Some "data.reply";
     qr_code := None |}.

Definition world5 : World :=
  {| clients := [("device-1", {| clientId := "device-1" |})];
     initializationAttempts := ∅;
     devices := {[ "device-1" := device5 ]};
     trace := [] |}.

(** [device1] without a response path. *)
Definition device3 : Device :=
  {| device_id_of := "device-1";
     device_name := "Front desk";
     phone_number := Some "6281234";
     status := "connected";
     webhook_url := Some "https://hooks.example/in";
     webhook_enabled := 1;
     webhook_response_enabled := 1;
     webhook_body_template := None;
     webhook_response_path := None;
     qr_code := None |}.

(** A second device, not yet connected. *)
Definition device4 : Device :=
  {| device_id_of := "device-2";
     device_name := "Back office";
     phone_number := None;
     status := "disconnected";
     webhook_url := None;
     webhook_enabled := 0;
     webhook_response_enabled := 0;
     webhook_body_template := None;
     webhook_response_path := None;
     qr_code := None |}.

End Examples.

(** * Properties *)

(** ** Strings and maps *)

Lemma trim_start_blank s : JSString.blank s = true -> JSString.trim_start s = EmptyString.
Proof.
  induction s as [|c s IH]; simpl; [done|].
  intros [Hc Hs]%andb_prop. rewrite Hc. auto.
Qed.

Lemma trim_end_cons c s :
  JSString.is_whitespace c = false ->
  JSString.nonempty (JSString.trim_end (String c s)) = true.
Proof. intros Hc. simpl. destruct (JSString.trim_end s); [rewrite Hc|]; done. Qed.

Lemma trim_blank s : JSString.nonempty (JSString.trim s) = negb (JSString.blank s).
Proof.
  unfold JSString.trim. induction s as [|c s IH]; simpl; [done|].
  destruct (JSString.is_whitespace c) eqn:Hc; simpl; [done|].
  change (JSString.nonempty (JSString.trim_end (String c s)) = true).
  by apply trim_end_cons.
Qed.

Lemma assoc_Map_set_eq {A} k (v : A) m : assoc k (Map_set k v m) = Some v.
Proof.
  induction m as [|[k' x] m IH]; simpl.
  - by rewrite String.eqb_refl.
  - destruct (String.eqb k' k) eqn:E; simpl; rewrite E; done.
Qed.

Lemma assoc_Map_set_ne {A} k k' (v : A) m : k <> k' -> assoc k' (Map_set k v m) = assoc k' m.
Proof.
  intros Hne. induction m as [|[k0 x] m IH]; simpl.
  - destruct (String.eqb_spec k k'); done.
  - destruct (String.eqb_spec k0 k) as [->|]; simpl.
    + destruct (String.eqb_spec k k'); done.
    + destruct (String.eqb_spec k0 k'); done.
Qed.

Lemma assoc_Map_delete_eq {A} k (m : list (string * A)) : assoc k (Map_delete k m) = None.
Proof.
  induction m as [|[k0 x] m IH]; simpl; [done|].
  destruct (String.eqb k0 k) eqn:E; simpl; [done|]. by rewrite E.
Qed.

Lemma assoc_Map_delete_ne {A} k k' (m : list (string * A)) :
  k <> k' -> assoc k' (Map_delete k m) = assoc k' m.
Proof.
  intros Hne. induction m as [|[k0 x] m IH]; simpl; [done|].
  destruct (String.eqb_spec k0 k) as [->|]; simpl.
  - destruct (String.eqb_spec k k'); done.
  - destruct (String.eqb_spec k0 k'); done.
Qed.

Lemma Map_has_delete {A} k k' (m : list (string * A)) :
  Map_has k' (Map_delete k m) = negb (String.eqb k k') && Map_has k' m.
Proof.
  unfold Map_has. destruct (String.eqb_spec k k') as [->|Hne]; simpl.
  - rewrite assoc_Map_delete_eq. apply bool_decide_eq_false. by intros [? ?].
  - by rewrite assoc_Map_delete_ne.
Qed.

Lemma Map_has_set {A} k k' (v : A) (m : list (string * A)) :
  Map_has k' (Map_set k v m) = String.eqb k k' || Map_has k' m.
Proof.
  unfold Map_has. destruct (String.eqb_spec k k') as [->|Hne]; simpl.
  - rewrite assoc_Map_set_eq. by apply bool_decide_eq_true.
  - by rewrite assoc_Map_set_ne.
Qed.


(** ** Reply extraction *)

Section Extraction.
Context {num : JSNumber} {json : JSON}.

Lemma unconfigured_test (responsePath : option string) :
  negb (opt_truthy responsePath)
  || negb (JSString.nonempty (JSString.trim (default "" responsePath)))
  = unconfigured responsePath.
Proof.
  destruct responsePath as [p|]; simpl; [|done].
  rewrite trim_blank, negb_involutive.
  destruct p; simpl; [done|]. done.
Qed.





(** C10. A response path that is absent, empty or made of white space only
    counts as not configured: whatever the body, [extractResponseMessage]
    then probes the fields reply, message, response and text, and does not
    walk a path. *)
Theorem extractResponseMessage_blank_path body responsePath :
  unconfigured responsePath = true ->
  extractResponseMessage body responsePath = auto_detect body
  /\ auto_detect body =
     or_else (get body "reply")
       (or_else (get body "message")
          (or_else (get body "response")
             (or_else (get body "text") (Return VNull)))).
Proof.
  intros Hu. split; [|done].
  unfold extractResponseMessage. by rewrite unconfigured_test, Hu.
Qed.


End Extraction.

(** ** Session creation *)

Section Creation.
Context {num : JSNumber} {json : JSON}.

Lemma createDevice_segments deviceId name initialize destroy w :
  createDevice deviceId name initialize destroy w
  = (p <- createDevice_call deviceId name ;;
     createDevice_resume deviceId (fst p) (snd p) initialize destroy) w.
Proof.
  unfold createDevice, createDevice_call, createDevice_resume, bind, gets, throw.
  destruct (Map_has deviceId (clients w)); [done|].
  destruct (maxRetries <=? _)%nat; [done|].
  unfold initializeWithTimeout, client_initialize, try_catch, bind, settle,
    set_clients, deviceModel_update, set_devices, logger_info, emit, ret; simpl.
  done.
Qed.

Lemma createDevice_exists deviceId name initialize destroy w :
  Map_has deviceId (clients w) = true ->
  createDevice deviceId name initialize destroy w
  = (Throw (Error "Device already exists"), w).
Proof. intros H. unfold createDevice, bind, gets. by rewrite H. Qed.

Lemma createDevice_limit deviceId name initialize destroy w :
  Map_has deviceId (clients w) = false ->
  (maxRetries <= initAttemptCount w deviceId)%nat ->
  createDevice deviceId name initialize destroy w
  = (Throw (Error "Maximum initialization attempts reached"), w).
Proof.
  intros H Hc. unfold createDevice, bind, gets. rewrite H.
  fold (initAttemptCount w deviceId).
  by apply Nat.leb_le in Hc as ->.
Qed.

Ltac run_manager :=
  cbv beta iota zeta delta
    [createDevice createDevice_call createDevice_resume initializeWithTimeout
     client_initialize client_destroy try_catch bind settle gets
     set_clients set_attempts set_devices deviceModel_update logger_info logger_error
     emit ret throw fst snd clients initializationAttempts devices trace].

Lemma createDevice_run deviceId name initialize destroy w :
  Map_has deviceId (clients w) = false ->
  (initAttemptCount w deviceId < maxRetries)%nat ->
  exists evs,
    createDevice deviceId name initialize destroy w
    = match initialization_error initialize with
      | None =>
          (Return {| clientId := deviceId |},
           {| clients := Map_set deviceId {| clientId := deviceId |} (clients w);
              initializationAttempts := delete deviceId (initializationAttempts w);
              devices := alter (apply_patch {| patch_status := Some "initializing";
                                               patch_phone_number := None;
                                               patch_qr_code := None |})
                           deviceId (devices w);
              trace := (trace w ++ evs)%list |})
      | Some e =>
          (Throw e,
           {| clients := Map_delete deviceId
                           (Map_set deviceId {| clientId := deviceId |} (clients w));
              initializationAttempts :=
                <[deviceId := S (initAttemptCount w deviceId)]> (initializationAttempts w);
              devices := alter (apply_patch {| patch_status := Some "initializing";
                                               patch_phone_number := None;
                                               patch_qr_code := None |})
                           deviceId (devices w);
              trace := (trace w ++ evs)%list |})
      end.
Proof.
  intros H Hc. apply Nat.leb_gt in Hc. unfold initAttemptCount in *.
  destruct w as [cs a dv t]. cbn [clients initializationAttempts devices trace] in *.
  destruct initialize as [[[]|e']|]; destruct destroy as [[]|x];
    eexists; run_manager; rewrite H, Hc; cbv beta iota;
    rewrite <- ?app_assoc, ?Nat.add_1_r; reflexivity.
Qed.

Lemma createDevice_failed deviceId name initialize destroy e w :
  Map_has deviceId (clients w) = false ->
  (initAttemptCount w deviceId < maxRetries)%nat ->
  initialization_error initialize = Some e ->
  let r := createDevice deviceId name initialize destroy w in
  fst r = Throw e
  /\ initAttemptCount (snd r) deviceId = S (initAttemptCount w deviceId)
  /\ Map_has deviceId (clients (snd r)) = false.
Proof.
  intros H Hc He.
  destruct (createDevice_run deviceId name initialize destroy w H Hc) as [evs ->].
  rewrite He. cbn [fst snd]. unfold initAttemptCount.
  cbn [clients initializationAttempts].
  rewrite lookup_insert_eq, Map_has_delete, String.eqb_refl. done.
Qed.

Lemma createDevice_succeeded deviceId name initialize destroy w :
  Map_has deviceId (clients w) = false ->
  (initAttemptCount w deviceId < maxRetries)%nat ->
  initialization_error initialize = None ->
  let r := createDevice deviceId name initialize destroy w in
  fst r = Return {| clientId := deviceId |}
  /\ initAttemptCount (snd r) deviceId = 0%nat
  /\ Map_has deviceId (clients (snd r)) = true.
Proof.
  intros H Hc He.
  destruct (createDevice_run deviceId name initialize destroy w H Hc) as [evs ->].
  rewrite He. cbn [fst snd]. unfold initAttemptCount.
  cbn [clients initializationAttempts].
  rewrite lookup_delete_eq, Map_has_set, String.eqb_refl. done.
Qed.
Lemma step_exhausted_is_absent w w' :
  step w w' -> exhausted_is_absent w -> exhausted_is_absent w'.
Proof.
  intros Hstep Hinv d. specialize (Hinv d). revert Hinv. unfold initAttemptCount.
  destruct Hstep as [d' n w r w' H|d' c a i x w r w' H|d' w r w' H|d' p x w r w' H|w w' Hc Ha].
  - unfold createDevice_call, bind, gets, throw in H.
    destruct (Map_has d' (clients w)) eqn:Hhas; [by simplify_eq|].
    destruct (maxRetries <=? _)%nat eqn:Hmax; [by simplify_eq|].
    apply Nat.leb_gt in Hmax.
    unfold set_clients, deviceModel_update, set_devices, logger_info, emit, ret in H.
    injection H as _ <-. simpl. rewrite Map_has_set.
    destruct (String.eqb_spec d' d) as [->|]; simpl; [|done].
    lia.
  - unfold createDevice_resume, try_catch, bind, settle, set_attempts, set_clients,
      logger_info, logger_error, client_destroy, emit, ret, throw in H.
    destruct (match i with Some r0 => r0 | None => _ end); simpl in H.
    + simplify_eq/=. destruct (decide (d' = d)) as [->|].
      * rewrite lookup_delete_eq. simpl. unfold maxRetries. lia.
      * by rewrite lookup_delete_ne.
    + destruct x; simplify_eq/=; rewrite Map_has_delete;
        (destruct (String.eqb_spec d' d) as [->|]; simpl; [done|]);
        by rewrite lookup_insert_ne.
  - unfold disconnectDevice_call, bind, gets, emit, ret in H.
    destruct (Map_get d' (clients w)); by simplify_eq/=.
  - unfold disconnectDevice_resume, try_catch, bind, settle, set_clients,
      deviceModel_update, set_devices, logger_info, logger_error, logModel_create,
      emit, ret in H.
    destruct p; [|by simplify_eq/=].
    destruct x; simplify_eq/=; [|done].
    rewrite Map_has_delete. intros Hinv Hmax. rewrite Hinv by done. by rewrite andb_false_r.
  - by rewrite Hc, Ha.
Qed.

Lemma reachable_exhausted_is_absent w : reachable w -> exhausted_is_absent w.
Proof.
  intros [table Hrtc]. revert w Hrtc. apply rtc_ind_r.
  - intros d. unfold initAttemptCount. simpl. rewrite lookup_empty. simpl.
    unfold maxRetries. lia.
  - intros y z _ Hstep IH. eauto using step_exhausted_is_absent.
Qed.

(** A call of [createDevice] run to its end keeps the manager among the
    reachable states. *)
Lemma createDevice_reachable deviceId name initialize destroy w :
  reachable w -> reachable (snd (createDevice deviceId name initialize destroy w)).
Proof.
  intros [table Hrtc]. exists table. rewrite createDevice_segments. unfold bind.
  destruct (createDevice_call deviceId name w) as [[[c a]|e] w1] eqn:Hcall; simpl.
  - eapply rtc_r; [eapply rtc_r; [done|]|].
    + eapply step_createDevice_call, Hcall.
    + eapply step_createDevice_resume with (r := fst _). apply surjective_pairing.
  - eapply rtc_r; [done|]. eapply step_createDevice_call, Hcall.
Qed.

(** C1. In every state the manager can reach, and for every device:
    [createDevice] fails with "Device already exists" when a session is
    registered, and with "Maximum initialization attempts reached" when the
    count has reached [maxRetries] = 3; an initialisation that fails or
    times out surfaces its error, adds one to the count and unregisters
    the session; one that succeeds brings the count to 0; so after three
    failed initialisations in a row the next call is refused. *)
Theorem createDevice_bounded_retries w deviceId name :
  reachable w ->
  (forall initialize destroy,
     Map_has deviceId (clients w) = true ->
     createDevice deviceId name initialize destroy w
     = (Throw (Error "Device already exists"), w))
  /\ (forall initialize destroy,
        (maxRetries <= initAttemptCount w deviceId)%nat ->
        createDevice deviceId name initialize destroy w
        = (Throw (Error "Maximum initialization attempts reached"), w))
  /\ (forall initialize destroy e,
        Map_has deviceId (clients w) = false ->
        (initAttemptCount w deviceId < maxRetries)%nat ->
        initialization_error initialize = Some e ->
        let r := createDevice deviceId name initialize destroy w in
        fst r = Throw e
        /\ initAttemptCount (snd r) deviceId = S (initAttemptCount w deviceId)
        /\ Map_has deviceId (clients (snd r)) = false)
  /\ (forall initialize destroy,
        Map_has deviceId (clients w) = false ->
        (initAttemptCount w deviceId < maxRetries)%nat ->
        initialization_error initialize = None ->
        let r := createDevice deviceId name initialize destroy w in
        fst r = Return {| clientId := deviceId |}
        /\ initAttemptCount (snd r) deviceId = 0%nat
        /\ Map_has deviceId (clients (snd r)) = true)
  /\ (forall i1 x1 e1 i2 x2 e2 i3 x3 e3 initialize destroy,
        Map_has deviceId (clients w) = false ->
        initAttemptCount w deviceId = 0%nat ->
        initialization_error i1 = Some e1 ->
        initialization_error i2 = Some e2 ->
        initialization_error i3 = Some e3 ->
        let r1 := createDevice deviceId name i1 x1 w in
        let r2 := createDevice deviceId name i2 x2 (snd r1) in
        let r3 := createDevice deviceId name i3 x3 (snd r2) in
        fst r1 = Throw e1 /\ fst r2 = Throw e2 /\ fst r3 = Throw e3
        /\ initAttemptCount (snd r3) deviceId = maxRetries
        /\ createDevice deviceId name initialize destroy (snd r3)
           = (Throw (Error "Maximum initialization attempts reached"), snd r3)).
Proof.
  intros Hr. split; [|split; [|split; [|split]]].
  - intros. by apply createDevice_exists.
  - intros i x Hmax. apply createDevice_limit; [|done].
    by apply reachable_exhausted_is_absent.
  - intros. by apply createDevice_failed.
  - intros. by apply createDevice_succeeded.
  - intros i1 x1 e1 i2 x2 e2 i3 x3 e3 i x Hhas H0 He1 He2 He3.
    destruct (createDevice_failed deviceId name i1 x1 e1 w) as (R1 & C1 & A1);
      [done|rewrite H0; unfold maxRetries; lia|done|].
    destruct (createDevice_failed deviceId name i2 x2 e2 _ A1) as (R2 & C2 & A2);
      [rewrite C1, H0; unfold maxRetries; lia|done|].
    destruct (createDevice_failed deviceId name i3 x3 e3 _ A2) as (R3 & C3 & A3);
      [rewrite C2, C1, H0; unfold maxRetries; lia|done|].
    simpl. repeat split; try done.
    + by rewrite C3, C2, C1, H0.
    + apply createDevice_limit; [done|]. by rewrite C3, C2, C1, H0.
Qed.

End Creation.

(** ** Teardown *)

Section Teardown.
Context {num : JSNumber} {json : JSON}.


Lemma disconnectDevice_absent deviceId destroy w :
  Map_get deviceId (clients w) = None ->
  disconnectDevice deviceId destroy w = (Return tt, w).
Proof. intros H. unfold disconnectDevice, bind, gets. by rewrite H. Qed.



Lemma disconnectDevice_run deviceId client w :
  Map_get deviceId (clients w) = Some client ->
  disconnectDevice deviceId (Return tt) w
  = (Return tt,
     {| clients := Map_delete deviceId (clients w);
        initializationAttempts := initializationAttempts w;
        devices := alter (apply_patch {| patch_status := Some "disconnected";
                                         patch_phone_number := None;
                                         patch_qr_code := Some None |})
                     deviceId (devices w);
        trace := trace w ++ [ ClientDestroy (clientId client);
                              Logger "info" (tag deviceId ++ "Device disconnected and cleaned up");
                              LogCreate deviceId "info" "Device disconnected" ] |}).
Proof.
  intros H. unfold disconnectDevice, bind, gets. rewrite H.
  unfold client_destroy, try_catch, bind, settle, set_clients,
    deviceModel_update, set_devices, logger_info, logger_error, logModel_create, emit, ret.
  simpl. by rewrite <- !app_assoc.
Qed.


Lemma disconnectDevice_failure deviceId client e w :
  Map_get deviceId (clients w) = Some client ->
  disconnectDevice deviceId (Throw e) w
  = (Return tt,
     {| clients := clients w;
        initializationAttempts := initializationAttempts w;
        devices := devices w;
        trace := trace w ++ [ ClientDestroy (clientId client);
                              Logger "error" (tag deviceId ++ "Disconnect error: "
                                              ++ error_message e) ] |}).
Proof.
  intros H. unfold disconnectDevice, bind, gets. rewrite H.
  unfold client_destroy, try_catch, bind, settle, logger_error, emit, ret.
  simpl. by rewrite <- !app_assoc.
Qed.








End Teardown.

(** ** The webhook pipeline *)

Section Pipeline.
Context {num : JSNumber} {json : JSON}.

Lemma appends_nil w : appends w w [].
Proof. unfold appends. by rewrite app_nil_r. Qed.

Lemma appends_trans w w1 w2 e1 e2 :
  appends w w1 e1 -> appends w1 w2 e2 -> appends w w2 (e1 ++ e2)%list.
Proof.
  intros (?&?&?&?) (?&?&?&?). unfold appends. rewrite app_assoc. repeat split; congruence.
Qed.

Lemma appended_appends w w' evs : appends w w' evs -> appended w w' = evs.
Proof. intros (_&_&_&H). unfold appended. by rewrite H, drop_app_length. Qed.

Lemma emit_appends e w : appends w (snd (emit e w)) [e].
Proof. done. Qed.

Lemma posts_app t1 t2 : posts (t1 ++ t2) = (posts t1 ++ posts t2)%list.
Proof. induction t1 as [|[] t1 IH]; simpl; by rewrite ?IH. Qed.

Lemma sends_app t1 t2 : sends (t1 ++ t2) = (sends t1 ++ sends t2)%list.
Proof. induction t1 as [|[] t1 IH]; simpl; by rewrite ?IH. Qed.

Lemma inserted_app t1 t2 : inserted (t1 ++ t2) = (inserted t1 ++ inserted t2)%list.
Proof. induction t1 as [|[] t1 IH]; simpl; by rewrite ?IH. Qed.

Lemma increments_app d f t1 t2 :
  increments d f (t1 ++ t2) = (increments d f t1 + increments d f t2)%nat.
Proof. unfold increments. by rewrite List.filter_app, length_app. Qed.

Lemma increments_cons_other d f e t :
  is_increment d f e = false -> increments d f (e :: t) = increments d f t.
Proof. unfold increments. simpl. by intros ->. Qed.

Lemma is_increment_other d d' f f' :
  f <> f' -> is_increment d f (StatsIncrement d' f') = false.
Proof.
  intros Hne. simpl. destruct (String.eqb_spec f' f); [congruence|].
  by rewrite andb_false_r.
Qed.

Lemma increments_cons_same d f e t :
  is_increment d f e = true -> increments d f (e :: t) = S (increments d f t).
Proof. unfold increments. simpl. by intros ->. Qed.

Lemma increments_nil d f : increments d f [] = 0%nat.
Proof. done. Qed.

Ltac count_increments :=
  repeat first
    [ rewrite increments_app
    | rewrite increments_nil
    | rewrite increments_cons_other by (try done; by apply is_increment_other)
    | rewrite increments_cons_same by (simpl; by rewrite !String.eqb_refl) ].

Lemma sendMessage_effect deviceId to content uuid send w :
  let r := sendMessage deviceId to content uuid send w in
  exists evs,
    appends w (snd r) evs
    /\ (forall e, send_failure w deviceId send = Some e -> fst r = Throw e)
    /\ (send_failure w deviceId send = None -> exists m, fst r = Return m)
    /\ sends evs = sent_by w deviceId to content
    /\ posts evs = []
    /\ (forall d f, f <> "messages_sent" -> increments d f evs = 0%nat)
    /\ Forall outgoing (inserted evs).
Proof.
  unfold sendMessage, send_failure, sent_by, bind, gets, deviceModel_findById, throw.
  destruct (Map_get deviceId (clients w)) as [c|]; simpl.
  2:{ exists []. split; [apply appends_nil|]. repeat split; try done; naive_solver. }
  destruct (devices w !! deviceId) as [device|]; simpl.
  2:{ exists []. split; [apply appends_nil|]. repeat split; try done; naive_solver. }
  destruct (String.eqb (status device) "connected"); simpl.
  2:{ exists []. split; [apply appends_nil|]. repeat split; try done; naive_solver. }
  unfold try_catch, bind, client_sendMessage, messageModel_create, statsModel_increment,
    logger_info, logger_error, emit, settle, ret, throw, bind.
  destruct send as [m|e]; simpl.
  - eexists. split; [unfold appends; simpl; by rewrite <- !app_assoc|].
    repeat split; try done; try naive_solver.
    + intros d f Hf. simpl. rewrite !increments_cons_other; try done.
      by apply is_increment_other.
    + simpl. repeat constructor.
  - eexists. split; [unfold appends; simpl; by rewrite <- !app_assoc|].
    repeat split; try done; naive_solver.
Qed.

Lemma handleWebhookResponse_effect deviceId device msg data uuid send w r w' :
  handleWebhookResponse deviceId device msg data uuid send w = (r, w') ->
  r = Return tt
  /\ exists evs,
       appends w w' evs
       /\ sends evs
          = match extractResponseMessage data (webhook_response_path device) with
            | Return (VStr s) =>
                if JSString.nonempty (JSString.trim s)
                then sent_by w deviceId (msg_from msg) (VStr s)
                else []
            | _ => []
            end
       /\ posts evs = []
       /\ (forall d f, f <> "messages_sent" -> increments d f evs = 0%nat)
       /\ Forall outgoing (inserted evs)
       /\ (forall s e,
             extractResponseMessage data (webhook_response_path device) = Return (VStr s) ->
             JSString.nonempty (JSString.trim s) = true ->
             send_failure w deviceId send = Some e ->
             In (LogCreate deviceId "error" ("Auto-reply failed: " ++ error_message e)) evs).
Proof.
  unfold handleWebhookResponse, try_catch. unfold bind at 1. unfold settle.
  destruct (extractResponseMessage data (webhook_response_path device)) as [v|e0];
    cbv beta iota zeta.
  2:{ unfold bind, logger_error, logModel_create, emit. simpl. intros [= <- <-].
      split; [done|].
      eexists [_; _]. split; [unfold appends; simpl; by rewrite <- !app_assoc|].
      repeat split; try done. }
  assert (Hquiet : forall (t1 t2 : string) r0 w0,
    (logger_warn t1 ;;; logModel_create deviceId "warn" t2) w = (r0, w0) ->
    r0 = Return tt
    /\ appends w w0 [Logger "warn" t1; LogCreate deviceId "warn" t2]).
  { intros t1 t2 r0 w0. unfold bind, logger_warn, logModel_create, emit, appends. simpl.
    intros [= <- <-]. simpl. by rewrite <- !app_assoc. }
  destruct (truthy v) eqn:Htruthy.
  2:{ destruct (bind _ _ w) as [r0 w0] eqn:Hrun. apply Hquiet in Hrun as [-> Ha].
      intros [= <- <-]. split; [done|]. eexists. split; [exact Ha|].
      destruct v as [| |b|n|s|items|props]; simpl in Htruthy; try done;
        repeat split; try done.
      - destruct s; simpl in *; done.
      - intros s0 e [= <-]. destruct s; simpl in *; done. }
  destruct v as [| |b|n|s|items|props]; try (by simpl in Htruthy);
    try (unfold throw, bind, logger_error, logModel_create, emit; simpl;
         intros [= <- <-]; split; [done|]; eexists [_; _];
         split; [unfold appends; simpl; by rewrite <- !app_assoc|];
         repeat split; done).
  destruct (JSString.nonempty (JSString.trim s)) eqn:Htrim.
  2:{ destruct (bind _ _ w) as [r0 w0] eqn:Hrun. apply Hquiet in Hrun as [-> Ha].
      intros [= <- <-]. split; [done|]. eexists. split; [exact Ha|].
      repeat split; try done. intros s0 e [= <-]. congruence. }
  unfold bind at 1.
  destruct (sendMessage_effect deviceId (msg_from msg) (VStr s) uuid send w)
    as (evs & Ha & Hfail & Hok & Hsends & Hposts & Hinc & Hins).
  destruct (sendMessage deviceId (msg_from msg) (VStr s) uuid send w) as [[m|e] w1];
    simpl in *.
  - unfold bind, logger_info, logModel_create, emit. simpl. intros [= <- <-].
    split; [done|]. eexists (evs ++ [_; _])%list. split.
    + eapply appends_trans; [exact Ha|]. unfold appends. simpl. by rewrite <- !app_assoc.
    + rewrite sends_app, posts_app, inserted_app, Hsends, Hposts. simpl.
      rewrite !app_nil_r. repeat split; try done.
      * intros d f Hf. rewrite increments_app, Hinc by done. done.
      * intros s' e [= <-] _ Hsf. specialize (Hfail e Hsf). done.
  - unfold bind, logger_error, logModel_create, emit. simpl. intros [= <- <-].
    split; [done|]. eexists (evs ++ [_; _])%list. split.
    + eapply appends_trans; [exact Ha|]. unfold appends. simpl. by rewrite <- !app_assoc.
    + rewrite sends_app, posts_app, inserted_app, Hsends, Hposts. simpl.
      rewrite !app_nil_r. repeat split; try done.
      * intros d f Hf. rewrite increments_app, Hinc by done. done.
      * intros s' e' [= <-] _ Hsf. specialize (Hfail e' Hsf). simplify_eq.
        apply in_or_app. right. simpl. auto.
Qed.

Lemma logs_observed evs :
  Forall is_log evs ->
  posts evs = [] /\ sends evs = [] /\ inserted evs = []
  /\ (forall d f, increments d f evs = 0%nat).
Proof.
  induction 1 as [|e evs He _ (IH1 & IH2 & IH3 & IH4)]; [done|].
  destruct e; try done; simpl; repeat split; try done;
    intros d f; rewrite increments_cons_other; done.
Qed.

Lemma sent_by_appends w w1 evs deviceId to content :
  appends w w1 evs -> sent_by w1 deviceId to content = sent_by w deviceId to content.
Proof. intros (Hc & _ & Hd & _). unfold sent_by. by rewrite Hc, Hd. Qed.

Lemma send_failure_appends w w1 evs deviceId send :
  appends w w1 evs -> send_failure w1 deviceId send = send_failure w deviceId send.
Proof. intros (Hc & _ & Hd & _). unfold send_failure. by rewrite Hc, Hd. Qed.

Lemma payload_chosen deviceId device msg w :
  exists evs w1,
    (if opt_truthy (webhook_body_template device) then
       try_catch
         (logger_info (tag deviceId ++ "Building custom webhook payload") ;;;
          payload <- settle (buildDynamicPayload
                               (default "" (webhook_body_template device))
                               (template_variables deviceId device msg)) ;;
          logModel_create deviceId "info" "Custom payload built" ;;;
          ret payload)
         (fun error =>
            logger_error (tag deviceId ++ "Payload build error: " ++ error_message error) ;;;
            logModel_create deviceId "error" ("Payload error: " ++ error_message error) ;;;
            logModel_create deviceId "warn" "Using default payload" ;;;
            ret (getDefaultPayload deviceId device msg))
     else ret (getDefaultPayload deviceId device msg)) w
    = (Return (chosen_payload deviceId device msg), w1)
    /\ appends w w1 evs /\ Forall is_log evs.
Proof.
  unfold chosen_payload.
  destruct (opt_truthy (webhook_body_template device)).
  - unfold try_catch, bind, settle, logger_info, logger_error, logModel_create, emit, ret.
    simpl. destruct (buildDynamicPayload _ _) as [p|e]; simpl.
    + eexists [_; _], _. split; [done|]. split.
      * unfold appends. simpl. by rewrite <- !app_assoc.
      * by repeat constructor.
    + eexists [_; _; _; _], _. split; [done|]. split.
      * unfold appends. simpl. by rewrite <- !app_assoc.
      * by repeat constructor.
  - exists [], w. split; [done|]. split; [apply appends_nil|constructor].
Qed.

Lemma forwardToWebhook_effect deviceId device msg messageData post uuid send w r w' :
  forwardToWebhook deviceId device msg messageData post uuid send w = (r, w') ->
  r = Return tt
  /\ exists evs,
       appends w w' evs
       /\ posts evs = [(default "" (webhook_url device), chosen_payload deviceId device msg)]
       /\ increments deviceId "webhook_calls" evs = (if completed post then 1 else 0)%nat
       /\ (forall d f, f <> "messages_sent" -> f <> "webhook_calls" ->
             increments d f evs = 0%nat)
       /\ Forall outgoing (inserted evs)
       /\ sends evs = match spec_reply device post with
                      | Some s => sent_by w deviceId (msg_from msg) (VStr s)
                      | None => []
                      end
       /\ (forall s e,
             spec_reply device post = Some s ->
             send_failure w deviceId send = Some e ->
             In (LogCreate deviceId "error" ("Auto-reply failed: " ++ error_message e)) evs).
Proof.
  unfold forwardToWebhook.
  destruct (payload_chosen deviceId device msg w) as (evsA & wA & HA & HapA & HlogA).
  destruct (logs_observed evsA HlogA) as (PA & SA & IA & CA).
  cbv zeta. unfold try_catch at 1. unfold bind at 1. rewrite HA.
  unfold try_catch, axios_post, logger_info, logger_warn, logger_error, logModel_create,
    statsModel_increment, emit, spec_reply, completed.
  destruct post as [status data|e]; cbn -[handleWebhookResponse pretty increments].
  2:{ intros [= <- <-]. split; [done|].
      eexists (evsA ++ [_; _; _; _; _])%list. split.
      { eapply appends_trans; [exact HapA|]. unfold appends. cbn. by rewrite <- !app_assoc. }
      rewrite posts_app, sends_app, inserted_app, PA, SA, IA. cbn -[increments].
      repeat split; try done.
      - count_increments. by rewrite CA.
      - intros d f _ _. count_increments. by rewrite CA. }
  destruct (status <? 600)%Z eqn:H600; cbn -[handleWebhookResponse pretty increments].
  2:{ intros [= <- <-]. split; [done|].
      eexists (evsA ++ [_; _; _; _; _])%list. split.
      { eapply appends_trans; [exact HapA|]. unfold appends. cbn. by rewrite <- !app_assoc. }
      rewrite posts_app, sends_app, inserted_app, PA, SA, IA. cbn -[increments].
      assert ((status <? 300)%Z = false) as -> by lia.
      rewrite !andb_false_r. cbn -[increments].
      repeat split; try done.
      - count_increments. by rewrite CA.
      - intros d f _ _. count_increments. by rewrite CA. }
  destruct ((200 <=? status)%Z && (status <? 300)%Z) eqn:H2xx; cbn -[handleWebhookResponse pretty increments].
  2:{ intros [= <- <-]. split; [done|].
      eexists (evsA ++ [_; _; _; _; _; _])%list. split.
      { eapply appends_trans; [exact HapA|]. unfold appends. cbn. by rewrite <- !app_assoc. }
      rewrite posts_app, sends_app, inserted_app, PA, SA, IA. cbn -[increments].
      replace (flag (webhook_response_enabled device) && (200 <=? status)%Z
               && (status <? 300)%Z)
        with false by (rewrite <- andb_assoc, H2xx; by rewrite andb_false_r).
      cbn -[increments]. repeat split; try done.
      - count_increments. by rewrite CA.
      - intros d f _ Hf. count_increments. by rewrite CA. }
  replace (flag (webhook_response_enabled device) && (200 <=? status)%Z
           && (status <? 300)%Z)
    with (flag (webhook_response_enabled device))
    by (rewrite <- andb_assoc, H2xx; by rewrite andb_true_r).
  destruct (flag (webhook_response_enabled device) && truthy data) eqn:Hreply;
    cbn -[handleWebhookResponse pretty increments].
  2:{ intros [= <- <-]. split; [done|].
      eexists (evsA ++ [_; _; _; _; _; _])%list. split.
      { eapply appends_trans; [exact HapA|]. unfold appends. cbn. by rewrite <- !app_assoc. }
      rewrite posts_app, sends_app, inserted_app, PA, SA, IA. cbn -[increments].
      repeat split; try done.
      - count_increments. by rewrite CA.
      - intros d f _ Hf. count_increments. by rewrite CA. }
  match goal with
  | |- context [handleWebhookResponse ?a ?b ?c ?d ?e ?f ?w0] =>
      destruct (handleWebhookResponse a b c d e f w0) as [rH wH] eqn:HH;
      set (wB := w0) in *
  end.
  apply handleWebhookResponse_effect in HH
    as (-> & evsH & HapH & SH & PH & CH & IH & LH).
  cbn -[increments]. intros [= <- <-]. split; [done|].
  assert (exists evsB,
            appends wA wB evsB
            /\ posts evsB = [(default "" (webhook_url device),
                              chosen_payload deviceId device msg)]
            /\ sends evsB = [] /\ inserted evsB = []
            /\ increments deviceId "webhook_calls" evsB = 1%nat
            /\ (forall d f, f <> "webhook_calls" -> increments d f evsB = 0%nat))
    as (evsB & HapB & PB & SB & IB & CB1 & CB0).
  { eexists [_; _; _; _; _; _]. split.
    { unfold appends, wB. cbn. by rewrite <- !app_assoc. }
    repeat split; try done.
    - by count_increments.
    - intros d f Hf. by count_increments. }
  pose proof (appends_trans _ _ _ _ _ HapA HapB) as HapAB.
  eexists. split; [exact (appends_trans _ _ _ _ _ HapAB HapH)|].
  rewrite !posts_app, !sends_app, !inserted_app, PA, SA, IA, PB, SB, IB, PH, SH.
  cbn -[increments].
  assert (forall s, sent_by wB deviceId (msg_from msg) (VStr s)
                    = sent_by w deviceId (msg_from msg) (VStr s)) as Hsame
    by (intros; apply (sent_by_appends _ _ _ _ _ _ HapAB)).
  rewrite (send_failure_appends _ _ _ _ _ HapAB) in LH.
  repeat split; try done.
  - rewrite !increments_app, CA, CB1, CH by done. done.
  - intros d f Hf1 Hf2. rewrite !increments_app, CA, CB0, CH by done. done.
  - destruct (extractResponseMessage data _) as [[]|]; try done.
    destruct (JSString.nonempty _); [apply Hsame|done].
  - intros s e Hs Hf.
    destruct (extractResponseMessage data _) as [[| | | |s0| |]|] eqn:Hx; try done.
    destruct (JSString.nonempty (JSString.trim s0)) eqn:Ht; [|done].
    simplify_eq. apply in_or_app. right. eauto.
Qed.

Lemma handleIncomingMessage_effect deviceId msg uuid post reply_uuid send w r w' :
  handleIncomingMessage deviceId msg uuid post reply_uuid send w = (r, w') ->
  r = Return tt
  /\ if msg_isStatus msg then w' = w
     else exists rest,
       appends w w' (MessageCreate (incoming_row deviceId msg uuid)
                     :: StatsIncrement deviceId "messages_received" :: rest)
       /\ match forwards w deviceId with
          | Some device =>
              posts rest = [(default "" (webhook_url device),
                             chosen_payload deviceId device msg)]
              /\ increments deviceId "webhook_calls" rest
                 = (if completed post then 1 else 0)%nat
              /\ (forall d f, f <> "messages_sent" -> f <> "webhook_calls" ->
                    increments d f rest = 0%nat)
              /\ Forall outgoing (inserted rest)
              /\ sends rest = match spec_reply device post with
                              | Some s => sent_by w deviceId (msg_from msg) (VStr s)
                              | None => []
                              end
              /\ (forall s e,
                    spec_reply device post = Some s ->
                    send_failure w deviceId send = Some e ->
                    In (LogCreate deviceId "error"
                          ("Auto-reply failed: " ++ error_message e)) rest)
          | None => Forall is_log rest
          end.
Proof.
  unfold handleIncomingMessage, forwards. unfold try_catch at 1.
  destruct (msg_isStatus msg); [by intros [= <- <-]|].
  fold (incoming_row deviceId msg uuid).
  unfold messageModel_create, statsModel_increment, logger_info, logModel_create,
    deviceModel_findById, gets, emit, ret.
  cbn -[forwardToWebhook increments Nat.ltb].
  destruct (devices w !! deviceId) as [device|]; cbn -[forwardToWebhook increments Nat.ltb].
  2:{ intros [= <- <-]. split; [done|]. eexists [_; _]. split.
      - unfold appends. cbn -[Nat.ltb]. by rewrite <- !app_assoc.
      - repeat (constructor; [exact I|]). constructor. }
  destruct (flag (webhook_enabled device) && opt_truthy (webhook_url device));
    cbn -[forwardToWebhook increments Nat.ltb].
  2:{ intros [= <- <-]. split; [done|]. eexists [_; _]. split.
      - unfold appends. cbn -[Nat.ltb]. by rewrite <- !app_assoc.
      - repeat (constructor; [exact I|]). constructor. }
  match goal with
  | |- context [forwardToWebhook ?a ?b ?c ?d ?e ?f ?g ?w0] =>
      destruct (forwardToWebhook a b c d e f g w0) as [rF wF] eqn:HF;
      set (wB := w0) in *
  end.
  apply forwardToWebhook_effect in HF as (-> & evs & Hap & P & C1 & C0 & I & S & L).
  intros [= <- <-]. split; [done|].
  assert (appends w wB [MessageCreate (incoming_row deviceId msg uuid);
                        StatsIncrement deviceId "messages_received";
                        Logger "info" (tag deviceId ++ "← " ++ msg_from msg ++ ": "
                          ++ (if JSString.nonempty (msg_body msg)
                              then JSString.substring0 50 (msg_body msg) else "[Media]")
                          ++ (if (50 <? String.length (msg_body msg))%nat
                              then "..." else ""));
                        LogCreate deviceId "info"
                          ("Received from " ++ msg_from msg ++ ": " ++ msg_type msg);
                        Logger "info" (tag deviceId ++ "Forwarding to webhook: "
                                       ++ default "" (webhook_url device))]) as HapB.
  { unfold appends, wB. cbn -[Nat.ltb]. by rewrite <- !app_assoc. }
  eexists (_ :: _ :: _ :: evs). split.
  { exact (appends_trans _ _ _ _ _ HapB Hap). }
  assert (forall s, sent_by wB deviceId (msg_from msg) (VStr s)
                    = sent_by w deviceId (msg_from msg) (VStr s)) as Hsame
    by (intros; apply (sent_by_appends _ _ _ _ _ _ HapB)).
  rewrite (send_failure_appends _ _ _ _ _ HapB) in L.
  cbn -[increments Nat.ltb].
  split; [exact P|]. split; [by count_increments|].
  split; [intros d f H1 H2; count_increments; by apply C0|].
  split; [exact I|]. split.
  - rewrite S. destruct (spec_reply device post); [apply Hsame|done].
  - intros s e Hs Hf. right. right. right. eauto.
Qed.

(** *** The older revision *)

Lemma legacy_sendMessage_effect deviceId to content uuid send w :
  let r := Legacy.sendMessage deviceId to content uuid send w in
  exists evs,
    appends w (snd r) evs
    /\ sends evs = sent_by w deviceId to content
    /\ (forall d f, f <> "messages_sent" -> increments d f evs = 0%nat)
    /\ posts evs = [].
Proof.
  unfold Legacy.sendMessage, sent_by, bind, gets, deviceModel_findById, throw.
  destruct (Map_get deviceId (clients w)) as [c|]; simpl.
  2:{ exists []. split; [apply appends_nil|]. done. }
  destruct (devices w !! deviceId) as [device|]; simpl.
  2:{ exists []. split; [apply appends_nil|]. done. }
  destruct (String.eqb (status device) "connected"); simpl.
  2:{ exists []. split; [apply appends_nil|]. done. }
  unfold try_catch, bind, client_sendMessage, messageModel_create, statsModel_increment,
    logger_info, logger_error, emit, settle, ret, throw, bind.
  destruct send as [m|e]; simpl.
  - eexists [_; _; _; _]. split; [unfold appends; simpl; by rewrite <- !app_assoc|].
    split; [done|]. split; [|done]. intros d f Hf. by count_increments.
  - eexists [_; _]. split; [unfold appends; simpl; by rewrite <- !app_assoc|].
    split; [done|]. split; [|done]. intros d f Hf. by count_increments.
Qed.

Lemma legacy_payload_chosen deviceId device msg w :
  exists evs w1,
    (if opt_truthy (webhook_body_template device) then
       try_catch
         (logger_info (tag deviceId ++ "Using custom body template") ;;;
          payload <- settle (Legacy.buildDynamicPayload
                               (default "" (webhook_body_template device))
                               (Legacy.template_variables deviceId device msg)) ;;
          logModel_create deviceId "info" "Custom payload built successfully" ;;;
          ret payload)
         (fun error =>
            logger_error (tag deviceId ++ "Error building dynamic payload: "
                          ++ error_message error) ;;;
            logModel_create deviceId "error"
              ("Payload build failed: " ++ error_message error) ;;;
            logModel_create deviceId "warn" "Using default payload as fallback" ;;;
            ret (Legacy.getDefaultPayload deviceId device msg))
     else
       logger_info (tag deviceId ++ "Using default payload") ;;;
       ret (Legacy.getDefaultPayload deviceId device msg)) w
    = (Return (legacy_chosen_payload deviceId device msg), w1)
    /\ appends w w1 evs /\ Forall is_log evs.
Proof.
  unfold legacy_chosen_payload.
  destruct (opt_truthy (webhook_body_template device)).
  - unfold try_catch, bind, settle, logger_info, logger_error, logModel_create, emit, ret.
    simpl. destruct (Legacy.buildDynamicPayload _ _) as [p|e]; simpl.
    + eexists [_; _], _. split; [done|]. split.
      * unfold appends. simpl. by rewrite <- !app_assoc.
      * repeat (constructor; [exact I|]). constructor.
    + eexists [_; _; _; _], _. split; [done|]. split.
      * unfold appends. simpl. by rewrite <- !app_assoc.
      * repeat (constructor; [exact I|]). constructor.
  - unfold bind, logger_info, emit, ret. simpl.
    eexists [_], _. split; [done|]. split.
    + done.
    + repeat (constructor; [exact I|]). constructor.
Qed.

Lemma sent_by_address w deviceId to content :
  Forall (fun x => snd (fst x) = chat_address to) (sent_by w deviceId to content).
Proof.
  unfold sent_by. destruct (Map_get _ _); [|constructor].
  destruct (devices w !! deviceId); [|constructor].
  destruct (String.eqb _ _); repeat constructor.
Qed.

Ltac by_trace HapA :=
  eexists; split;
  [ eapply appends_trans; [exact HapA|]; unfold appends; cbn -[Nat.ltb];
    rewrite <- ?app_assoc; repeat split; reflexivity | ].

Lemma legacy_forwardToWebhook_effect deviceId device msg messageData post uuid send w r w' :
  Legacy.forwardToWebhook deviceId device msg messageData post uuid send w = (r, w') ->
  r = Return tt
  /\ exists evs,
       appends w w' evs
       /\ increments deviceId "webhook_calls" evs = (if completed post then 1 else 0)%nat
       /\ Forall (fun x => snd (fst x) = chat_address (msg_from msg)) (sends evs)
       /\ posts evs = [(default "" (webhook_url device),
                        legacy_chosen_payload deviceId device msg)].
Proof.
  unfold Legacy.forwardToWebhook. cbv zeta.
  unfold try_catch at 1. unfold bind at 1. unfold logModel_create at 1. unfold emit at 1.
  cbv beta iota. unfold bind at 1.
  match goal with
  | |- context [ (if opt_truthy _ then _ else _) ?w0 ] =>
      destruct (legacy_payload_chosen deviceId device msg w0)
        as (evsA & wA & HA & HapA0 & HlogA);
      assert (appends w w0 [LogCreate deviceId "info" "Building webhook payload..."])
        as Hap0 by done
  end.
  pose proof (appends_trans _ _ _ _ _ Hap0 HapA0) as HapA. clear Hap0 HapA0.
  destruct (logs_observed evsA HlogA) as (PA & SA & IA & CA).
  rewrite HA. clear HA.
  unfold try_catch, axios_post, logger_info, logger_warn, logger_error, logModel_create,
    statsModel_increment, emit, completed.
  destruct post as [status data|e]; cbn -[Legacy.sendMessage pretty increments].
  2:{ intros [= <- <-]. split; [done|]. by_trace HapA.
      rewrite !sends_app, !posts_app, SA, PA. cbn -[increments].
      split; [count_increments; by rewrite CA|]. split; [constructor|done]. }
  destruct (status <? 600)%Z eqn:H600; cbn -[Legacy.sendMessage pretty increments].
  2:{ intros [= <- <-]. split; [done|]. by_trace HapA.
      rewrite !sends_app, !posts_app, SA, PA. cbn -[increments].
      split; [count_increments; by rewrite CA|]. split; [constructor|done]. }
  destruct ((200 <=? status)%Z && (status <? 300)%Z) eqn:H2xx;
    cbn -[Legacy.sendMessage pretty increments].
  2:{ rewrite !andb_false_r. cbn -[increments].
      intros [= <- <-]. split; [done|]. by_trace HapA.
      rewrite !sends_app, !posts_app, SA, PA. cbn -[increments].
      split; [count_increments; by rewrite CA|]. split; [constructor|done]. }
  rewrite !andb_true_r.
  destruct (flag (webhook_response_enabled device) && truthy data);
    cbn -[Legacy.sendMessage pretty increments].
  2:{ intros [= <- <-]. split; [done|]. by_trace HapA.
      rewrite !sends_app, !posts_app, SA, PA. cbn -[increments].
      split; [count_increments; by rewrite CA|]. split; [constructor|done]. }
  unfold settle.
  destruct (Legacy.extractResponseMessage data (webhook_response_path device)) as [v|e];
    cbn -[Legacy.sendMessage pretty increments].
  2:{ intros [= <- <-]. split; [done|]. by_trace HapA.
      rewrite !sends_app, !posts_app, SA, PA. cbn -[increments].
      split; [count_increments; by rewrite CA|]. split; [constructor|done]. }
  destruct (truthy v); cbn -[Legacy.sendMessage pretty increments].
  2:{ intros [= <- <-]. split; [done|]. by_trace HapA.
      rewrite !sends_app, !posts_app, SA, PA. cbn -[increments].
      split; [count_increments; by rewrite CA|]. split; [constructor|done]. }
  unfold bind at 1.
  match goal with
  | |- context [Legacy.sendMessage ?a ?b ?c ?d ?e ?w0] =>
      pose proof (legacy_sendMessage_effect a b c d e w0) as (evsS & HapS & SS & CS & PS);
      destruct (Legacy.sendMessage a b c d e w0) as [rS wS];
      set (wB := w0) in *
  end.
  cbn [snd] in HapS.
  assert (exists evsB, appends wA wB evsB /\ sends evsB = []
            /\ increments deviceId "webhook_calls" evsB = 1%nat
            /\ posts evsB = [(default "" (webhook_url device),
                              legacy_chosen_payload deviceId device msg)])
    as (evsB & HapB & SB & CB & PB).
  { eexists [_; _; _; _; _; _; _]. split.
    { unfold appends, wB. cbn. by rewrite <- !app_assoc. }
    split; [done|]. split; [by count_increments|done]. }
  pose proof (appends_trans _ _ _ _ _ (appends_trans _ _ _ _ _ HapA HapB) HapS) as HapABS.
  assert (Forall (fun x => snd (fst x) = chat_address (msg_from msg)) (sends evsS)) as HS.
  { rewrite SS. apply sent_by_address. }
  destruct rS as [m|e]; unfold bind, throw; cbn -[pretty increments].
  - destruct v; cbn -[pretty increments]; intros [= <- <-]; (split; [done|]);
      by_trace HapABS;
      rewrite !sends_app, !posts_app, SA, SB, PA, PB, PS; cbn -[increments];
      rewrite ?app_nil_r;
      (split; [count_increments; by rewrite CA, CB, CS|done]).
  - intros [= <- <-]. split; [done|]. by_trace HapABS.
    rewrite !sends_app, !posts_app, SA, SB, PA, PB, PS. cbn -[increments].
    rewrite ?app_nil_r.
    split; [count_increments; by rewrite CA, CB, CS|done].
Qed.

Lemma legacy_handleIncomingMessage_effect deviceId msg uuid post reply_uuid send w r w' :
  Legacy.handleIncomingMessage deviceId msg uuid post reply_uuid send w = (r, w') ->
  r = Return tt
  /\ exists rest,
       appends w w' (MessageCreate (incoming_row deviceId msg uuid)
                     :: StatsIncrement deviceId "messages_received" :: rest)
       /\ increments deviceId "webhook_calls" rest
          = match forwards w deviceId with
            | Some _ => if completed post then 1%nat else 0%nat
            | None => 0%nat
            end
       /\ Forall (fun x => snd (fst x) = chat_address (msg_from msg)) (sends rest)
       /\ posts rest
          = match forwards w deviceId with
            | Some device => [(default "" (webhook_url device),
                               legacy_chosen_payload deviceId device msg)]
            | None => []
            end.
Proof.
  unfold Legacy.handleIncomingMessage, forwards. unfold try_catch at 1.
  fold (incoming_row deviceId msg uuid).
  unfold messageModel_create, statsModel_increment, logger_info, logModel_create,
    deviceModel_findById, gets, emit, ret.
  cbn -[Legacy.forwardToWebhook increments].
  destruct (devices w !! deviceId) as [device|];
    cbn -[Legacy.forwardToWebhook increments].
  2:{ intros [= <- <-]. split; [done|]. eexists [_; _; _]. split.
      - unfold appends. cbn. by rewrite <- !app_assoc.
      - split; [by count_increments|]. split; [constructor|done]. }
  destruct (flag (webhook_enabled device) && opt_truthy (webhook_url device));
    cbn -[Legacy.forwardToWebhook increments].
  2:{ intros [= <- <-]. split; [done|]. eexists [_; _; _]. split.
      - unfold appends. cbn. by rewrite <- !app_assoc.
      - split; [by count_increments|]. split; [constructor|done]. }
  match goal with
  | |- context [Legacy.forwardToWebhook ?a ?b ?c ?d ?e ?f ?g ?w0] =>
      destruct (Legacy.forwardToWebhook a b c d e f g w0) as [rF wF] eqn:HF;
      set (wB := w0) in *
  end.
  apply legacy_forwardToWebhook_effect in HF as (-> & evs & Hap & C1 & S & P).
  intros [= <- <-]. split; [done|].
  assert (exists e1 e2 e3,
            appends w wB [MessageCreate (incoming_row deviceId msg uuid);
                          StatsIncrement deviceId "messages_received";
                          Logger "info" e1; LogCreate deviceId "info" e2;
                          Logger "info" e3]) as (e1 & e2 & e3 & HapB).
  { eexists _, _, _. unfold appends, wB. cbn. by rewrite <- !app_assoc. }
  eexists (_ :: _ :: _ :: evs). split.
  { exact (appends_trans _ _ _ _ _ HapB Hap). }
  split; [by count_increments|]. split; done.
Qed.

(** C2, amended.  For every inbound message that is forwarded (not a
    status message, on a device whose persisted row has the webhook
    enabled and a URL), one request is sent, and the webhook_calls counter
    is incremented exactly once when the request ends with a response of
    status below 600, whatever the status, and not at all when it ends
    without one (connection refused, timeout, DNS, a status of 600 or
    more).  The older revision counts the same way, status messages
    included. *)
Theorem webhook_calls_counted deviceId msg uuid post reply_uuid send w device :
  forwards w deviceId = Some device ->
  (msg_isStatus msg = false ->
   let r := handleIncomingMessage deviceId msg uuid post reply_uuid send w in
   fst r = Return tt
   /\ length (posts (appended w (snd r))) = 1%nat
   /\ increments deviceId "webhook_calls" (appended w (snd r))
      = (if completed post then 1 else 0)%nat)
  /\ (let r := Legacy.handleIncomingMessage deviceId msg uuid post reply_uuid send w in
      fst r = Return tt
      /\ increments deviceId "webhook_calls" (appended w (snd r))
         = (if completed post then 1 else 0)%nat).
Proof.
  intros Hf. split.
  - intros Hs.
    destruct (handleIncomingMessage deviceId msg uuid post reply_uuid send w)
      as [r w'] eqn:Hrun.
    apply handleIncomingMessage_effect in Hrun as [-> Hrest].
    rewrite Hs, Hf in Hrest. destruct Hrest as (rest & Hap & P & C1 & _).
    simpl. rewrite (appended_appends _ _ _ Hap). simpl. rewrite P.
    split; [done|]. split; [done|]. by count_increments.
  - destruct (Legacy.handleIncomingMessage deviceId msg uuid post reply_uuid send w)
      as [r w'] eqn:Hrun.
    apply legacy_handleIncomingMessage_effect in Hrun as (-> & rest & Hap & C1 & _ & _).
    rewrite Hf in C1. simpl. rewrite (appended_appends _ _ _ Hap).
    split; [done|]. by count_increments.
Qed.


(** C6.  A status message is dropped at once: the call changes nothing (no
    row, no counter, no request).  Every other inbound message is first
    inserted, once, as a row with direction incoming, then counted, once,
    in messages_received; whatever follows, a webhook request included,
    comes after these two, inserts outgoing rows only and does not count
    it again.  The older revision has no such filter: it inserts, counts
    and forwards every message, a status message too. *)
Theorem inbound_recorded_once deviceId msg uuid post reply_uuid send w :
  (let r := handleIncomingMessage deviceId msg uuid post reply_uuid send w in
   fst r = Return tt
   /\ if msg_isStatus msg then snd r = w
      else exists rest,
        appended w (snd r)
        = MessageCreate (incoming_row deviceId msg uuid)
          :: StatsIncrement deviceId "messages_received" :: rest
        /\ direction (incoming_row deviceId msg uuid) = "incoming"
        /\ Forall outgoing (inserted rest)
        /\ increments deviceId "messages_received" rest = 0%nat
        /\ posts (appended w (snd r)) = posts rest)
  /\ (let r := Legacy.handleIncomingMessage deviceId msg uuid post reply_uuid send w in
      exists rest,
        appended w (snd r)
        = MessageCreate (incoming_row deviceId msg uuid)
          :: StatsIncrement deviceId "messages_received" :: rest
        /\ length (posts rest)
           = match forwards w deviceId with Some _ => 1%nat | None => 0%nat end).
Proof.
  split.
  - destruct (handleIncomingMessage deviceId msg uuid post reply_uuid send w)
      as [r w'] eqn:Hrun.
    apply handleIncomingMessage_effect in Hrun as [-> Hrest]. simpl.
    split; [done|]. destruct (msg_isStatus msg); [done|].
    destruct Hrest as (rest & Hap & Hrest). exists rest.
    rewrite (appended_appends _ _ _ Hap). split; [done|]. split; [done|].
    destruct (forwards w deviceId) as [device|].
    + destruct Hrest as (_ & _ & C0 & I & _). split; [done|]. split; [|done].
      by apply C0.
    + destruct (logs_observed rest Hrest) as (_ & _ & I & C). rewrite I.
      split; [constructor|]. split; [apply C|done].
  - destruct (Legacy.handleIncomingMessage deviceId msg uuid post reply_uuid send w)
      as [r w'] eqn:Hrun.
    apply legacy_handleIncomingMessage_effect in Hrun as (-> & rest & Hap & _ & _ & P).
    simpl. exists rest. rewrite (appended_appends _ _ _ Hap). split; [done|].
    rewrite P. by destruct (forwards w deviceId).
Qed.

(** C7.  [forwardToWebhook] never throws.  The provider is asked to send
    the text [s] to the sender of the inbound message exactly when the
    session can send (it is registered and persisted as connected),
    response mapping is enabled for the device, the webhook answered with
    a 2xx status and a body that is not empty, and extraction along the
    response path gives the string [s], not blank.  Nothing is sent
    otherwise.  With response mapping enabled, the path data.reply and the
    answer {data: {reply: ok!}}, the text is ok!, and it goes out when the
    session can send.  Whenever the conditions on the answer hold and the
    reply cannot be sent, be it for a session that is not registered or not
    connected or for an error of the provider, the error is written to the
    log ("Auto-reply failed") and goes no further. *)
Theorem auto_reply_sent deviceId device msg messageData post uuid send w :
  let r := forwardToWebhook deviceId device msg messageData post uuid send w in
  fst r = Return tt
  /\ (forall s,
        (exists c, sends (appended w (snd r))
                   = [(c, chat_address (msg_from msg), VStr s)])
        <-> (can_send w deviceId = true
             /\ flag (webhook_response_enabled device) = true
             /\ exists status data,
                  post = Responded status data
                  /\ (200 <= status < 300)%Z
                  /\ truthy data = true
                  /\ extractResponseMessage data (webhook_response_path device)
                     = Return (VStr s)
                  /\ JSString.nonempty (JSString.trim s) = true))
  /\ (can_send w deviceId = false \/ spec_reply device post = None ->
      sends (appended w (snd r)) = [])
  /\ (flag (webhook_response_enabled device) = true ->
      webhook_response_path device = Some "data.reply" ->
      post = Responded 200 (VObj [("data", VObj [("reply", VStr "ok!")])]) ->
      spec_reply device post = Some "ok!"
      /\ (can_send w deviceId = true ->
          exists c, sends (appended w (snd r))
                    = [(c, chat_address (msg_from msg), VStr "ok!")]))
  /\ (forall s e,
        flag (webhook_response_enabled device) = true ->
        (exists status data,
           post = Responded status data
           /\ (200 <= status < 300)%Z
           /\ truthy data = true
           /\ extractResponseMessage data (webhook_response_path device)
              = Return (VStr s)
           /\ JSString.nonempty (JSString.trim s) = true) ->
        send_failure w deviceId send = Some e ->
        In (LogCreate deviceId "error" ("Auto-reply failed: " ++ error_message e))
          (appended w (snd r))).
Proof.
  destruct (forwardToWebhook deviceId device msg messageData post uuid send w)
    as [r w'] eqn:Hrun.
  apply forwardToWebhook_effect in Hrun as (-> & evs & Hap & _ & _ & _ & _ & S & L).
  simpl. rewrite (appended_appends _ _ _ Hap). split; [done|].
  assert (Hsent : forall s,
            if can_send w deviceId
            then exists c, sent_by w deviceId (msg_from msg) (VStr s)
                           = [(c, chat_address (msg_from msg), VStr s)]
            else sent_by w deviceId (msg_from msg) (VStr s) = []).
  { intros s. unfold sent_by, can_send, Map_get in *.
    destruct (assoc deviceId (clients w)) as [c|]; [|done].
    destruct (devices w !! deviceId) as [dev|]; [|done].
    destruct (String.eqb (status dev) "connected"); eauto. }
  assert (Hspec : forall s, spec_reply device post = Some s <->
            flag (webhook_response_enabled device) = true
            /\ exists status data,
                 post = Responded status data
                 /\ (200 <= status < 300)%Z
                 /\ truthy data = true
                 /\ extractResponseMessage data (webhook_response_path device)
                    = Return (VStr s)
                 /\ JSString.nonempty (JSString.trim s) = true).
  { intros s. unfold spec_reply. destruct post as [status data|e].
    - destruct (flag (webhook_response_enabled device)); simpl.
      2:{ split; [done|]. by intros [? _]. }
      destruct (200 <=? status)%Z eqn:H1; simpl.
      2:{ split; [done|]. intros (_ & ? & ? & [= <- <-] & ? & _). lia. }
      destruct (status <? 300)%Z eqn:H2; simpl.
      2:{ split; [done|]. intros (_ & ? & ? & [= <- <-] & ? & _). lia. }
      destruct (truthy data) eqn:H3; simpl.
      2:{ split; [done|]. intros (_ & ? & ? & [= <- <-] & _ & ? & _). congruence. }
      destruct (extractResponseMessage data _) as [[| | | |s0| |]|e] eqn:Hx;
        try (split; [done|]; intros (_ & ? & ? & [= <- <-] & _ & _ & ? & _); congruence).
      destruct (JSString.nonempty (JSString.trim s0)) eqn:Ht.
      + split.
        * intros [= <-]. split; [done|]. exists status, data.
          repeat split; try done; lia.
        * intros (_ & ? & ? & [= <- <-] & _ & _ & ? & _). congruence.
      + split; [done|].
        intros (_ & ? & ? & [= <- <-] & _ & _ & ? & ?). congruence.
    - split; [done|]. by intros (_ & ? & ? & ? & _). }
  split; [|split; [|split]].
  - intros s. rewrite S. split.
    + intros [c Hc]. destruct (spec_reply device post) as [s'|] eqn:Hs; [|done].
      pose proof (Hsent s') as Hs'.
      destruct (can_send w deviceId).
      * destruct Hs' as [c' Hc']. rewrite Hc' in Hc.
        assert (s' = s) as -> by congruence.
        split; [done|]. by apply Hspec.
      * rewrite Hs' in Hc. done.
    + intros [Hcan Hcond]. apply Hspec in Hcond as ->.
      pose proof (Hsent s) as Hs'. by rewrite Hcan in Hs'.
  - intros [Hcan | Hnone]; rewrite S.
    + destruct (spec_reply device post) as [s'|]; [|done].
      pose proof (Hsent s') as Hs'. by rewrite Hcan in Hs'.
    + by rewrite Hnone.
  - intros Hflag Hpath ->.
    assert (spec_reply device
              (Responded 200 (VObj [("data", VObj [("reply", VStr "ok!")])]))
            = Some "ok!") as Hok.
    { unfold spec_reply. rewrite Hflag, Hpath. done. }
    split; [exact Hok|]. intros Hcan. rewrite S, Hok.
    pose proof (Hsent "ok!") as Hs'. by rewrite Hcan in Hs'.
  - intros s e Hflag Hcond Hfail. apply (L s e); [|done].
    apply Hspec. by split.
Qed.

(** C8.  When a forwarded message belongs to a device without body
    template, or with a template whose rendering throws, the one request
    sent carries the default payload, an object with exactly the fields
    device_id, device_name, from, to, message, message_type, timestamp,
    message_id and from_name.  In the older revision the default payload
    it carries has no from_name. *)
Theorem default_payload_delivered deviceId msg uuid post reply_uuid send w device :
  forwards w deviceId = Some device ->
  opt_truthy (webhook_body_template device) = false
  \/ (exists e, buildDynamicPayload (default "" (webhook_body_template device))
                  (template_variables deviceId device msg) = Throw e) ->
  (msg_isStatus msg = false ->
   let r := handleIncomingMessage deviceId msg uuid post reply_uuid send w in
   fst r = Return tt
   /\ posts (appended w (snd r))
      = [(default "" (webhook_url device), getDefaultPayload deviceId device msg)]
   /\ field_names (getDefaultPayload deviceId device msg)
      = ["device_id"; "device_name"; "from"; "to"; "message"; "message_type";
         "timestamp"; "message_id"; "from_name"])
  /\ (opt_truthy (webhook_body_template device) = false ->
      let r := Legacy.handleIncomingMessage deviceId msg uuid post reply_uuid send w in
      posts (appended w (snd r))
      = [(default "" (webhook_url device), Legacy.getDefaultPayload deviceId device msg)]
      /\ field_names (Legacy.getDefaultPayload deviceId device msg)
         = ["device_id"; "device_name"; "from"; "to"; "message"; "message_type";
            "timestamp"; "message_id"]).
Proof.
  intros Hf Hdefault. split.
  - intros Hs.
    destruct (handleIncomingMessage deviceId msg uuid post reply_uuid send w)
      as [r w'] eqn:Hrun.
    apply handleIncomingMessage_effect in Hrun as [-> Hrest].
    rewrite Hs, Hf in Hrest. destruct Hrest as (rest & Hap & P & _).
    simpl. rewrite (appended_appends _ _ _ Hap). simpl. rewrite P.
    split; [done|]. split; [|done]. unfold chosen_payload.
    destruct Hdefault as [->|[e ->]]; [done|]. by destruct (opt_truthy _).
  - intros Hnone.
    destruct (Legacy.handleIncomingMessage deviceId msg uuid post reply_uuid send w)
      as [r w'] eqn:Hrun.
    apply legacy_handleIncomingMessage_effect in Hrun as (-> & rest & Hap & _ & _ & P).
    simpl. rewrite (appended_appends _ _ _ Hap). simpl. rewrite P, Hf.
    unfold legacy_chosen_payload. by rewrite Hnone.
Qed.

(** C9.  On a registered session persisted as connected, [sendMessage]
    hands the provider the address [to] itself when [to] contains an at
    sign, and [to] followed by @c.us otherwise; so does the older
    revision.  An automatic reply goes through [sendMessage]: every send
    that handling an inbound message causes is addressed in this way to
    the sender of the message. *)
Theorem sendMessage_address deviceId to content uuid send w client device :
  Map_get deviceId (clients w) = Some client ->
  devices w !! deviceId = Some device ->
  status device = "connected" ->
  sends (appended w (snd (sendMessage deviceId to content uuid send w)))
  = [(clientId client, (if JSString.includes "@" to then to else to ++ "@c.us"), content)]
  /\ sends (appended w (snd (Legacy.sendMessage deviceId to content uuid send w)))
     = [(clientId client, (if JSString.includes "@" to then to else to ++ "@c.us"), content)]
  /\ (forall msg uuid' post reply_uuid,
        Forall (fun x => snd (fst x)
                         = if JSString.includes "@" (msg_from msg) then msg_from msg
                           else msg_from msg ++ "@c.us")
          (sends (appended w (snd (handleIncomingMessage deviceId msg uuid' post
                                     reply_uuid send w))))
        /\ Forall (fun x => snd (fst x)
                            = if JSString.includes "@" (msg_from msg) then msg_from msg
                              else msg_from msg ++ "@c.us")
             (sends (appended w (snd (Legacy.handleIncomingMessage deviceId msg uuid' post
                                        reply_uuid send w))))).
Proof.
  intros Hc Hd Hs.
  assert (Hsent : forall to' content',
            sent_by w deviceId to' content'
            = [(clientId client,
                (if JSString.includes "@" to' then to' else to' ++ "@c.us"), content')]).
  { intros. unfold sent_by. by rewrite Hc, Hd, Hs. }
  split; [|split].
  - destruct (sendMessage_effect deviceId to content uuid send w)
      as (evs & Hap & _ & _ & S & _).
    by rewrite (appended_appends _ _ _ Hap), S.
  - destruct (legacy_sendMessage_effect deviceId to content uuid send w)
      as (evs & Hap & S & _).
    by rewrite (appended_appends _ _ _ Hap), S.
  - intros msg uuid' post reply_uuid. split.
    + destruct (handleIncomingMessage deviceId msg uuid' post reply_uuid send w)
        as [r w'] eqn:Hrun.
      apply handleIncomingMessage_effect in Hrun as [-> Hrest]. simpl.
      destruct (msg_isStatus msg).
      { subst w'. unfold appended. rewrite drop_all. constructor. }
      destruct Hrest as (rest & Hap & Hrest).
      rewrite (appended_appends _ _ _ Hap). simpl.
      destruct (forwards w deviceId) as [dev|].
      * destruct Hrest as (_ & _ & _ & _ & S & _). rewrite S.
        destruct (spec_reply dev post); [|constructor].
        apply (sent_by_address w deviceId (msg_from msg)).
      * destruct (logs_observed rest Hrest) as (_ & -> & _). constructor.
    + destruct (Legacy.handleIncomingMessage deviceId msg uuid' post reply_uuid send w)
        as [r w'] eqn:Hrun.
      apply legacy_handleIncomingMessage_effect in Hrun as (-> & rest & Hap & _ & S & _).
      simpl. by rewrite (appended_appends _ _ _ Hap).
Qed.

End Pipeline.

(** ** The claims on the example data *)

Section Instances.
Import Engine Examples.

(** C3.  A string value is not inserted as it stands: the replacement text
    of [String.prototype.replace] gives dollar signs a meaning.  With the
    template {"m":"{{message}}"} the message text "Need $$$ now" is
    rendered, and delivered, as "Need $$ now". *)
Theorem template_dollar_patterns :
  rendered (quoted "{'m':'{{message}}'}") (template_variables "device-1" device2 money)
  = quoted "{'m':'Need $$ now'}"
  /\ spec_rendered (quoted "{'m':'{{message}}'}")
       (template_variables "device-1" device2 money)
     = quoted "{'m':'Need $$$ now'}"
  /\ posts (appended world2
              (snd (handleIncomingMessage "device-1" money "uuid-1" answer "uuid-2"
                      (Return sent1) world2)))
     = [("https://hooks.example/in", VObj [("m", VStr "Need $$ now")])].
Proof. by vm_compute. Qed.

(** The older revision at a status update: the row is inserted and the
    message is forwarded. *)
Lemma legacy_status_update_forwarded :
  let t := appended world1
             (snd (Legacy.handleIncomingMessage "device-1" status_update "uuid-1" answer
                     "uuid-2" (Return sent1) world1)) in
  inserted t = [incoming_row "device-1" status_update "uuid-1";
                {| row_id := "uuid-2"; device_id := "device-1";
                   message_id := "true_6281@c.us_3EB1"; from_number := "6281234@c.us";
                   to_number := "6281@c.us"; message_body := VStr "ok!";
                   message_type := "chat"; timestamp := 1700000001%Z;
                   direction := "outgoing" |}]
  /\ increments "device-1" "messages_received" t = 1%nat
  /\ length (posts t) = 1%nat.
Proof. by vm_compute. Qed.

(** The payload the older revision delivers for a device without template. *)
Lemma legacy_default_payload_fields :
  map (fun p => field_names (snd p))
    (posts (appended world1
              (snd (Legacy.handleIncomingMessage "device-1" hello "uuid-1" answer "uuid-2"
                      (Return sent1) world1))))
  = [["device_id"; "device_name"; "from"; "to"; "message"; "message_type";
      "timestamp"; "message_id"]].
Proof. by vm_compute. Qed.

(** The scenario of the specification for a template. *)
Lemma template_scenario :
  buildDynamicPayload (quoted "{'u':'{{from}}','m':'{{message}}'}")
    (template_variables "device-1" device1 hello)
  = Return (VObj [("u", VStr "6281@c.us"); ("m", VStr "hi")]).
Proof. by vm_compute. Qed.

(** C2 as stated fails when the request ends without a response: the
    connection is refused, and the counter is not incremented. *)
Lemma webhook_calls_not_counted_on_failure :
  increments "device-1" "webhook_calls"
    (appended world1
       (snd (handleIncomingMessage "device-1" hello "uuid-1" (Failed refused) "uuid-2"
               (Return sent1) world1)))
  <> 1%nat.
Proof. by vm_compute. Qed.



(** C7.  The conditions on the answer do not suffice for a reply to go
    out: for a session that is registered but whose status is still
    "initializing", response mapping is enabled and the answer is 200 with
    {data: {reply: ok!}}, yet the provider is not asked to send anything;
    the refusal of [sendMessage] is logged. *)
Lemma auto_reply_needs_connected_session :
  let w := snd (forwardToWebhook "device-1" device5 hello
                  (incoming_row "device-1" hello "uuid-1") answer "uuid-2"
                  (Return sent1) world5) in
  spec_reply device5 answer = Some "ok!"
  /\ sends (appended world5 w) = []
  /\ In (LogCreate "device-1" "error" "Auto-reply failed: Device not connected")
       (appended world5 w).
Proof. vm_compute. repeat split. auto 10. Qed.

(** *** The theorems at the example data *)

Lemma createDevice_bounded_retries_witness :
  reachable (new_manager (∅ : gmap string Device))
  /\ fst (createDevice "device-1" "Front desk" None (Return tt)
            (new_manager (∅ : gmap string Device)))
     = Throw (Error "Initialization timeout").
Proof.
  assert (R : reachable (new_manager (∅ : gmap string Device)))
    by (exists ∅; apply rtc_refl).
  split; [exact R|].
  destruct (createDevice_bounded_retries (new_manager ∅) "device-1" "Front desk" R)
    as (_ & _ & H & _).
  apply (H None (Return tt)); [reflexivity|vm_compute; lia|reflexivity].
Defined.

Lemma webhook_calls_counted_witness :
  forwards world1 "device-1" = Some device1
  /\ increments "device-1" "webhook_calls"
       (appended world1
          (snd (handleIncomingMessage "device-1" hello "uuid-1" answer "uuid-2"
                  (Return sent1) world1)))
     = 1%nat.
Proof.
  assert (F : forwards world1 "device-1" = Some device1) by (vm_compute; reflexivity).
  split; [exact F|].
  destruct (webhook_calls_counted "device-1" hello "uuid-1" answer "uuid-2"
              (Return sent1) world1 device1 F) as [H _].
  apply H. reflexivity.
Defined.


Lemma extractResponseMessage_blank_path_witness :
  unconfigured (Some "  ") = true
  /\ extractResponseMessage empty_reply (Some "  ") = auto_detect empty_reply.
Proof.
  assert (U : unconfigured (Some "  ") = true) by reflexivity.
  split; [exact U|].
  apply (extractResponseMessage_blank_path empty_reply (Some "  ") U).
Defined.


Lemma auto_reply_sent_witness :
  can_send world1 "device-1" = true
  /\ exists c,
       sends (appended world1
                (snd (forwardToWebhook "device-1" device1 hello
                        (incoming_row "device-1" hello "uuid-1") answer "uuid-2"
                        (Return sent1) world1)))
       = [(c, chat_address (msg_from hello), VStr "ok!")].
Proof.
  assert (C : can_send world1 "device-1" = true) by (vm_compute; reflexivity).
  split; [exact C|].
  destruct (auto_reply_sent "device-1" device1 hello
              (incoming_row "device-1" hello "uuid-1") answer "uuid-2"
              (Return sent1) world1) as (_ & _ & _ & H & _).
  destruct (H eq_refl eq_refl eq_refl) as [_ Hsend].
  exact (Hsend C).
Defined.

Lemma default_payload_delivered_witness :
  forwards world1 "device-1" = Some device1
  /\ posts (appended world1
              (snd (handleIncomingMessage "device-1" hello "uuid-1" answer "uuid-2"
                      (Return sent1) world1)))
     = [("https://hooks.example/in", getDefaultPayload "device-1" device1 hello)].
Proof.
  assert (F : forwards world1 "device-1" = Some device1) by (vm_compute; reflexivity).
  split; [exact F|].
  destruct (default_payload_delivered "device-1" hello "uuid-1" answer "uuid-2"
              (Return sent1) world1 device1 F (or_introl eq_refl)) as [H _].
  destruct (H eq_refl) as (_ & P & _). exact P.
Defined.

Lemma sendMessage_address_witness :
  devices world1 !! "device-1" = Some device1
  /\ sends (appended world1
              (snd (sendMessage "device-1" "6281" (VStr "hello") "uuid-1"
                      (Return sent1) world1)))
     = [("device-1", "6281@c.us", VStr "hello")].
Proof.
  assert (D : devices world1 !! "device-1" = Some device1) by (vm_compute; reflexivity).
  split; [exact D|].
  destruct (sendMessage_address "device-1" "6281" (VStr "hello") "uuid-1" (Return sent1)
              world1 {| clientId := "device-1" |} device1 eq_refl D eq_refl) as [H _].
  exact H.
Defined.

End Instances.

(** * Further properties *)

Section Sending.
Context {num : JSNumber} {json : JSON}.

(** X1. [sendMessage] fails with "Device not found" without a
    registered session, with a [TypeError] when the session has no row, and
    with "Device not connected" when the row is not "connected", each time
    before anything is done.  Otherwise the provider is called once, with
    the address [chat_address] gives; when it accepts, its acknowledgment
    is returned, one outgoing row with the identifiers of the
    acknowledgment is inserted and [messages_sent] is incremented once;
    when it refuses, its error is thrown again and nothing is recorded. *)
Theorem sendMessage_outcomes deviceId to content uuid send w :
  let r := sendMessage deviceId to content uuid send w in
  match Map_get deviceId (clients w), devices w !! deviceId with
  | None, _ => r = (Throw (Error "Device not found"), w)
  | Some _, None => r = (Throw (TypeError_read VUndefined "status"), w)
  | Some client, Some device =>
      if String.eqb (status device) "connected" then
        sends (appended w (snd r)) = [(clientId client, chat_address to, content)]
        /\ match send with
           | Return sentMsg =>
               fst r = Return sentMsg
               /\ inserted (appended w (snd r))
                  = [ {| row_id := uuid;
                         device_id := deviceId;
                         message_id := sent_id_serialized sentMsg;
                         from_number := sent_from sentMsg;
                         to_number := sent_to sentMsg;
                         message_body := content;
                         message_type := "chat";
                         timestamp := sent_timestamp sentMsg;
                         direction := "outgoing" |} ]
               /\ increments deviceId "messages_sent" (appended w (snd r)) = 1%nat
           | Throw e =>
               fst r = Throw e
               /\ inserted (appended w (snd r)) = []
               /\ increments deviceId "messages_sent" (appended w (snd r)) = 0%nat
           end
      else r = (Throw (Error "Device not connected"), w)
  end.
Proof.
  unfold sendMessage, bind, gets, deviceModel_findById, throw. simpl.
  destruct (Map_get deviceId (clients w)) as [c|]; [|done].
  destruct (devices w !! deviceId) as [device|]; [|done].
  destruct (String.eqb (status device) "connected"); simpl; [|done].
  unfold try_catch, bind, client_sendMessage, messageModel_create, statsModel_increment,
    logger_info, logger_error, emit, settle, ret, throw, appended, chat_address.
  destruct send as [m|e]; simpl; rewrite <- ?app_assoc, drop_app_length; simpl.
  - repeat split. unfold increments. simpl. by rewrite !String.eqb_refl.
  - done.
Qed.

End Sending.

Section Containment.
Context {num : JSNumber} {json : JSON}.

(** X2. Handling an inbound message never fails and touches neither the
    sessions, nor the counts, nor the rows of the devices table: it only
    adds to the trace.  This holds in both revisions. *)
Theorem handleIncomingMessage_contained deviceId msg uuid post reply_uuid send w :
  let r := handleIncomingMessage deviceId msg uuid post reply_uuid send w in
  let r' := Legacy.handleIncomingMessage deviceId msg uuid post reply_uuid send w in
  (fst r = Return tt /\ exists evs, appends w (snd r) evs)
  /\ (fst r' = Return tt /\ exists evs, appends w (snd r') evs).
Proof.
  split.
  - destruct (handleIncomingMessage _ _ _ _ _ _ w) as [r w'] eqn:H.
    apply handleIncomingMessage_effect in H as [-> H]. split; [done|].
    destruct (msg_isStatus msg).
    + subst w'. exists []. apply appends_nil.
    + destruct H as (rest & H & _). eauto.
  - destruct (Legacy.handleIncomingMessage _ _ _ _ _ _ w) as [r w'] eqn:H.
    apply legacy_handleIncomingMessage_effect in H as (-> & rest & H & _).
    split; [done|]. eauto.
Qed.

End Containment.

Section Rendering.
Context {num : JSNumber} {json : JSON}.

Lemma includes_cons sub c s :
  JSString.includes sub (String c s) = false -> JSString.includes sub s = false.
Proof. simpl. intros H. apply orb_false_elim in H as [_ H]. exact H. Qed.





Lemma prefix_app_l a b s : String.prefix (a ++ b) s = true -> String.prefix a s = true.
Proof.
  revert s. induction a as [|c a IH]; intros s; [by destruct s|].
  destruct s as [|d s]; [done|]. simpl.
  destruct (ascii_dec c d); [apply IH|done].
Qed.

Lemma replace_go_absent key replacement before s :
  JSString.includes "{{" s = false ->
  JSString.replace_go ("{{" ++ key ++ "}}") replacement before 0 s = s.
Proof.
  revert before. induction s as [|c s IH]; intros before H; [done|].
  cbn [JSString.replace_go].
  destruct (String.prefix ("{{" ++ key ++ "}}") (String c s)) eqn:Hp.
  - apply (prefix_app_l "{{" (key ++ "}}")) in Hp.
    cbn [JSString.includes] in H. rewrite Hp in H. done.
  - by rewrite IH by (by apply includes_cons in H).
Qed.

Lemma substitute_absent text entry :
  JSString.includes "{{" text = false -> substitute text entry = text.
Proof.
  intros H. unfold substitute, JSString.replace_all.
  destruct (snd entry); by apply replace_go_absent.
Qed.

(** X4. A template in which no placeholder opens is handed to
    [JSON.parse] as it is, whatever the message. *)
Theorem buildDynamicPayload_constant template variables :
  JSString.includes "{{" template = false ->
  buildDynamicPayload template variables = JSON_parse template.
Proof.
  intros H. unfold buildDynamicPayload, rendered. f_equal.
  induction variables as [|entry variables IH]; [done|].
  simpl. by rewrite substitute_absent.
Qed.

End Rendering.

Section Replies.
Context {num : JSNumber} {json : JSON}.

Lemma split_cons sep s : exists h t, JSString.split sep s = h :: t.
Proof.
  induction s as [|c s (h & t & IH)]; simpl; [eauto|].
  destruct (Ascii.eqb c sep); [eauto|]. rewrite IH. eauto.
Qed.

Lemma extractResponseMessage_primitive body responsePath :
  primitive body = true ->
  extractResponseMessage body responsePath = Return VNull.
Proof.
  intros Hb. unfold extractResponseMessage.
  destruct (negb (opt_truthy responsePath) || _).
  - destruct body; try done.
  - destruct (split_cons "." (default "" responsePath)) as (h & t & ->).
    destruct body; try done; simpl.
    + by destruct b.
    + by destruct (number_truthy n).
    + by destruct (JSString.nonempty s).
Qed.

(** X5. A response body that is a string, a number or a boolean never
    yields a reply, with or without a response path: an endpoint that
    answers with plain text is never replied to, whatever its status, and
    the provider is not asked to send anything. *)
Theorem plain_answer_not_replied deviceId device msg messageData status body uuid send w :
  primitive body = true ->
  extractResponseMessage body (webhook_response_path device) = Return VNull
  /\ sends (appended w (snd (forwardToWebhook deviceId device msg messageData
                               (Responded status body) uuid send w))) = [].
Proof.
  intros Hb. split; [by apply extractResponseMessage_primitive|].
  destruct (forwardToWebhook _ _ _ _ _ _ _ w) as [r w'] eqn:H.
  apply forwardToWebhook_effect in H as (_ & evs & Hap & _ & _ & _ & _ & Hs & _).
  simpl. rewrite (appended_appends _ _ _ Hap), Hs.
  unfold spec_reply. rewrite (extractResponseMessage_primitive _ _ Hb).
  by destruct (_ && _).
Qed.

(** X6. When the value found in the response is truthy but not a
    string, which only happens without a response path, nothing is sent:
    the failed call of [trim] is caught and logged. *)
Theorem handleWebhookResponse_not_a_string deviceId device msg data found uuid send w :
  extractResponseMessage data (webhook_response_path device) = Return found ->
  truthy found = true ->
  is_string found = false ->
  handleWebhookResponse deviceId device msg data uuid send w
  = (Return tt,
     {| clients := clients w;
        initializationAttempts := initializationAttempts w;
        devices := devices w;
        trace := trace w
                 ++ [ Logger "error" (tag deviceId
                        ++ "Auto-reply error: replyMessage.trim is not a function");
                      LogCreate deviceId "error"
                        "Auto-reply failed: replyMessage.trim is not a function" ] |}).
Proof.
  intros Hx Ht Hs. unfold handleWebhookResponse, try_catch, bind, settle.
  rewrite Hx, Ht.
  destruct found; try done;
    unfold throw, logger_error, logModel_create, emit, bind; simpl;
    by rewrite <- app_assoc.
Qed.

Lemma prefix_append a b : String.prefix a (a ++ b) = true.
Proof.
  induction a as [|c a IH]; simpl; [by destruct b|].
  by destruct (ascii_dec c c).
Qed.

Lemma webhook_failures_app t1 t2 :
  webhook_failures (t1 ++ t2) = (webhook_failures t1 ++ webhook_failures t2)%list.
Proof.
  induction t1 as [|[] t1 IH]; simpl; try done.
  destruct (_ && _); simpl; by rewrite IH.
Qed.

Lemma sendMessage_quiet deviceId to content uuid send w r w' :
  sendMessage deviceId to content uuid send w = (r, w') ->
  exists evs, appends w w' evs /\ webhook_failures evs = [].
Proof.
  unfold sendMessage, bind, gets, deviceModel_findById, throw.
  destruct (Map_get deviceId (clients w)) as [c|]; simpl.
  2:{ intros [= <- <-]. exists []. split; [apply appends_nil|done]. }
  destruct (devices w !! deviceId) as [device|]; simpl.
  2:{ intros [= <- <-]. exists []. split; [apply appends_nil|done]. }
  destruct (String.eqb (status device) "connected"); simpl.
  2:{ intros [= <- <-]. exists []. split; [apply appends_nil|done]. }
  unfold try_catch, bind, client_sendMessage, messageModel_create, statsModel_increment,
    logger_info, logger_error, emit, settle, ret, throw, bind.
  destruct send as [m|e]; simpl; intros [= <- <-].
  - eexists [_; _; _; _]. split; [unfold appends; simpl; by rewrite <- !app_assoc|done].
  - eexists [_; _]. split; [unfold appends; simpl; by rewrite <- !app_assoc|done].
Qed.

Lemma handleWebhookResponse_quiet deviceId device msg data uuid send w r w' :
  handleWebhookResponse deviceId device msg data uuid send w = (r, w') ->
  exists evs, appends w w' evs /\ webhook_failures evs = [].
Proof.
  unfold handleWebhookResponse, try_catch, bind, settle.
  destruct (extractResponseMessage data _) as [found|e].
  2:{ unfold logger_error, logModel_create, emit. simpl. intros [= <- <-].
      eexists [_; _]. split; [unfold appends; simpl; by rewrite <- !app_assoc|done]. }
  destruct (truthy found) eqn:Ht.
  2:{ unfold logger_warn, logModel_create, emit, bind. simpl. intros [= <- <-].
      eexists [_; _]. split; [unfold appends; simpl; by rewrite <- !app_assoc|done]. }
  destruct found; try done;
    try (unfold throw, logger_error, logModel_create, emit; simpl; intros [= <- <-];
         eexists [_; _]; split; [unfold appends; simpl; by rewrite <- !app_assoc|done]).
  destruct (JSString.nonempty (JSString.trim s)).
  2:{ unfold logger_warn, logModel_create, emit, bind. simpl. intros [= <- <-].
      eexists [_; _]. split; [unfold appends; simpl; by rewrite <- !app_assoc|done]. }
  destruct (sendMessage deviceId (msg_from msg) (VStr s) uuid send w) as [rs ws] eqn:Hsend.
  apply sendMessage_quiet in Hsend as (evs & Hap & Hq).
  unfold logger_info, logger_error, logModel_create, emit.
  destruct rs; simpl; intros [= <- <-].
  - eexists (evs ++ [_; _])%list. split.
    + eapply appends_trans; [exact Hap|]. unfold appends. simpl. by rewrite <- !app_assoc.
    + by rewrite webhook_failures_app, Hq.
  - eexists (evs ++ [_; _])%list. split.
    + eapply appends_trans; [exact Hap|]. unfold appends. simpl. by rewrite <- !app_assoc.
    + by rewrite webhook_failures_app, Hq.
Qed.

Lemma payload_quiet deviceId device msg w :
  exists evs w1,
    (if opt_truthy (webhook_body_template device) then
       try_catch
         (logger_info (tag deviceId ++ "Building custom webhook payload") ;;;
          payload <- settle (buildDynamicPayload
                               (default "" (webhook_body_template device))
                               (template_variables deviceId device msg)) ;;
          logModel_create deviceId "info" "Custom payload built" ;;;
          ret payload)
         (fun error =>
            logger_error (tag deviceId ++ "Payload build error: " ++ error_message error) ;;;
            logModel_create deviceId "error" ("Payload error: " ++ error_message error) ;;;
            logModel_create deviceId "warn" "Using default payload" ;;;
            ret (getDefaultPayload deviceId device msg))
     else ret (getDefaultPayload deviceId device msg)) w
    = (Return (chosen_payload deviceId device msg), w1)
    /\ appends w w1 evs /\ webhook_failures evs = [].
Proof.
  unfold chosen_payload.
  destruct (opt_truthy (webhook_body_template device)).
  - unfold try_catch, bind, settle, logger_info, logger_error, logModel_create, emit, ret.
    simpl. destruct (buildDynamicPayload _ _) as [p|e]; simpl.
    + eexists [_; _], _. split; [done|].
      split; [unfold appends; simpl; by rewrite <- !app_assoc|done].
    + eexists [_; _; _; _], _. split; [done|].
      split; [unfold appends; simpl; by rewrite <- !app_assoc|done].
  - exists [], w. split; [done|]. split; [apply appends_nil|done].
Qed.

(** X7. A delivery is logged as failed exactly when the request ended
    without an accepted response (a network error, or a status of 600 or
    more); a failure of the automatic reply after a delivery is never
    logged as a failed delivery.  A refused connection is reported as
    such. *)
Theorem delivery_failure_logged deviceId device msg messageData post uuid send w :
  webhook_failures
    (appended w (snd (forwardToWebhook deviceId device msg messageData post uuid send w)))
  = match request_error post with
    | Some error => ["Webhook failed: " ++ failure_text error]
    | None => []
    end.
Proof.
  destruct (forwardToWebhook _ _ _ _ _ _ _ w) as [r w'] eqn:H. simpl.
  revert H. unfold forwardToWebhook.
  destruct (payload_quiet deviceId device msg w) as (evsA & wA & HA & HapA & QA).
  cbv zeta. unfold try_catch at 1. unfold bind at 1. rewrite HA.
  unfold try_catch, axios_post, logger_info, logger_warn, logger_error, logModel_create,
    statsModel_increment, emit, request_error, failure_text.
  destruct post as [status data|e]; cbn -[handleWebhookResponse pretty webhook_failures].
  2:{ intros [= <- <-].
      erewrite appended_appends.
      2:{ eapply appends_trans; [exact HapA|].
          instantiate (1 := [_; _; _; _; _]).
          unfold appends. cbn. by rewrite <- !app_assoc. }
      rewrite webhook_failures_app, QA. cbn -[pretty String.prefix].
      by rewrite prefix_append. }
  destruct (status <? 600)%Z eqn:H600; cbn -[handleWebhookResponse pretty webhook_failures].
  2:{ intros [= <- <-].
      erewrite appended_appends.
      2:{ eapply appends_trans; [exact HapA|].
          instantiate (1 := [_; _; _; _; _]).
          unfold appends. cbn. by rewrite <- !app_assoc. }
      rewrite webhook_failures_app, QA. cbn -[pretty String.prefix].
      by rewrite prefix_append. }
  destruct ((200 <=? status)%Z && (status <? 300)%Z) eqn:H2xx;
    cbn -[handleWebhookResponse pretty webhook_failures].
  2:{ intros [= <- <-].
      erewrite appended_appends.
      2:{ eapply appends_trans; [exact HapA|].
          instantiate (1 := [_; _; _; _; _; _]).
          unfold appends. cbn. by rewrite <- !app_assoc. }
      rewrite webhook_failures_app, QA. done. }
  destruct (flag (webhook_response_enabled device) && truthy data) eqn:Hreply;
    cbn -[handleWebhookResponse pretty webhook_failures].
  2:{ intros [= <- <-].
      erewrite appended_appends.
      2:{ eapply appends_trans; [exact HapA|].
          instantiate (1 := [_; _; _; _; _; _]).
          unfold appends. cbn. by rewrite <- !app_assoc. }
      rewrite webhook_failures_app, QA. done. }
  match goal with
  | |- context [handleWebhookResponse ?a ?b ?c ?d ?e ?f ?w0] =>
      destruct (handleWebhookResponse a b c d e f w0) as [rH wH] eqn:HH;
      set (wB := w0) in *
  end.
  pose proof HH as HH'.
  apply handleWebhookResponse_effect in HH' as (-> & _).
  apply handleWebhookResponse_quiet in HH as (evsH & HapH & QH).
  cbn. intros [= <- <-].
  erewrite appended_appends.
  2:{ eapply appends_trans; [|exact HapH].
      eapply appends_trans; [exact HapA|].
      instantiate (1 := [_; _; _; _; _; _]).
      unfold appends, wB. cbn. by rewrite <- !app_assoc. }
  rewrite !webhook_failures_app, QA, QH. done.
Qed.

End Replies.

Section Restarts.
Context {num : JSNumber} {json : JSON}.

Lemma initialized_app t1 t2 :
  initialized (t1 ++ t2) = (initialized t1 ++ initialized t2)%list.
Proof. induction t1 as [|[] t1 IH]; simpl; by rewrite ?IH. Qed.

Lemma destroyed_app t1 t2 :
  destroyed (t1 ++ t2) = (destroyed t1 ++ destroyed t2)%list.
Proof. induction t1 as [|[] t1 IH]; simpl; by rewrite ?IH. Qed.

Lemma appended_app w w' evs : trace w' = (trace w ++ evs)%list -> appended w w' = evs.
Proof. unfold appended. intros ->. apply drop_app_length. Qed.

Lemma appended_refl w : appended w w = [].
Proof. apply appended_app. by rewrite app_nil_r. Qed.

Ltac run_lifecycle :=
  cbv beta iota zeta delta
    [createDevice initializeWithTimeout client_initialize client_destroy try_catch bind
     settle gets set_clients set_attempts set_devices deviceModel_update logger_info
     logger_error emit ret throw fst snd clients initializationAttempts devices trace].

Lemma createDevice_events deviceId name initialize cleanup w :
  accepted w deviceId = true ->
  exists evs,
    trace (snd (createDevice deviceId name initialize cleanup w)) = (trace w ++ evs)%list
    /\ initialized evs = [deviceId]
    /\ destroyed evs = match initialization_error initialize with
                       | None => []
                       | Some _ => [deviceId]
                       end.
Proof.
  unfold accepted, initAttemptCount. intros H.
  apply andb_true_iff in H as [H Hc]. apply negb_true_iff in H.
  apply Nat.ltb_lt, Nat.leb_gt in Hc.
  destruct w as [cs a dv t]. cbn [clients initializationAttempts devices trace] in *.
  destruct initialize as [[[]|e']|]; destruct cleanup as [[]|x];
    eexists; run_lifecycle; rewrite H, Hc; cbv beta iota;
    rewrite <- ?app_assoc; (split; [reflexivity|done]).
Qed.

Lemma createDevice_summary deviceId name initialize cleanup w :
  let r := createDevice deviceId name initialize cleanup w in
  fst r = (if Map_has deviceId (clients w) then Throw (Error "Device already exists")
           else if (maxRetries <=? initAttemptCount w deviceId)%nat
                then Throw (Error "Maximum initialization attempts reached")
                else match initialization_error initialize with
                     | None => Return {| clientId := deviceId |}
                     | Some e => Throw e
                     end)
  /\ (forall d, Map_has d (clients (snd r))
                = if String.eqb deviceId d
                  then Map_has d (clients w)
                       || (accepted w d
                           && bool_decide (initialization_error initialize = None))
                  else Map_has d (clients w))
  /\ (forall d, initAttemptCount (snd r) d
                = if String.eqb deviceId d && accepted w d
                  then match initialization_error initialize with
                       | None => 0%nat
                       | Some _ => S (initAttemptCount w d)
                       end
                  else initAttemptCount w d)
  /\ devices (snd r)
     = (if accepted w deviceId
        then alter (apply_patch {| patch_status := Some "initializing";
                                   patch_phone_number := None;
                                   patch_qr_code := None |}) deviceId (devices w)
        else devices w)
  /\ exists evs,
       trace (snd r) = (trace w ++ evs)%list
       /\ initialized evs = (if accepted w deviceId then [deviceId] else [])
       /\ destroyed evs
          = (if accepted w deviceId
                && negb (bool_decide (initialization_error initialize = None))
             then [deviceId] else []).
Proof.
  cbv zeta. unfold accepted.
  destruct (Map_has deviceId (clients w)) eqn:Hhas.
  { rewrite createDevice_exists by done. simpl. repeat split.
    - intros d. destruct (String.eqb_spec deviceId d) as [<-|]; [by rewrite Hhas|done].
    - intros d. destruct (String.eqb_spec deviceId d) as [<-|]; [by rewrite Hhas|done].
    - exists []. by rewrite app_nil_r. }
  destruct (maxRetries <=? initAttemptCount w deviceId)%nat eqn:Hmax.
  { pose proof Hmax as Hlt. apply Nat.leb_le in Hmax.
    assert ((initAttemptCount w deviceId <? maxRetries)%nat = false) as Hf
      by (apply Nat.ltb_ge; lia).
    rewrite createDevice_limit by done. cbn [fst snd]. rewrite Hf.
    repeat split; cbn [andb negb].
    - intros d. destruct (String.eqb_spec deviceId d) as [<-|]; [by rewrite Hhas, Hf|done].
    - intros d. destruct (String.eqb_spec deviceId d) as [<-|]; [by rewrite Hhas, Hf|done].
    - exists []. by rewrite app_nil_r. }
  apply Nat.leb_gt in Hmax.
  assert ((initAttemptCount w deviceId <? maxRetries)%nat = true) as Hlt
    by (by apply Nat.ltb_lt).
  assert (accepted w deviceId = true) as Hadm by (unfold accepted; by rewrite Hhas, Hlt).
  destruct (createDevice_events deviceId name initialize cleanup w Hadm)
    as (evs & Ht & Hi & Hd).
  destruct (createDevice_run deviceId name initialize cleanup w Hhas Hmax) as [evs' Hrun].
  rewrite Hrun in *. rewrite Hlt. cbn [andb negb].
  destruct (initialization_error initialize) as [e|] eqn:He;
    cbn [fst snd clients initializationAttempts devices trace] in *.
  - repeat split.
    + intros d. rewrite Map_has_delete, Map_has_set.
      destruct (String.eqb_spec deviceId d) as [<-|]; simpl; [|done].
      by rewrite Hhas, andb_false_r.
    + intros d. destruct (String.eqb_spec deviceId d) as [<-|Hne]; cbn [andb].
      * rewrite Hhas, Hlt. unfold initAttemptCount. cbn [initializationAttempts negb].
        by rewrite lookup_insert_eq.
      * unfold initAttemptCount. cbn [initializationAttempts].
        by rewrite lookup_insert_ne.
    + exists evs. done.
  - repeat split.
    + intros d. rewrite Map_has_set.
      destruct (String.eqb_spec deviceId d) as [<-|]; simpl; [|done].
      by rewrite Hhas, Hlt.
    + intros d. destruct (String.eqb_spec deviceId d) as [<-|Hne]; cbn [andb].
      * rewrite Hhas, Hlt. unfold initAttemptCount. cbn [initializationAttempts negb].
        by rewrite lookup_delete_eq.
      * unfold initAttemptCount. cbn [initializationAttempts].
        by rewrite lookup_delete_ne.
    + exists evs. done.
Qed.

Lemma Map_has_get {A} k (m : list (string * A)) :
  Map_has k m = bool_decide (is_Some (Map_get k m)).
Proof. done. Qed.

Lemma disconnectDevice_summary deviceId destroy w :
  let r := disconnectDevice deviceId destroy w in
  fst r = Return tt
  /\ (forall d, Map_has d (clients (snd r))
                = Map_has d (clients w)
                  && negb (String.eqb deviceId d && negb (teardown_failed destroy)))
  /\ initializationAttempts (snd r) = initializationAttempts w
  /\ devices (snd r)
     = (if Map_has deviceId (clients w) && negb (teardown_failed destroy)
        then alter (apply_patch {| patch_status := Some "disconnected";
                                   patch_phone_number := None;
                                   patch_qr_code := Some None |}) deviceId (devices w)
        else devices w)
  /\ exists evs,
       trace (snd r) = (trace w ++ evs)%list
       /\ initialized evs = []
       /\ destroyed evs = match Map_get deviceId (clients w) with
                          | Some client => [clientId client]
                          | None => []
                          end.
Proof.
  cbv zeta. rewrite (Map_has_get deviceId).
  destruct (Map_get deviceId (clients w)) as [c|] eqn:Hget.
  - destruct destroy as [[]|e].
    + rewrite (disconnectDevice_run _ _ _ Hget). simpl. repeat split.
      * intros d. rewrite Map_has_delete, andb_true_r. apply andb_comm.
      * eexists. split; [done|]. done.
    + rewrite (disconnectDevice_failure _ _ _ _ Hget). simpl. repeat split.
      * intros d. by rewrite andb_false_r, andb_true_r.
      * eexists. split; [done|]. done.
  - rewrite (disconnectDevice_absent _ _ _ Hget). simpl. repeat split.
    + intros d. destruct (String.eqb_spec deviceId d) as [<-|]; simpl;
        [|by rewrite andb_true_r].
      rewrite Map_has_get, Hget. done.
    + exists []. by rewrite app_nil_r.
Qed.


Lemma restartDevice_summary deviceId destroy initialize cleanup w :
  exists w1 evs1,
    (forall d, Map_has d (clients w1)
               = Map_has d (clients w)
                 && negb (String.eqb deviceId d && negb (teardown_failed destroy)))
    /\ initializationAttempts w1 = initializationAttempts w
    /\ devices w1
       = (if Map_has deviceId (clients w) && negb (teardown_failed destroy)
          then alter (apply_patch {| patch_status := Some "disconnected";
                                     patch_phone_number := None;
                                     patch_qr_code := Some None |}) deviceId (devices w)
          else devices w)
    /\ trace w1 = (trace w ++ evs1)%list
    /\ initialized evs1 = []
    /\ restartDevice deviceId destroy initialize cleanup w
       = match devices w1 !! deviceId with
         | Some device =>
             let r := createDevice deviceId (device_name device) initialize cleanup w1 in
             (match fst r with Return _ => Return tt | Throw e => Throw e end, snd r)
         | None => (Return tt, w1)
         end.
Proof.
  unfold restartDevice. unfold bind at 1 2. unfold logger_info, logModel_create, emit.
  unfold bind at 1.
  match goal with
  | |- context [disconnectDevice deviceId destroy ?w0] => set (wL := w0)
  end.
  destruct (disconnectDevice_summary deviceId destroy wL)
    as (Hr & Hc & Ha & Hd & evs & Ht & Hi & _).
  destruct (disconnectDevice deviceId destroy wL) as [r1 w1]. simpl in Hr. subst r1.
  cbn [fst snd] in *.
  exists w1, ([Logger "info" (tag deviceId ++ "Restarting device...");
               LogCreate deviceId "info" "Device restart initiated"] ++ evs)%list.
  split; [exact Hc|]. split; [exact Ha|]. split; [exact Hd|].
  split; [rewrite Ht; unfold wL; cbn [trace]; by rewrite <- !app_assoc|].
  split; [by rewrite initialized_app, Hi|].
  unfold bind, deviceModel_findById, gets, ret.
  destruct (devices w1 !! deviceId) as [device|]; [|done].
  cbv zeta. by destruct (createDevice _ _ _ _ w1) as [[c|e] w2].
Qed.

Lemma lookup_alter_is_Some (f : Device -> Device) k k' (m : gmap string Device) :
  is_Some (alter f k m !! k') <-> is_Some (m !! k').
Proof.
  destruct (decide (k = k')) as [->|].
  - rewrite lookup_alter_eq. by rewrite fmap_is_Some.
  - by rewrite lookup_alter_ne.
Qed.

(** X8. Creating, disconnecting or restarting one device leaves the
    session, the count and the row of every other device as they were. *)
Theorem one_device_at_a_time deviceId name destroy initialize cleanup w :
  others_untouched deviceId w (snd (createDevice deviceId name initialize cleanup w))
  /\ others_untouched deviceId w (snd (disconnectDevice deviceId destroy w))
  /\ others_untouched deviceId w
       (snd (restartDevice deviceId destroy initialize cleanup w)).
Proof.
  assert (forall n i c w0,
            others_untouched deviceId w0 (snd (createDevice deviceId n i c w0))) as Hcreate.
  { intros n i c w0 d Hne.
    destruct (createDevice_summary deviceId n i c w0) as (_ & Hc & Ha & Hd & _).
    rewrite Hc, Ha, Hd.
    destruct (String.eqb_spec deviceId d) as [->|_]; [done|]. cbn [andb].
    split; [done|]. split; [done|].
    destruct (accepted w0 deviceId); [|done]. by rewrite lookup_alter_ne. }
  assert (forall x w0,
            others_untouched deviceId w0 (snd (disconnectDevice deviceId x w0))) as Hdisc.
  { intros x w0 d Hne.
    destruct (disconnectDevice_summary deviceId x w0) as (_ & Hc & Ha & Hd & _).
    unfold initAttemptCount. rewrite Hc, Ha, Hd.
    destruct (String.eqb_spec deviceId d) as [->|_]; [done|]. cbn [andb negb].
    rewrite andb_true_r. split; [done|]. split; [done|].
    destruct (_ && _); [|done]. by rewrite lookup_alter_ne. }
  split; [apply Hcreate|]. split; [apply Hdisc|].
  destruct (restartDevice_summary deviceId destroy initialize cleanup w)
    as (w1 & evs1 & Hc & Ha & Hd & _ & _ & ->).
  assert (others_untouched deviceId w w1) as H1.
  { intros d Hne. unfold initAttemptCount. rewrite Hc, Ha, Hd.
    destruct (String.eqb_spec deviceId d) as [->|_]; [done|]. cbn [andb negb].
    rewrite andb_true_r. split; [done|]. split; [done|].
    destruct (_ && _); [|done]. by rewrite lookup_alter_ne. }
  destruct (devices w1 !! deviceId) as [device|]; [|exact H1].
  cbn [snd]. intros d Hne.
  destruct (Hcreate (device_name device) initialize cleanup w1 d Hne) as (-> & -> & ->).
  by apply H1.
Qed.

(** X9. What a restart ends with: without a row the session is only
    torn down; with a row it fails with "Device already exists" when the
    teardown of the registered session failed, with "Maximum initialization
    attempts reached" when the count has reached the limit, and otherwise
    ends as the new initialisation ends: registered with a count of zero,
    or unregistered with the error and one more on the count.  Nothing is
    said of the persisted status, which the events of the provider write
    while the initialisation is awaited. *)
Theorem restartDevice_outcomes deviceId destroy initialize cleanup w :
  let r := restartDevice deviceId destroy initialize cleanup w in
  match devices w !! deviceId with
  | None =>
      fst r = Return tt
      /\ Map_has deviceId (clients (snd r)) = stays_registered w deviceId destroy
      /\ initAttemptCount (snd r) deviceId = initAttemptCount w deviceId
  | Some _ =>
      if stays_registered w deviceId destroy then
        fst r = Throw (Error "Device already exists")
        /\ Map_has deviceId (clients (snd r)) = true
      else if (maxRetries <=? initAttemptCount w deviceId)%nat then
        fst r = Throw (Error "Maximum initialization attempts reached")
        /\ Map_has deviceId (clients (snd r)) = false
      else
        match initialization_error initialize with
        | None =>
            fst r = Return tt
            /\ Map_has deviceId (clients (snd r)) = true
            /\ initAttemptCount (snd r) deviceId = 0%nat
        | Some e =>
            fst r = Throw e
            /\ Map_has deviceId (clients (snd r)) = false
            /\ initAttemptCount (snd r) deviceId = S (initAttemptCount w deviceId)
        end
  end.
Proof.
  cbv zeta.
  destruct (restartDevice_summary deviceId destroy initialize cleanup w)
    as (w1 & evs1 & Hc & Ha & Hd & _ & _ & ->).
  assert (Map_has deviceId (clients w1) = stays_registered w deviceId destroy) as Hhas.
  { rewrite Hc, String.eqb_refl. unfold stays_registered. cbn [andb]. by rewrite negb_involutive. }
  assert (initAttemptCount w1 deviceId = initAttemptCount w deviceId) as Hcount
    by (unfold initAttemptCount; by rewrite Ha).
  assert (is_Some (devices w1 !! deviceId) <-> is_Some (devices w !! deviceId)) as Hrow.
  { rewrite Hd. destruct (_ && _); [apply lookup_alter_is_Some|done]. }
  destruct (devices w !! deviceId) as [row|] eqn:Hw.
  2:{ destruct (devices w1 !! deviceId) as [device|] eqn:H1.
      - assert (is_Some (None : option Device)) as [? ?] by (apply Hrow; eauto). done.
      - done. }
  destruct (devices w1 !! deviceId) as [device|] eqn:H1.
  2:{ assert (is_Some (None : option Device)) as [? ?] by (apply Hrow; eauto). done. }
  cbv zeta. cbn [fst snd].
  destruct (createDevice_summary deviceId (device_name device) initialize cleanup w1)
    as (Hr & Hc' & Ha' & Hd' & _).
  rewrite Hr, Hc', Ha'. unfold accepted. rewrite String.eqb_refl, Hhas, Hcount.
  destruct (stays_registered w deviceId destroy); [done|]. cbn [negb andb orb].
  destruct (maxRetries <=? initAttemptCount w deviceId)%nat eqn:Hmax.
  { apply Nat.leb_le in Hmax.
    assert ((initAttemptCount w deviceId <? maxRetries)%nat = false) as ->
      by (apply Nat.ltb_ge; lia).
    done. }
  apply Nat.leb_gt in Hmax.
  assert ((initAttemptCount w deviceId <? maxRetries)%nat = true) as ->
    by (by apply Nat.ltb_lt).
  by destruct (initialization_error initialize) as [e|].
Qed.

(** X10. The automatic reconnection after a disconnection never fails,
    whatever the restart does; it starts a new initialisation only when
    the device still has a row, the old session is no longer registered
    and the count is below the limit. *)
Theorem auto_reconnect_contained deviceId destroy initialize cleanup w :
  let r := auto_reconnect deviceId destroy initialize cleanup w in
  fst r = Return tt
  /\ initialized (appended w (snd r))
     = (if bool_decide (is_Some (devices w !! deviceId))
           && negb (stays_registered w deviceId destroy)
           && (initAttemptCount w deviceId <? maxRetries)%nat
        then [deviceId] else []).
Proof.
  cbv zeta.
  destruct (auto_reconnect deviceId destroy initialize cleanup w) as [r w'] eqn:E.
  cbn [fst snd]. revert E.
  unfold auto_reconnect. unfold bind at 1. unfold logger_info at 1, emit at 1.
  match goal with
  | |- context [try_catch _ _ ?w0] => set (wL := w0)
  end.
  destruct (restartDevice_summary deviceId destroy initialize cleanup wL)
    as (w1 & evs1 & Hc & Ha & Hd & Ht & Hi & Hrun).
  unfold try_catch. rewrite Hrun. clear Hrun.
  assert (Map_has deviceId (clients w1) = stays_registered w deviceId destroy) as Hhas.
  { rewrite Hc, String.eqb_refl. unfold stays_registered. cbn [andb].
    by rewrite negb_involutive. }
  assert (initAttemptCount w1 deviceId = initAttemptCount w deviceId) as Hcount
    by (unfold initAttemptCount; by rewrite Ha).
  assert (is_Some (devices w1 !! deviceId) <-> is_Some (devices w !! deviceId)) as Hrow.
  { rewrite Hd. destruct (_ && _); [apply lookup_alter_is_Some|done]. }
  destruct (devices w1 !! deviceId) as [device|] eqn:H1.
  2:{ intros [= <- <-]. split; [done|].
      rewrite bool_decide_eq_false_2 by (rewrite <- Hrow; by intros [? ?]).
      erewrite appended_app; [|rewrite Ht; unfold wL; cbn [trace]; by rewrite <- app_assoc].
      by rewrite initialized_app, Hi. }
  rewrite bool_decide_eq_true_2 by (apply Hrow; eauto).
  cbv zeta.
  destruct (createDevice_summary deviceId (device_name device) initialize cleanup w1)
    as (_ & _ & _ & _ & evs & Ht' & Hi' & _).
  unfold accepted in Hi'. rewrite Hhas, Hcount in Hi'. cbn [andb].
  destruct (createDevice _ _ _ _ w1) as [[c|e] w2]; cbn [fst snd] in *.
  - intros [= <- <-]. split; [done|].
    erewrite appended_app;
      [|rewrite Ht', Ht; unfold wL; cbn [trace]; by rewrite <- !app_assoc].
    by rewrite !initialized_app, Hi, Hi'.
  - unfold logger_error, emit. intros [= <- <-]. split; [done|].
    erewrite appended_app;
      [|cbn [trace]; rewrite Ht', Ht; unfold wL; cbn [trace]; by rewrite <- !app_assoc].
    rewrite !initialized_app, Hi, Hi'. cbn. by rewrite app_nil_r.
Qed.

End Restarts.

Section Sequences.
Context {num : JSNumber} {json : JSON}.

Lemma createDevice_counts_bounded deviceId name initialize cleanup w :
  counts_bounded w ->
  counts_bounded (snd (createDevice deviceId name initialize cleanup w)).
Proof.
  intros Hinv d. destruct (Hinv d) as [Hle H0].
  destruct (createDevice_summary deviceId name initialize cleanup w) as (_ & Hc & Ha & _).
  rewrite Hc, Ha. unfold accepted.
  destruct (String.eqb deviceId d); cbn [andb]; [|done].
  destruct (Map_has d (clients w)); cbn [negb andb orb]; [auto|].
  destruct (initAttemptCount w d <? maxRetries)%nat eqn:Hlt; cbn [andb]; [|done].
  apply Nat.ltb_lt in Hlt.
  destruct (initialization_error initialize); [|unfold maxRetries; split; [lia|done]].
  split; [lia|]. by rewrite bool_decide_eq_false_2.
Qed.

Lemma disconnected_counts_bounded deviceId destroy w w1 :
  (forall d, Map_has d (clients w1)
             = Map_has d (clients w)
               && negb (String.eqb deviceId d && negb (teardown_failed destroy))) ->
  initializationAttempts w1 = initializationAttempts w ->
  counts_bounded w -> counts_bounded w1.
Proof.
  intros Hc Ha Hinv d. destruct (Hinv d) as [Hle H0].
  unfold initAttemptCount in *. rewrite Hc, Ha. split; [done|].
  intros H. apply andb_true_iff in H as [H _]. auto.
Qed.

Lemma appends_counts_bounded w w' evs :
  appends w w' evs -> counts_bounded w -> counts_bounded w'.
Proof.
  intros (Hc & Ha & _) Hinv d. unfold initAttemptCount. rewrite Hc, Ha. apply Hinv.
Qed.

Lemma call_counts_bounded w w' : call w w' -> counts_bounded w -> counts_bounded w'.
Proof.
  intros Hcall Hinv. destruct Hcall.
  - by apply createDevice_counts_bounded.
  - destruct (disconnectDevice_summary deviceId destroy w) as (_ & Hc & Ha & _).
    eapply disconnected_counts_bounded; eauto.
  - destruct (restartDevice_summary deviceId destroy initialize cleanup w)
      as (w1 & evs1 & Hc & Ha & _ & _ & _ & ->).
    assert (counts_bounded w1) as H1 by (eapply disconnected_counts_bounded; eauto).
    destruct (devices w1 !! deviceId); [|done].
    by apply createDevice_counts_bounded.
  - destruct (handleIncomingMessage _ _ _ _ _ _ w) as [r w'] eqn:H.
    apply handleIncomingMessage_effect in H as [_ H]. cbn [snd].
    destruct (msg_isStatus msg); [by subst|].
    destruct H as (rest & H & _). eauto using appends_counts_bounded.
  - destruct (sendMessage_effect deviceId to content uuid send w) as (evs & H & _).
    eauto using appends_counts_bounded.
Qed.

(** X11. When the calls of the manager run one after the other, no count
    ever exceeds [maxRetries], and a device with a registered session has a
    count of zero. *)
Theorem sequential_counts_bounded table w :
  rtc call (new_manager table) w -> counts_bounded w.
Proof.
  revert w. apply rtc_ind_r.
  - intros d. unfold initAttemptCount. simpl. rewrite lookup_empty. simpl.
    unfold maxRetries. split; [lia|done].
  - intros y z _ Hcall IH. eauto using call_counts_bounded.
Qed.

Lemma initialize_row_effect device initialize cleanup w r w' :
  initialize_row initialize cleanup device w = (r, w') ->
  r = Return tt
  /\ (forall d, Map_has d (clients w')
                = if String.eqb (device_id_of device) d
                  then Map_has d (clients w)
                       || (accepted w d
                           && bool_decide
                                (initialization_error (initialize (device_id_of device))
                                 = None))
                  else Map_has d (clients w))
  /\ (forall d, initAttemptCount w' d
                = if String.eqb (device_id_of device) d && accepted w d
                  then match initialization_error (initialize (device_id_of device)) with
                       | None => 0%nat
                       | Some _ => S (initAttemptCount w d)
                       end
                  else initAttemptCount w d)
  /\ exists evs,
       trace w' = (trace w ++ evs)%list
       /\ initialized evs = (if accepted w (device_id_of device)
                             then [device_id_of device] else []).
Proof.
  unfold initialize_row, try_catch. unfold bind at 1. unfold logger_info at 1, emit at 1.
  match goal with
  | |- context [bind (createDevice _ _ _ _) _ ?w0] => set (wL := w0)
  end.
  unfold bind at 1.
  destruct (createDevice_summary (device_id_of device) (device_name device)
              (initialize (device_id_of device)) (cleanup (device_id_of device)) wL)
    as (_ & Hc & Ha & _ & evs & Ht & Hi & _).
  assert (forall d, accepted wL d = accepted w d) as Hacc by done.
  assert (forall d, initAttemptCount wL d = initAttemptCount w d) as Hcnt by done.
  setoid_rewrite Hacc in Hc. setoid_rewrite Hacc in Ha. setoid_rewrite Hcnt in Ha.
  rewrite Hacc in Hi.
  destruct (createDevice _ _ _ _ wL) as [[c|e] w2]; cbn [fst snd] in *.
  - unfold ret. intros [= <- <-]. split; [done|]. split; [exact Hc|]. split; [exact Ha|].
    eexists. split; [rewrite Ht; unfold wL; cbn [trace]; by rewrite <- app_assoc|].
    by rewrite initialized_app, Hi.
  - unfold logger_error, logModel_create, emit, bind. cbn [fst snd].
    intros [= <- <-]. cbn [clients initializationAttempts trace].
    split; [done|]. split; [exact Hc|]. split; [exact Ha|].
    eexists. split; [rewrite Ht; unfold wL; cbn [trace]; by rewrite <- !app_assoc|].
    rewrite !initialized_app, Hi. cbn. by rewrite app_nil_r.
Qed.

Lemma initializeDevices_loop rows initialize cleanup w r w' :
  NoDup (map device_id_of rows) ->
  (forall d, d ∈ map device_id_of rows -> accepted w d = true) ->
  for_each (initialize_row initialize cleanup) rows w = (r, w') ->
  r = Return tt
  /\ (forall d, Map_has d (clients w')
                = Map_has d (clients w)
                  || (bool_decide (d ∈ map device_id_of rows)
                      && bool_decide (initialization_error (initialize d) = None)))
  /\ (forall d, initAttemptCount w' d
                = if bool_decide (d ∈ map device_id_of rows)
                  then match initialization_error (initialize d) with
                       | None => 0%nat
                       | Some _ => S (initAttemptCount w d)
                       end
                  else initAttemptCount w d)
  /\ exists evs,
       trace w' = (trace w ++ evs)%list
       /\ initialized evs = map device_id_of rows.
Proof.
  revert w. induction rows as [|device rows IH]; intros w Hnd Hacc.
  { cbn. intros [= <- <-]. split; [done|].
    split; [intros d; by rewrite orb_false_r|]. split; [done|].
    exists []. by rewrite app_nil_r. }
  cbn [map] in Hnd. apply NoDup_cons in Hnd as [Hnotin Hnd].
  cbn [for_each]. unfold bind at 1.
  destruct (initialize_row initialize cleanup device w) as [r1 w1] eqn:H1.
  apply initialize_row_effect in H1 as (-> & Hc & Ha & evs & Ht & Hi).
  assert (accepted w (device_id_of device) = true) as Hthis by (apply Hacc; by left).
  rewrite Hthis in Hi.
  assert (forall d, d ∈ map device_id_of rows -> accepted w1 d = true) as Hacc1.
  { intros d Hd. unfold accepted. rewrite Hc, Ha.
    destruct (String.eqb_spec (device_id_of device) d) as [Heq|Hne].
    - exfalso. apply Hnotin. by rewrite Heq.
    - apply Hacc. by right. }
  intros Hrest. destruct (IH w1 Hnd Hacc1 Hrest) as (Hr' & Hc' & Ha' & evs' & Ht' & Hi').
  split; [exact Hr'|]. split; [|split].
  - intros d. rewrite Hc', Hc. cbn [map].
    destruct (String.eqb_spec (device_id_of device) d) as [<-|Hne].
    + rewrite (bool_decide_eq_true_2 (_ ∈ _ :: _)) by (by left).
      rewrite Hthis. cbn [andb].
      rewrite (bool_decide_eq_false_2 (_ ∈ map _ rows)) by done.
      cbn [andb]. by rewrite orb_false_r.
    + f_equal. f_equal. apply bool_decide_ext. rewrite elem_of_cons.
      split; [by right|intros [?|?]; [congruence|done]].
  - intros d. rewrite Ha', Ha. cbn [map].
    destruct (String.eqb_spec (device_id_of device) d) as [<-|Hne].
    + rewrite (bool_decide_eq_true_2 (_ ∈ _ :: _)) by (by left).
      rewrite Hthis. cbn [andb].
      by rewrite (bool_decide_eq_false_2 (_ ∈ map _ rows)) by done.
    + cbn [andb].
      destruct (decide (d ∈ map device_id_of rows)) as [Hin|Hout].
      * rewrite !bool_decide_eq_true_2; [done| |done]. by right.
      * rewrite !bool_decide_eq_false_2; [done| |done].
        rewrite elem_of_cons. intros [?|?]; [congruence|done].
  - exists (evs ++ evs')%list. split; [rewrite Ht', Ht; by rewrite app_assoc|].
    by rewrite initialized_app, Hi, Hi'.
Qed.

(** X12. At start-up every device of the table is initialised once, in
    the order of the rows; [initializeDevices] never fails; the devices
    whose initialisation succeeded are the ones with a session afterwards,
    and the others have a count of one: a failure does not stop the
    devices after it. *)
Theorem initializeDevices_isolated table rows initialize cleanup :
  NoDup (map device_id_of rows) ->
  let r := initializeDevices rows initialize cleanup (new_manager table) in
  fst r = Return tt
  /\ initialized (trace (snd r)) = map device_id_of rows
  /\ forall d,
       Map_has d (clients (snd r))
       = bool_decide (d ∈ map device_id_of rows)
         && bool_decide (initialization_error (initialize d) = None)
       /\ initAttemptCount (snd r) d
          = if Map_has d (clients (snd r)) then 0%nat
            else if bool_decide (d ∈ map device_id_of rows) then 1%nat else 0%nat.
Proof.
  intros Hnd. cbv zeta.
  destruct (initializeDevices rows initialize cleanup (new_manager table)) as [r w'] eqn:E.
  cbn [fst snd]. revert E.
  unfold initializeDevices. unfold bind at 1.
  unfold logger_info at 1, emit at 1.
  match goal with
  | |- context [for_each _ rows ?w0] => set (wL := w0)
  end.
  assert (forall d, d ∈ map device_id_of rows -> accepted wL d = true) as Hacc.
  { intros d _. unfold accepted, initAttemptCount, wL. cbn. by rewrite lookup_empty. }
  intros E.
  destruct (initializeDevices_loop rows initialize cleanup wL r w' Hnd Hacc E)
    as (Hr & Hc & Ha & evs & Ht & Hi).
  split; [exact Hr|]. split.
  - rewrite Ht. unfold wL. cbn [trace]. rewrite !initialized_app, Hi. done.
  - intros d. rewrite Hc, Ha. unfold wL, initAttemptCount. cbn. rewrite lookup_empty. cbn.
    split; [done|].
    destruct (bool_decide (d ∈ map device_id_of rows)); cbn; [|done].
    by destruct (initialization_error (initialize d)) as [e|].
Qed.

End Sequences.

Section Events.
Context {num : JSNumber} {json : JSON}.

(** X13. No event of the provider makes its handler fail, registers or
    unregisters a session, or changes a count; the row of the device
    becomes what [row_after] says, and no other row changes: a QR code is
    stored with the status "qr_ready", and "ready", "disconnected" and
    "auth_failure" clear it. *)
Theorem setupEventHandlers_contained deviceId event w :
  let r := setupEventHandlers deviceId event w in
  fst r = Return tt
  /\ clients (snd r) = clients w
  /\ initializationAttempts (snd r) = initializationAttempts w
  /\ devices (snd r) = alter (row_after event) deviceId (devices w).
Proof.
  cbv zeta. destruct event as [[data|e]|[user|]| |msg uuid post reply_uuid send|[] body| | | |];
    cbn [setupEventHandlers row_after];
    try (unfold on_qr, on_ready, on_authenticated, on_message_create, on_disconnected,
           on_auth_failure, on_loading_screen, on_change_state,
           try_catch, bind, settle, deviceModel_update, set_devices,
           logger_info, logger_warn, logger_error, logModel_create, emit, ret;
         cbn [fst snd clients initializationAttempts devices];
         repeat split; try done; symmetry; by apply alter_id).
  destruct (handleIncomingMessage _ _ _ _ _ _ w) as [r w'] eqn:H.
  apply handleIncomingMessage_effect in H as [-> H]. cbn [fst snd].
  rewrite alter_id by done.
  destruct (msg_isStatus msg); [by subst|].
  destruct H as (rest & (Hc & Ha & Hd & _) & _). done.
Qed.

(** X14. For a registered session with a row: after "ready" the
    session can send, and its row holds the number of the account; after
    "disconnected" or "auth_failure" the session is still registered but
    [sendMessage] refuses with "Device not connected" and the provider is
    not called. *)
Theorem status_events_gate_sending deviceId client row user reason to content uuid send w :
  Map_get deviceId (clients w) = Some client ->
  devices w !! deviceId = Some row ->
  (let w' := snd (setupEventHandlers deviceId (Ready (Some user)) w) in
   can_send w' deviceId = true
   /\ phone_number <$> devices w' !! deviceId = Some (Some user))
  /\ forall event, event = Disconnected reason \/ event = AuthFailure reason ->
       let w' := snd (setupEventHandlers deviceId event w) in
       Map_get deviceId (clients w') = Some client
       /\ sendMessage deviceId to content uuid send w'
          = (Throw (Error "Device not connected"), w').
Proof.
  intros Hc Hrow. split.
  - cbv zeta. cbn [setupEventHandlers].
    unfold on_ready, try_catch, bind, settle, deviceModel_update, set_devices,
      logger_info, logModel_create, emit, can_send.
    cbn [fst snd clients devices].
    rewrite Hc, lookup_alter_eq, Hrow. done.
  - intros event Hev. cbv zeta.
    assert (clients (snd (setupEventHandlers deviceId event w)) = clients w
            /\ exists text,
                 devices (snd (setupEventHandlers deviceId event w))
                 = alter (apply_patch {| patch_status := Some text;
                                         patch_phone_number := None;
                                         patch_qr_code := Some None |})
                     deviceId (devices w)
                 /\ String.eqb text "connected" = false) as (Hc' & text & Hd' & Htext).
    { destruct Hev as [-> | ->]; cbn [setupEventHandlers];
        unfold on_disconnected, on_auth_failure, bind, deviceModel_update, set_devices,
          logger_warn, logger_error, logModel_create, emit;
        cbn [fst snd clients devices]; (split; [done|]); eexists; split; done. }
    rewrite Hc', Hc. split; [done|].
    unfold sendMessage, bind, gets, deviceModel_findById.
    rewrite Hc', Hc. cbv beta iota delta [gets deviceModel_findById].
    rewrite Hd', lookup_alter_eq, Hrow. cbn. by rewrite Htext.
Qed.

End Events.

Section Older.
Context {num : JSNumber} {json : JSON}.

Lemma legacy_createDevice_failure deviceId name e w :
  Map_has deviceId (clients w) = false ->
  exists evs,
    LegacyLifecycle.createDevice deviceId name (Throw e) w
    = (Throw e,
       {| clients := Map_delete deviceId (Map_set deviceId {| clientId := deviceId |}
                                            (clients w));
          initializationAttempts := initializationAttempts w;
          devices := alter (apply_patch {| patch_status := Some "initializing";
                                           patch_phone_number := None;
                                           patch_qr_code := None |})
                       deviceId (devices w);
          trace := (trace w ++ evs)%list |})
    /\ initialized evs = [deviceId] /\ destroyed evs = [].
Proof.
  intros H. unfold LegacyLifecycle.createDevice, bind, gets. rewrite H.
  unfold try_catch, bind, client_initialize, settle, set_clients, deviceModel_update,
    set_devices, logger_info, logger_error, emit, throw, ret.
  cbn. eexists. rewrite <- !app_assoc. split; [reflexivity|done].
Qed.

(** X15. The older revision of [createDevice] has no limit and no
    teardown: however many initialisations of a device have failed, the
    next call starts another one, and none of the sessions that failed is
    torn down. *)
Theorem legacy_createDevice_unbounded deviceId name errors w :
  Map_has deviceId (clients w) = false ->
  let w' := LegacyLifecycle.retries deviceId name errors w in
  initialized (appended w w') = repeat deviceId (length errors)
  /\ destroyed (appended w w') = []
  /\ Map_has deviceId (clients w') = false.
Proof.
  intros H. cbv zeta.
  assert (exists evs,
            trace (LegacyLifecycle.retries deviceId name errors w) = (trace w ++ evs)%list
            /\ initialized evs = repeat deviceId (length errors)
            /\ destroyed evs = []
            /\ Map_has deviceId (clients (LegacyLifecycle.retries deviceId name errors w))
               = false) as (evs & Ht & Hi & Hd & Hc).
  { revert w H. induction errors as [|e errors IH]; intros w H.
    - exists []. cbn. by rewrite app_nil_r.
    - cbn [LegacyLifecycle.retries].
      destruct (legacy_createDevice_failure deviceId name e w H) as (evs & -> & Hi & Hd).
      cbn [snd].
      edestruct IH as (evs' & Ht' & Hi' & Hd' & Hc'); last first.
      + exists (evs ++ evs')%list. rewrite Ht'. cbn [trace].
        rewrite initialized_app, destroyed_app, Hi, Hd, Hi', Hd', app_assoc. done.
      + cbn [clients]. by rewrite Map_has_delete, String.eqb_refl. }
  by rewrite (appended_app _ _ _ Ht).
Qed.

End Older.

Section Routes.
Context {num : JSNumber} {json : JSON}.

Lemma legacy_disconnectDevice_summary deviceId destroy w :
  let r := LegacyLifecycle.disconnectDevice deviceId destroy w in
  fst r = Return tt
  /\ (forall d, Map_has d (clients (snd r))
                = Map_has d (clients w)
                  && negb (String.eqb deviceId d && negb (teardown_failed destroy)))
  /\ forall d, is_Some (devices (snd r) !! d) <-> is_Some (devices w !! d).
Proof.
  cbv zeta. unfold LegacyLifecycle.disconnectDevice, bind, gets.
  destruct (Map_get deviceId (clients w)) as [c|] eqn:Hget.
  - unfold client_destroy, try_catch, bind, settle, set_clients, deviceModel_update,
      set_devices, logger_info, logger_error, emit, ret.
    destruct destroy as [[]|e]; cbn.
    + split; [done|]. split.
      * intros d. rewrite Map_has_delete, andb_true_r. apply andb_comm.
      * intros d. apply lookup_alter_is_Some.
    + split; [done|]. split; [|done].
      intros d. by rewrite andb_false_r, andb_true_r.
  - cbn. split; [done|]. split; [|done].
    intros d. destruct (String.eqb_spec deviceId d) as [<-|]; cbn;
      [|by rewrite andb_true_r].
    rewrite Map_has_get, Hget. done.
Qed.

Lemma delete_route_after (disconnect : string -> M unit) id row w :
  devices w !! id = Some row ->
  fst (disconnect id w) = Return tt ->
  let r := delete_route disconnect id w in
  fst r = Return {| http_status := 200; success := true;
                    response_message := "Device deleted" |}
  /\ clients (snd r) = clients (snd (disconnect id w))
  /\ devices (snd r) !! id = None.
Proof.
  intros Hrow Hd. cbv zeta.
  unfold delete_route, try_catch, bind, deviceModel_findById, gets. rewrite Hrow.
  destruct (disconnect id w) as [r1 w1]. cbn in Hd. subst r1.
  unfold deviceModel_delete, set_devices, ret. cbn.
  split; [done|]. split; [done|]. apply lookup_delete_eq.
Qed.

(** X16. The route that deletes a device answers 404 and changes
    nothing when the device has no row; otherwise it answers 200 and the
    row is gone, also when the teardown of the session failed: the session
    then stays registered without a row, and [getStatus] reports it as
    active.  This holds with either revision of [disconnectDevice]. *)
Theorem delete_route_outcomes id destroy w :
  let r := delete_route (fun d => disconnectDevice d destroy) id w in
  let r' := delete_route (fun d => LegacyLifecycle.disconnectDevice d destroy) id w in
  match devices w !! id with
  | None =>
      r = (Return {| http_status := 404; success := false;
                     response_message := "Device not found" |}, w)
      /\ r' = r
  | Some _ =>
      forall x, x = r \/ x = r' ->
        fst x = Return {| http_status := 200; success := true;
                          response_message := "Device deleted" |}
        /\ fst (getStatus id (snd x))
           = Return {| status_row := None;
                       is_active := stays_registered w id destroy |}
  end.
Proof.
  cbv zeta. destruct (devices w !! id) as [row|] eqn:Hrow.
  2:{ unfold delete_route, try_catch, bind, deviceModel_findById, gets. by rewrite Hrow. }
  intros x [-> | ->].
  - destruct (disconnectDevice_summary id destroy w) as (Hr & Hc & _).
    destruct (delete_route_after (fun d => disconnectDevice d destroy) id row w Hrow Hr)
      as (Hr' & Hc' & Hd').
    split; [exact Hr'|].
    unfold getStatus, bind, deviceModel_findById, gets, ret. cbn [fst snd].
    rewrite Hd', Hc'.
    assert (Map_has id (clients (snd (disconnectDevice id destroy w)))
            = stays_registered w id destroy) as Hhas.
    { rewrite Hc, String.eqb_refl. unfold stays_registered. cbn [andb].
      by rewrite negb_involutive. }
    rewrite Map_has_get in Hhas.
    destruct (Map_get id _) as [c|]; cbn; by rewrite <- Hhas.
  - destruct (legacy_disconnectDevice_summary id destroy w) as (Hr & Hc & _).
    destruct (delete_route_after (fun d => LegacyLifecycle.disconnectDevice d destroy)
                id row w Hrow Hr) as (Hr' & Hc' & Hd').
    split; [exact Hr'|].
    unfold getStatus, bind, deviceModel_findById, gets, ret. cbn [fst snd].
    rewrite Hd', Hc'.
    assert (Map_has id (clients (snd (LegacyLifecycle.disconnectDevice id destroy w)))
            = stays_registered w id destroy) as Hhas.
    { rewrite Hc, String.eqb_refl. unfold stays_registered. cbn [andb].
      by rewrite negb_involutive. }
    rewrite Map_has_get in Hhas.
    destruct (Map_get id _) as [c|]; cbn; by rewrite <- Hhas.
Qed.

Lemma restartDevice_result deviceId destroy initialize cleanup row w :
  devices w !! deviceId = Some row ->
  fst (restartDevice deviceId destroy initialize cleanup w)
  = match restart_error w deviceId destroy initialize with
    | Some e => Throw e
    | None => Return tt
    end.
Proof.
  intros Hw.
  destruct (restartDevice_summary deviceId destroy initialize cleanup w)
    as (w1 & evs1 & Hc & Ha & Hd & _ & _ & ->).
  assert (Map_has deviceId (clients w1) = stays_registered w deviceId destroy) as Hhas.
  { rewrite Hc, String.eqb_refl. unfold stays_registered. cbn [andb].
    by rewrite negb_involutive. }
  assert (initAttemptCount w1 deviceId = initAttemptCount w deviceId) as Hcount
    by (unfold initAttemptCount; by rewrite Ha).
  assert (is_Some (devices w1 !! deviceId)) as [device H1].
  { rewrite Hd. destruct (_ && _); [apply lookup_alter_is_Some|]; eauto. }
  rewrite H1. cbv zeta. cbn [fst].
  destruct (createDevice_summary deviceId (device_name device) initialize cleanup w1)
    as (-> & _).
  rewrite Hhas, Hcount. unfold restart_error.
  destruct (stays_registered w deviceId destroy); [done|].
  destruct (maxRetries <=? _)%nat; [done|].
  by destruct (initialization_error initialize).
Qed.

(** X17. The route that restarts a device answers 404 without a row,
    200 when the restart ended normally, and otherwise 500 with the
    message of the error of the restart: "Device already exists" after a
    failed teardown, "Maximum initialization attempts reached" at the
    limit, or the error of the initialisation. *)
Theorem restart_route_answers id destroy initialize cleanup w :
  fst (restart_route (fun d => restartDevice d destroy initialize cleanup) id w)
  = Return
      match devices w !! id with
      | None => {| http_status := 404; success := false;
                   response_message := "Device not found" |}
      | Some _ =>
          match restart_error w id destroy initialize with
          | None => {| http_status := 200; success := true;
                       response_message := "Device restart initiated" |}
          | Some e => {| http_status := 500; success := false;
                         response_message := error_message e |}
          end
      end.
Proof.
  unfold restart_route, try_catch, bind, deviceModel_findById, gets.
  destruct (devices w !! id) as [row|] eqn:Hrow; [|done].
  pose proof (restartDevice_result id destroy initialize cleanup row w Hrow) as H.
  destruct (restartDevice id destroy initialize cleanup w) as [r1 w1]. cbn [fst] in H.
  subst r1. by destruct (restart_error w id destroy initialize).
Qed.

Lemma legacy_createDevice_result deviceId name initialize w :
  fst (LegacyLifecycle.createDevice deviceId name initialize w)
  = if Map_has deviceId (clients w) then Throw (Error "Device already exists")
    else match initialize with
         | Return _ => Return {| clientId := deviceId |}
         | Throw e => Throw e
         end.
Proof.
  unfold LegacyLifecycle.createDevice, bind, gets.
  destruct (Map_has deviceId (clients w)); [done|].
  unfold try_catch, bind, client_initialize, settle, set_clients, deviceModel_update,
    set_devices, logger_info, logger_error, emit, throw, ret.
  by destruct initialize as [[]|e].
Qed.

Lemma legacy_restartDevice_result deviceId destroy initialize row w :
  devices w !! deviceId = Some row ->
  fst (LegacyLifecycle.restartDevice deviceId destroy initialize w)
  = if stays_registered w deviceId destroy then Throw (Error "Device already exists")
    else match initialize with
         | Return _ => Return tt
         | Throw e => Throw e
         end.
Proof.
  intros Hrow. unfold LegacyLifecycle.restartDevice. unfold bind at 1.
  destruct (legacy_disconnectDevice_summary deviceId destroy w) as (Hr & Hc & Hd).
  destruct (LegacyLifecycle.disconnectDevice deviceId destroy w) as [r1 w1].
  cbn [fst snd] in *. subst r1.
  assert (Map_has deviceId (clients w1) = stays_registered w deviceId destroy) as Hhas.
  { rewrite Hc, String.eqb_refl. unfold stays_registered. cbn [andb].
    by rewrite negb_involutive. }
  assert (is_Some (devices w1 !! deviceId)) as [device H1] by (apply Hd; eauto).
  cbv beta iota delta [bind deviceModel_findById gets]. rewrite H1.
  pose proof (legacy_createDevice_result deviceId (device_name device) initialize w1) as H.
  rewrite Hhas in H.
  destruct (LegacyLifecycle.createDevice deviceId (device_name device) initialize w1)
    as [r2 w2].
  cbn [fst] in H. subst r2.
  destruct (stays_registered w deviceId destroy); [done|].
  by destruct initialize as [[]|e].
Qed.

(** X18. With the older manager the same route has no limit to answer
    with: for a device with a row it answers 500 "Device already exists"
    after a failed teardown, and otherwise 200 or the error of the
    initialisation, however often the initialisation has failed before. *)
Theorem legacy_restart_route_answers id destroy initialize w :
  fst (restart_route (fun d => LegacyLifecycle.restartDevice d destroy initialize) id w)
  = Return
      match devices w !! id with
      | None => {| http_status := 404; success := false;
                   response_message := "Device not found" |}
      | Some _ =>
          if stays_registered w id destroy
          then {| http_status := 500; success := false;
                  response_message := "Device already exists" |}
          else match initialize with
               | Return _ => {| http_status := 200; success := true;
                                response_message := "Device restart initiated" |}
               | Throw e => {| http_status := 500; success := false;
                               response_message := error_message e |}
               end
      end.
Proof.
  unfold restart_route, try_catch, bind, deviceModel_findById, gets.
  destruct (devices w !! id) as [row|] eqn:Hrow; [|done].
  pose proof (legacy_restartDevice_result id destroy initialize row w Hrow) as H.
  destruct (LegacyLifecycle.restartDevice id destroy initialize w) as [r1 w1].
  cbn [fst] in H. subst r1.
  destruct (stays_registered w id destroy); [done|].
  by destruct initialize as [[]|e].
Qed.

Lemma count_char_app c a b :
  count_char c (a ++ b) = (count_char c a + count_char c b)%nat.
Proof.
  induction a as [|d a IH]; simpl; [done|]. rewrite IH. lia.
Qed.

Lemma list_sum_cons x l : list_sum (x :: l) = (x + list_sum l)%nat.
Proof. done. Qed.

Lemma count_char_join sep parts :
  count_char "?" sep = 0%nat ->
  count_char "?" (Array_join sep parts)
  = list_sum (map (count_char "?") parts).
Proof.
  intros Hsep. destruct parts as [|p rest]; [done|]. cbn [Array_join map list_sum].
  revert p. induction rest as [|q rest IH]; intros p; simpl; [lia|].
  rewrite IH, !count_char_app, Hsep. simpl. lia.
Qed.

(** X19. The statement [deviceModel.update] prepares has one
    placeholder for every value it binds, as long as no column name holds
    a question mark. *)
Theorem update_statement_placeholders id data now :
  Forall (fun entry => count_char "?" (fst entry) = 0%nat) data ->
  count_char "?" (update_statement data) = length (update_values id data now).
Proof.
  intros H. unfold update_statement, update_values.
  assert (list_sum (map (count_char "?") (map (fun entry => fst entry ++ " = ?") data))
          = length data) as Hsum.
  { induction H as [|entry data He _ IH]; [done|].
    cbn [map length]. rewrite list_sum_cons, IH, count_char_app, He. done. }
  rewrite !count_char_app, count_char_join by done.
  rewrite map_app, list_sum_app, Hsum, !length_app, length_map. simpl. lia.
Qed.

Lemma test_substitute_primitive text entry :
  primitive (snd entry) = true -> test_substitute text entry = substitute text entry.
Proof. unfold test_substitute, substitute. by destruct (snd entry). Qed.

(** X20. The test route renders a template as the manager does: its
    variables have the same names in the same order as those of a
    delivery, and on every set of variables that are strings, numbers or
    booleans, its own among them, it builds the payload
    [buildDynamicPayload] builds. *)
Theorem test_payload_as_delivered template device now_ms now_s deviceId msg :
  map fst (test_variables device now_ms now_s)
  = map fst (template_variables deviceId device msg)
  /\ Forall (fun entry => primitive (snd entry) = true) (test_variables device now_ms now_s)
  /\ forall variables,
       Forall (fun entry => primitive (snd entry) = true) variables ->
       test_payload template variables = buildDynamicPayload template variables.
Proof.
  split; [done|]. split; [unfold test_variables; by repeat constructor|].
  intros variables H. unfold test_payload, buildDynamicPayload, rendered. f_equal.
  revert template. induction H as [|entry variables He _ IH]; intros template; [done|].
  cbn [fold_left]. by rewrite test_substitute_primitive, IH.
Qed.

End Routes.

Section MoreInstances.
Import Engine Examples.

(** *** The further properties at the example data *)


Lemma buildDynamicPayload_constant_witness :
  JSString.includes "{{" (quoted "{'event':'message'}") = false
  /\ buildDynamicPayload (quoted "{'event':'message'}")
       (template_variables "device-1" device2 money)
     = JSON_parse (quoted "{'event':'message'}").
Proof.
  assert (I : JSString.includes "{{" (quoted "{'event':'message'}") = false)
    by reflexivity.
  split; [exact I|].
  apply (buildDynamicPayload_constant _ (template_variables "device-1" device2 money) I).
Defined.

Lemma plain_answer_not_replied_witness :
  primitive (VStr "OK") = true
  /\ sends (appended world1
              (snd (forwardToWebhook "device-1" device1 hello
                      (incoming_row "device-1" hello "uuid-1")
                      (Responded 200 (VStr "OK")) "uuid-2" (Return sent1) world1)))
     = [].
Proof.
  assert (P : primitive (VStr "OK") = true) by reflexivity.
  split; [exact P|].
  destruct (plain_answer_not_replied "device-1" device1 hello
              (incoming_row "device-1" hello "uuid-1") 200 (VStr "OK") "uuid-2"
              (Return sent1) world1 P) as [_ H].
  exact H.
Defined.

Lemma handleWebhookResponse_not_a_string_witness :
  extractResponseMessage (VObj [("reply", VNum 42%Z)]) (webhook_response_path device3)
  = Return (VNum 42%Z)
  /\ fst (handleWebhookResponse "device-1" device3 hello (VObj [("reply", VNum 42%Z)])
            "uuid-2" (Return sent1) world1)
     = Return tt.
Proof.
  assert (X : extractResponseMessage (VObj [("reply", VNum 42%Z)])
                (webhook_response_path device3)
              = Return (VNum 42%Z)) by reflexivity.
  split; [exact X|].
  exact (f_equal fst
           (handleWebhookResponse_not_a_string "device-1" device3 hello
              (VObj [("reply", VNum 42%Z)]) (VNum 42%Z) "uuid-2" (Return sent1) world1
              X eq_refl eq_refl)).
Defined.

Lemma sequential_counts_bounded_witness :
  rtc call (new_manager (∅ : gmap string Device))
    (snd (createDevice "device-1" "Front desk" None (Return tt)
            (new_manager (∅ : gmap string Device))))
  /\ counts_bounded
       (snd (createDevice "device-1" "Front desk" None (Return tt)
               (new_manager (∅ : gmap string Device)))).
Proof.
  assert (R : rtc call (new_manager (∅ : gmap string Device))
                (snd (createDevice "device-1" "Front desk" None (Return tt)
                        (new_manager (∅ : gmap string Device)))))
    by (apply rtc_once, call_createDevice).
  split; [exact R|].
  apply (sequential_counts_bounded ∅ _ R).
Defined.

Lemma initializeDevices_isolated_witness :
  NoDup (map device_id_of [device1; device4])
  /\ fst (initializeDevices [device1; device4]
            (fun d => if String.eqb d "device-1" then None else Some (Return tt))
            (fun _ => Return tt) (new_manager (∅ : gmap string Device)))
     = Return tt.
Proof.
  assert (N : NoDup (map device_id_of [device1; device4])).
  { apply NoDup_cons. split; [|apply NoDup_singleton].
    intros H. apply list_elem_of_singleton in H. discriminate H. }
  split; [exact N|].
  destruct (initializeDevices_isolated ∅ [device1; device4]
              (fun d => if String.eqb d "device-1" then None else Some (Return tt))
              (fun _ => Return tt) N) as [H _].
  exact H.
Defined.

Lemma status_events_gate_sending_witness :
  Map_get "device-1" (clients world1) = Some {| clientId := "device-1" |}
  /\ devices world1 !! "device-1" = Some device1
  /\ fst (sendMessage "device-1" "6281" (VStr "hello") "uuid-1" (Return sent1)
            (snd (setupEventHandlers "device-1" (Disconnected "LOGOUT") world1)))
     = Throw (Error "Device not connected").
Proof.
  assert (G : Map_get "device-1" (clients world1) = Some {| clientId := "device-1" |})
    by reflexivity.
  assert (D : devices world1 !! "device-1" = Some device1) by (vm_compute; reflexivity).
  split; [exact G|]. split; [exact D|].
  destruct (status_events_gate_sending "device-1" {| clientId := "device-1" |} device1
              "6281234" "LOGOUT" "6281" (VStr "hello") "uuid-1" (Return sent1) world1 G D)
    as [_ H].
  destruct (H (Disconnected "LOGOUT") (or_introl eq_refl)) as [_ E].
  exact (f_equal fst E).
Defined.

Lemma legacy_createDevice_unbounded_witness :
  Map_has "device-1" (clients (new_manager (∅ : gmap string Device))) = false
  /\ initialized
       (appended (new_manager (∅ : gmap string Device))
          (LegacyLifecycle.retries "device-1" "Front desk"
             [refused; refused; refused; refused] (new_manager (∅ : gmap string Device))))
     = ["device-1"; "device-1"; "device-1"; "device-1"].
Proof.
  assert (H : Map_has "device-1" (clients (new_manager (∅ : gmap string Device))) = false)
    by reflexivity.
  split; [exact H|].
  destruct (legacy_createDevice_unbounded "device-1" "Front desk"
              [refused; refused; refused; refused] (new_manager ∅) H) as [I _].
  exact I.
Defined.

Lemma update_statement_placeholders_witness :
  Forall (fun entry => count_char "?" (fst entry) = 0%nat)
    [("status", VStr "connected"); ("phone_number", VStr "6281234"); ("qr_code", VNull)]
  /\ count_char "?"
       (update_statement
          [("status", VStr "connected"); ("phone_number", VStr "6281234");
           ("qr_code", VNull)])
     = 5%nat.
Proof.
  assert (F : Forall (fun entry : string * value => count_char "?" (fst entry) = 0%nat)
                [("status", VStr "connected"); ("phone_number", VStr "6281234");
                 ("qr_code", VNull)])
    by (repeat constructor).
  split; [exact F|].
  apply (update_statement_placeholders (num := integers) "device-1" _ 1700000000%Z F).
Defined.

End MoreInstances.
